(** * mcp-a2a-go: a shallow embedding of the request-handling spine

    The development follows the Go sources package by package.  The
    Retrieval Service (mcp-server) comes first: [Protocol] (JSON-RPC
    envelopes and error codes), [Auth] (bearer-token validation and the
    request context), [Database] (the tenant-scoped storage facade),
    [Middleware] (optional authentication and the fixed-window rate
    limiter), [Tools] and [Server].  The Task Service (a2a-server)
    follows: [A2AProtocol] (tasks and events), [Tasks] (the in-memory
    store with its subscriber channels), [Cost] (budgets) and
    [A2AServer] (REST handlers and the background processor).

    Libraries that the Go code calls but that are not part of the
    repository (encoding/json, golang-jwt, the PostgreSQL engine) enter
    the model as Section variables; Redis, whose INCR/EXPIRE behaviour
    the rate limiter relies on, is modelled explicitly. *)

From Stdlib Require Import ZArith Lia Bool List.
From Stdlib Require Import Floats.PrimFloat Numbers.Cyclic.Int63.Uint63.
From stdpp Require Import gmap strings pretty list.

Local Open Scope string_scope.
Local Open Scope list_scope.
Local Open Scope Z_scope.

(** ** Go values shared by both services *)

(** [time.Time]: the zero value, or an instant given in seconds since the
    Unix epoch ([time.Now()] never returns the zero value). *)
Variant GoTime :=
  | zero_time
  | instant (unix : Z).

#[global] Instance GoTime_eq_dec : EqDecision GoTime.
Proof. solve_decision. Defined.

(** [t.Before(u)] *)
Definition time_before (t u : GoTime) : bool :=
  match t, u with
  | instant a, instant b => a <? b
  | zero_time, instant _ => true
  | _, zero_time => false
  end.

(** [t.Equal(u)], [t.After(u)] and [t.IsZero()] *)
Definition time_equal (t u : GoTime) : bool := bool_decide (t = u).

Definition time_after (t u : GoTime) : bool := time_before u t.

Definition time_is_zero (t : GoTime) : bool := bool_decide (t = zero_time).

(** A decoded JSON value, as [interface{}] holds it after
    [json.Unmarshal] (numbers are float64). *)
#[warnings="-register-all"]
Inductive JSON :=
  | JNull
  | JBool (b : bool)
  | JNumber (f : float)
  | JString (s : string)
  | JTime (t : GoTime)
  | JArray (items : list JSON)
  | JObject (fields : list (string * JSON)).

(** A Go [error] value: [None] is [nil], [Some msg] carries [err.Error()]. *)
Definition error := option string.

(** [fmt.Errorf("prefix: %w", err)] *)
Definition wrap (prefix : string) (err : string) : string :=
  prefix +:+ ": " +:+ err.

(** The line feed that [\n] stands for in a Go string literal. *)
Definition LF : string := String.String (Ascii.ascii_of_nat 10) EmptyString.

(** Go's [int] on the 64-bit platforms the services are built for:
    arithmetic wraps around. *)
Definition wrap_int (z : Z) : Z := (z + 2 ^ 63) `mod` 2 ^ 64 - 2 ^ 63.

(** net/http status codes used by the handlers. *)
Definition StatusOK : Z := 200.
Definition StatusCreated : Z := 201.
Definition StatusBadRequest : Z := 400.
Definition StatusUnauthorized : Z := 401.
Definition StatusPaymentRequired : Z := 402.
Definition StatusNotFound : Z := 404.
Definition StatusMethodNotAllowed : Z := 405.
Definition StatusConflict : Z := 409.
Definition StatusTooManyRequests : Z := 429.
Definition StatusInternalServerError : Z := 500.

(** ** mcp-server/internal/protocol *)
Module Protocol.

Definition JSONRPCVersion : string := "2.0".

(** The request id: a string, a number, or absent. *)
Variant IDValue :=
  | IDString (s : string)
  | IDNumber (n : Z).

Definition ID := option IDValue.

(** [json.RawMessage]: the undecoded bytes of the [params] member. *)
Definition RawMessage := string.

Record Request := {
  req_JSONRPC : string;
  req_ID : ID;
  req_Method : string;
  req_Params : RawMessage
}.

Record Error := {
  Code : Z;
  Message : string;
  Data : option JSON
}.

(** Standard JSON-RPC error codes *)
Definition ParseError : Z := -32700.
Definition InvalidRequest : Z := -32600.
Definition MethodNotFound : Z := -32601.
Definition InvalidParams : Z := -32602.
Definition InternalError : Z := -32603.
Definition ServerError : Z := -32000.

(** MCP-specific error codes *)
Definition AuthenticationRequired : Z := -32001.
Definition AuthorizationFailed : Z := -32002.
Definition RateLimitExceeded : Z := -32003.
Definition ResourceNotFound : Z := -32004.
Definition ValidationError : Z := -32005.

(** MCP method names *)
Definition MethodInitialize : string := "initialize".
Definition MethodToolsList : string := "tools/list".
Definition MethodToolsCall : string := "tools/call".

Record Tool := {
  tool_Name : string;
  tool_Description : string;
  tool_InputSchema : JSON
}.

Record ContentBlock := {
  cb_Type : string;
  cb_Text : string
}.

Record ToolCallResult := {
  Content : list ContentBlock;
  IsError : bool
}.

Record ToolCallRequest := {
  call_Name : string;
  call_Arguments : gmap string JSON
}.

Record InitializeRequest := {
  init_ProtocolVersion : string;
  init_ClientName : string;
  init_ClientVersion : string
}.

Record InitializeResult := {
  ProtocolVersion : string;
  ToolsListChanged : bool;
  ServerInfoName : string;
  ServerInfoVersion : string
}.

(** What a handler puts in [Response.Result]. *)
Variant ResultValue :=
  | ResultInitialize (r : InitializeResult)
  | ResultToolsList (tools : list Tool)
  | ResultToolCall (r : ToolCallResult).

Record Response := {
  resp_JSONRPC : string;
  resp_ID : ID;
  resp_Result : option ResultValue;
  resp_Error : option Error
}.

Definition NewResponse (id : ID) (result : ResultValue) : Response :=
  {| resp_JSONRPC := JSONRPCVersion; resp_ID := id;
     resp_Result := Some result; resp_Error := None |}.

Definition NewErrorResponse (id : ID) (code : Z) (message : string)
    (data : option JSON) : Response :=
  {| resp_JSONRPC := JSONRPCVersion; resp_ID := id; resp_Result := None;
     resp_Error := Some {| Code := code; Message := message; Data := data |} |}.

(** [Request.Validate] *)
Definition Validate (r : Request) : error :=
  if negb (String.eqb (req_JSONRPC r) JSONRPCVersion) then
    Some ("invalid jsonrpc version: expected " +:+ JSONRPCVersion
          +:+ ", got " +:+ req_JSONRPC r)
  else if String.eqb (req_Method r) "" then Some "method is required"
  else None.

(** [Request.ParseParams]: absent params leave the target at its zero
    value; otherwise the decoder ([json.Unmarshal] into the target
    struct) decides. *)
Definition ParseParams {A} (unmarshal : RawMessage -> option A) (zero : A)
    (r : Request) : A + string :=
  if (String.length (req_Params r) =? 0)%nat then inl zero
  else match unmarshal (req_Params r) with
       | Some v => inl v
       | None => inr "failed to parse params"
       end.

End Protocol.

(** ** mcp-server/internal/auth *)
Module Auth.

(** The request context, restricted to the three keys [WithAuth] sets
    ([ctx.Value(key)] is [None] when the key was never set). *)
Record Context := {
  ctx_TenantID : option string;
  ctx_UserID : option string;
  ctx_Scopes : option (list string)
}.

(** A context carrying no principal ([r.Context()] of a fresh request). *)
Definition Background : Context :=
  {| ctx_TenantID := None; ctx_UserID := None; ctx_Scopes := None |}.

Record Claims := {
  TenantID : string;
  UserID : string;
  Email : string;
  Scopes : list string;
  Issuer : string;
  Audience : list string;
  ExpiresAt : option Z;
  NotBefore : option Z;
  IssuedAt : option Z
}.

(** The signing-method families of golang-jwt that matter to the key
    function. *)
Variant SigningMethod :=
  | SigningMethodRSA (alg : string)
  | SigningMethodHMAC (alg : string)
  | SigningMethodOther (alg : string).

(** A token after its three segments were decoded. *)
Record Token := {
  Method : SigningMethod;
  token_Claims : Claims;
  Signature : string
}.

Record JWTValidator := {
  publicKey : string;
  issuer : string;
  audience : string
}.

(** [strings.TrimPrefix] *)
Definition TrimPrefix (s prefix : string) : string :=
  if String.prefix prefix s
  then String.substring (String.length prefix)
         (String.length s - String.length prefix) s
  else s.

Section Validation.

(** golang-jwt: decoding of the compact serialization (None: malformed),
    and RSA signature verification of a decoded token under a PEM key. *)
Variable jwt_decode : string -> option Token.
Variable rsa_verify : string -> Token -> bool.

(** The registered-claims validation golang-jwt runs with its default
    options: [exp] must lie after now, [nbf] must not. *)
Definition registered_claims_valid (now : Z) (c : Claims) : bool :=
  match ExpiresAt c with Some e => now <? e | None => true end
  && match NotBefore c with Some n => n <=? now | None => true end.

(** [jwt.ParseWithClaims] with the key function of [ValidateToken]. *)
Definition ParseWithClaims (v : JWTValidator) (now : Z) (tokenString : string)
    : Token + string :=
  match jwt_decode tokenString with
  | None => inr "token is malformed"
  | Some token =>
      match Method token with
      | SigningMethodRSA _ =>
          if negb (rsa_verify (publicKey v) token)
          then inr "token signature is invalid"
          else if negb (registered_claims_valid now (token_Claims token))
          then inr "token has invalid claims"
          else inl token
      | SigningMethodHMAC alg | SigningMethodOther alg =>
          inr ("unexpected signing method: " +:+ alg)
      end
  end.

(** [JWTValidator.ValidateToken] *)
Definition ValidateToken (v : JWTValidator) (now : Z) (tokenString : string)
    : Claims + string :=
  let tokenString := TrimPrefix tokenString "Bearer " in
  match ParseWithClaims v now tokenString with
  | inr err => inr (wrap "failed to parse token" err)
  | inl token =>
      let claims := token_Claims token in
      if negb (String.eqb (Issuer claims) (issuer v)) then
        inr ("invalid issuer: expected " +:+ issuer v +:+ ", got "
             +:+ Issuer claims)
      else if negb (existsb (fun aud => String.eqb aud (audience v))
                      (Audience claims)) then
        inr "invalid audience"
      else if match ExpiresAt claims with
              | Some e => e <? now
              | None => false
              end then
        inr "token expired"
      else if String.eqb (TenantID claims) "" then
        inr "tenant_id claim is required"
      else inl claims
  end.

End Validation.

(** [ExtractTenantID] *)
Definition ExtractTenantID (ctx : Context) : string + string :=
  match ctx_TenantID ctx with
  | Some tenantID =>
      if String.eqb tenantID "" then inr "tenant_id not found in context"
      else inl tenantID
  | None => inr "tenant_id not found in context"
  end.

(** [WithAuth] *)
Definition WithAuth (ctx : Context) (claims : Claims) : Context :=
  {| ctx_TenantID := Some (TenantID claims);
     ctx_UserID := Some (UserID claims);
     ctx_Scopes := Some (Scopes claims) |}.

(** [ExtractUserID] *)
Definition ExtractUserID (ctx : Context) : string + string :=
  match ctx_UserID ctx with
  | Some userID =>
      if String.eqb userID "" then inr "user_id not found in context"
      else inl userID
  | None => inr "user_id not found in context"
  end.

(** [ExtractScopes]: a context without scopes yields the empty list, and
    the error is always nil. *)
Definition ExtractScopes (ctx : Context) : list string * error :=
  match ctx_Scopes ctx with
  | Some scopes => (scopes, None)
  | None => ([], None)
  end.

(** [HasScope] *)
Definition HasScope (ctx : Context) (requiredScope : string) : bool :=
  match ExtractScopes ctx with
  | (_, Some _) => false
  | (scopes, None) =>
      existsb (fun scope => String.eqb scope requiredScope) scopes
  end.

Section DemoTokens.

(** golang-jwt on the issuing side: the RS256 signature over a token's
    header and claims under a private key, and the compact
    serialization. *)
Variable rsa_sign : string -> SigningMethod -> Claims -> string.
Variable jwt_encode : Token -> string.

(** [GenerateDemoTokenWithExpiry]; [now] is the clock and [expiry] the
    duration, both in seconds ([jwt.NewNumericDate] keeps seconds). *)
Definition GenerateDemoTokenWithExpiry (now : Z) (tenantID userID : string)
    (scopes : list string) (privateKey : string) (expiry : Z) : string :=
  let claims :=
    {| TenantID := tenantID; UserID := userID; Email := "";
       Scopes := scopes; Issuer := "mcp-server-demo";
       Audience := ["mcp-server"]; ExpiresAt := Some (now + expiry);
       NotBefore := Some now; IssuedAt := Some now |} in
  jwt_encode {| Method := SigningMethodRSA "RS256"; token_Claims := claims;
                Signature :=
                  rsa_sign privateKey (SigningMethodRSA "RS256") claims |}.

(** [GenerateDemoToken]: 24 hours. *)
Definition GenerateDemoToken (now : Z) (tenantID userID : string)
    (scopes : list string) (privateKey : string) : string :=
  GenerateDemoTokenWithExpiry now tenantID userID scopes privateKey
    (24 * 3600).

End DemoTokens.

End Auth.

(** ** mcp-server/internal/database *)
Module Database.

Record Document := {
  doc_ID : string;
  doc_TenantID : string;
  Title : string;
  doc_Content : string;
  Metadata : JSON;
  Embedding : option (list float);
  CreatedAt : GoTime;
  UpdatedAt : GoTime;
  CreatedBy : option string
}.

(** A database role as [pg_roles] shows it, with whether it owns table
    [documents]. *)
Record Role := {
  rolname : string;
  rolsuper : bool;
  rolbypassrls : bool;
  owns_documents : bool
}.

(** The two roles of scripts/init-db.sql.  [mcp_user] is the role the
    container creates from POSTGRES_USER: the superuser that runs the
    script and so owns its tables.  [app_user] is created by the script
    with NOSUPERUSER and NOBYPASSRLS and is granted privileges on the
    tables. *)
Definition mcp_user : Role :=
  {| rolname := "mcp_user"; rolsuper := true; rolbypassrls := true;
     owns_documents := true |}.

Definition app_user : Role :=
  {| rolname := "app_user"; rolsuper := false; rolbypassrls := false;
     owns_documents := false |}.

(** The role the server's sessions run as unless DB_USER is set:
    [loadConfig] of cmd/server/main.go reads
    [getEnv("DB_USER", "mcp_user")] and [NewDB] connects with it. *)
Definition default_role : Role := mcp_user.

(** [ALTER TABLE documents ENABLE ROW LEVEL SECURITY]; the script has no
    FORCE ROW LEVEL SECURITY. *)
Definition relrowsecurity : bool := true.
Definition relforcerowsecurity : bool := false.

(** PostgreSQL applies the policies of a table to a role unless the role
    is a superuser or has BYPASSRLS, or owns the table while row security
    is not forced. *)
Definition row_security_applies (r : Role) : bool :=
  relrowsecurity
  && negb (rolsuper r) && negb (rolbypassrls r)
  && (negb (owns_documents r) || relforcerowsecurity).

(** The connection pool seen from the facade: whether a connection can be
    had, the role its sessions run as, and the rows of table
    [documents]. *)
Record DB := {
  pool_up : bool;
  role : Role;
  documents : list Document
}.

(** An open transaction: the statements sent so far (oldest first) and the
    value the session variable [app.current_tenant_id] holds. *)
Record Tx := {
  tx_log : list string;
  tx_tenant : string
}.

Record HybridSearchParams := {
  Query : string;
  QueryEmbedding : option (list float);
  Limit : Z;
  BM25Weight : float;
  VectorWeight : float;
  MinBM25Score : float;
  MinVectorSim : float
}.

Record HybridSearchResult := {
  hit_Document : Document;
  BM25Score : float;
  VectorScore : float;
  CombinedScore : float
}.

(** The text [SetTenantContext] builds with [fmt.Sprintf]. *)
Definition tenant_context_query (tenantID : string) : string :=
  "SET LOCAL app.current_tenant_id = '" +:+ tenantID +:+ "'".

Section Engine.

(** PostgreSQL as the facade uses it.  [exec_set_local sql] runs the text
    of a SET LOCAL statement: [Some v] is the value of
    [app.current_tenant_id] afterwards, [None] a failed statement.
    [uuid_cast] is the text-to-uuid input conversion (canonical text, None
    when the text is no UUID).  [ts_match], [ts_rank_cd] and
    [cosine_distance] are the full-text match ([@@]), the full-text rank
    and pgvector's [<=>] on [title || ' ' || content] and [embedding]. *)
Variable exec_set_local : string -> option string.
Variable uuid_cast : string -> option string.
Variable ts_match : Document -> string -> bool.
Variable ts_rank_cd : Document -> string -> float.
Variable cosine_distance : list float -> list float -> float.

(** [DB.SetTenantContext] on a transaction just begun. *)
Definition SetTenantContext (tx : Tx) (tenantID : string) : Tx + string :=
  let query := tenant_context_query tenantID in
  match exec_set_local query with
  | Some v => inl {| tx_log := tx_log tx ++ [query]; tx_tenant := v |}
  | None => inr "failed to set tenant context"
  end.

(** [DB.BeginTx] *)
Definition BeginTx (db : DB) (tenantID : string) : Tx + string :=
  if pool_up db then
    SetTenantContext {| tx_log := []; tx_tenant := "" |} tenantID
  else inr "failed to begin transaction".

(** The rows of [documents] a statement of the transaction ranges over.
    No query of the facade names [tenant_id] in its WHERE clause, so they
    are the rows row-level security leaves: for a role the policy applies
    to (scripts/init-db.sql, tenant_isolation_policy), those with
    [tenant_id = current_setting('app.current_tenant_id', true)::uuid],
    [None] when evaluating the cast fails; for a role that is exempt,
    every row of the table. *)
Definition visible (db : DB) (tx : Tx) : option (list Document) :=
  if row_security_applies (role db) then
    match uuid_cast (tx_tenant tx) with
    | Some tenant =>
        Some (filter (fun d => doc_TenantID d = tenant) (documents db))
    | None => None
    end
  else Some (documents db).

(** [DB.GetDocument]: [SELECT ... FROM documents WHERE id = $1]. *)
Definition GetDocument (db : DB) (tenantID docID : string)
    : Document + string :=
  match BeginTx db tenantID with
  | inr err => inr err
  | inl tx =>
      match visible db tx, uuid_cast docID with
      | Some rows, Some id =>
          match filter (fun d => doc_ID d = id) rows with
          | doc :: _ => inl doc
          | [] => inr "document not found"
          end
      | _, _ => inr "failed to get document"
      end
  end.

(** *** Hybrid search (hybrid_search.go) *)

(** SQL double precision values are nullable: [None] is NULL. *)
Definition sql_one_minus (d : option float) : option float :=
  (fun x => PrimFloat.sub 1 x) <$> d.

Definition coalesce0 (x : option float) : float := default 0%float x.

(** [x >= y] as a WHERE condition: NULL does not select the row. *)
Definition sql_ge (x : option float) (y : float) : bool :=
  match x with
  | Some a => PrimFloat.leb y a
  | None => false
  end.

(** [embedding <=> $2]: NULL when the query embedding is NULL. *)
Definition distance (emb : list float) (q : option (list float))
    : option float :=
  cosine_distance emb <$> q.

(** ORDER BY key ASC (NULLS LAST) and ORDER BY key DESC (NULLS FIRST):
    [x] may stand before [y]. *)
Definition asc (x y : option float) : bool :=
  match x, y with
  | Some a, Some b => PrimFloat.leb a b
  | Some _, None => true
  | None, Some _ => false
  | None, None => true
  end.

Definition desc (x y : option float) : bool :=
  match x, y with
  | Some a, Some b => PrimFloat.leb b a
  | None, _ => true
  | Some _, None => false
  end.

(** ORDER BY as a stable insertion sort: rows with equal keys keep the
    order of the table (SQL leaves it open). *)
Fixpoint insert_by {A} (before : A -> A -> bool) (x : A) (l : list A)
    : list A :=
  match l with
  | [] => [x]
  | y :: l' => if before x y then x :: y :: l'
               else y :: insert_by before x l'
  end.

Definition order_by {A} (before : A -> A -> bool) (l : list A) : list A :=
  foldr (insert_by before) [] l.

(** A row of a ranked sub-query: the document, its score and its
    ROW_NUMBER(). *)
Record Ranked := {
  row : Document;
  score : option float;
  rank : Z
}.

(** ROW_NUMBER() OVER (ORDER BY ...): positions from 1 in a sorted list. *)
Definition row_number (l : list (Document * option float)) : list Ranked :=
  imap (fun i '(d, s) =>
          {| row := d; score := s; rank := Z.of_nat (S i) |}) l.

Definition has_embedding (d : Document) : bool :=
  match Embedding d with Some _ => true | None => false end.

Definition embedding_of (d : Document) : list float :=
  default [] (Embedding d).

(** CTE [bm25_results] of [HybridSearch]: every visible row the text query
    matches, ranked by descending full-text rank. *)
Definition bm25_results (rows : list Document) (query : string)
    : list Ranked :=
  row_number
    (order_by (fun a b => desc a.2 b.2)
       ((fun d => (d, Some (ts_rank_cd d query)))
          <$> filter (fun d => ts_match d query = true) rows)).

(** CTE [vector_results]: every visible row with an embedding, ranked by
    ascending distance; its score is [1 - distance]. *)
Definition vector_results (rows : list Document) (q : option (list float))
    : list Ranked :=
  (fun r => {| row := row r; score := sql_one_minus (score r);
               rank := rank r |})
    <$> row_number
          (order_by (fun a b => asc a.2 b.2)
             ((fun d => (d, distance (embedding_of d) q))
                <$> filter (fun d => has_embedding d = true) rows)).

Definition find_id (id : string) (l : list Ranked) : option Ranked :=
  head (filter (fun r => doc_ID (row r) = id) l).

(** [bm25_results b FULL OUTER JOIN vector_results v ON b.id = v.id]
    ([id] is the primary key, so a row has at most one partner). *)
Definition full_outer_join (b v : list Ranked)
    : list (option Ranked * option Ranked) :=
  ((fun x => (Some x, find_id (doc_ID (row x)) v)) <$> b)
  ++ ((fun y => (None, Some y))
        <$> filter (fun y => find_id (doc_ID (row y)) b = None) v).

Section Fusion.

(** [1.0 / n] as the engine computes it for [1.0 / (60 + rank)]. *)
Variable reciprocal : Z -> float.

(** A row of CTE [combined], before its WHERE clause. *)
Definition combine (bm25Weight vectorWeight : float)
    (j : option Ranked * option Ranked) : option HybridSearchResult :=
  let term (r : option Ranked) : float :=
    coalesce0 ((fun x => reciprocal (60 + rank x)) <$> r) in
  match from_option (fun x => Some (row x)) (row <$> j.2) j.1 with
  | Some d =>
      Some {| hit_Document := d;
              BM25Score := coalesce0 (j.1 ≫= score);
              VectorScore := coalesce0 (j.2 ≫= score);
              CombinedScore :=
                PrimFloat.add (PrimFloat.mul (term j.1) bm25Weight)
                              (PrimFloat.mul (term j.2) vectorWeight) |}
  | None => None
  end.

(** Weight normalisation and the default limit, shared by both variants. *)
Definition normalize (p : HybridSearchParams) : float * float :=
  let totalWeight := PrimFloat.add (BM25Weight p) (VectorWeight p) in
  if PrimFloat.eqb totalWeight 0
  then (PrimFloat.div 0.5 1, PrimFloat.div 0.5 1)
  else (PrimFloat.div (BM25Weight p) totalWeight,
        PrimFloat.div (VectorWeight p) totalWeight).

Definition effective_limit (p : HybridSearchParams) : Z :=
  if Limit p <=? 0 then 10 else Limit p.

(** The rows of CTE [combined] for a set of visible rows. *)
Definition combined (rows : list Document) (p : HybridSearchParams)
    : list HybridSearchResult :=
  let '(bm25Weight, vectorWeight) := normalize p in
  filter (fun h => orb (PrimFloat.leb (MinBM25Score p) (BM25Score h))
                       (PrimFloat.leb (MinVectorSim p) (VectorScore h))
                   = true)
    (omap (combine bm25Weight vectorWeight)
       (full_outer_join (bm25_results rows (Query p))
                        (vector_results rows (QueryEmbedding p)))).

(** [DB.HybridSearch] (reciprocal-rank fusion). *)
Definition HybridSearch (db : DB) (tenantID : string)
    (p : HybridSearchParams) : list HybridSearchResult + string :=
  match BeginTx db tenantID with
  | inr err => inr err
  | inl tx =>
      match visible db tx with
      | None => inr "failed to perform hybrid search"
      | Some rows =>
          inl (take (Z.to_nat (effective_limit p))
                 (order_by (fun a b => desc (Some (CombinedScore a))
                                            (Some (CombinedScore b)))
                    (combined rows p)))
      end
  end.

(** One selected row of [SimpleHybridSearch] with its three score columns
    ([vector_score] and [combined_score] are NULL when the row has an
    embedding and the query embedding is NULL). *)
Definition simple_row (bm25Weight vectorWeight : float)
    (p : HybridSearchParams) (d : Document)
    : Document * float * option float * option float :=
  let bm25 := ts_rank_cd d (Query p) in
  let vec := if has_embedding d
             then sql_one_minus (distance (embedding_of d) (QueryEmbedding p))
             else Some 0%float in
  let vecw := if has_embedding d
              then (fun x => PrimFloat.mul x vectorWeight) <$> vec
              else Some 0%float in
  (d, bm25, vec,
   (fun x => PrimFloat.add (PrimFloat.mul bm25 bm25Weight) x) <$> vecw).

(** The rows the single query of [SimpleHybridSearch] selects, in result
    order, before LIMIT. *)
Definition simple_rows (rows : list Document) (p : HybridSearchParams)
    : list (Document * float * option float * option float) :=
  let '(bm25Weight, vectorWeight) := normalize p in
  order_by (fun a b => desc a.2 b.2)
    (simple_row bm25Weight vectorWeight p
       <$> filter (fun d =>
                     orb (ts_match d (Query p))
                         (has_embedding d
                          && sql_ge (sql_one_minus
                                       (distance (embedding_of d)
                                          (QueryEmbedding p)))
                                    (MinVectorSim p)) = true) rows).

(** [rows.Scan] of one result row: a NULL score cannot be scanned into a
    float64. *)
Definition scan_row (r : Document * float * option float * option float)
    : option HybridSearchResult :=
  match r with
  | (d, bm25, Some vec, Some comb) =>
      Some {| hit_Document := d; BM25Score := bm25; VectorScore := vec;
              CombinedScore := comb |}
  | _ => None
  end.

(** [DB.SimpleHybridSearch] (weighted score fusion). *)
Definition SimpleHybridSearch (db : DB) (tenantID : string)
    (p : HybridSearchParams) : list HybridSearchResult + string :=
  match BeginTx db tenantID with
  | inr err => inr err
  | inl tx =>
      match visible db tx with
      | None => inr "failed to perform simple hybrid search"
      | Some rows =>
          match mapM scan_row
                  (take (Z.to_nat (effective_limit p)) (simple_rows rows p))
          with
          | Some results => inl results
          | None => inr "failed to scan result"
          end
      end
  end.

End Fusion.

End Engine.

End Database.

(** ** Redis, as far as the rate limiter uses it *)
Module Redis.

(** A key holds an integer and, once EXPIRE was called, the instant
    (seconds since the epoch) at which it disappears. *)
Record Entry := {
  value : Z;
  expire_at : option Z
}.

Record Client := {
  up : bool;
  keys : gmap string Entry
}.

(** The entry a command sees: an expired key is gone. *)
Definition get (now : Z) (c : Client) (key : string) : option Entry :=
  match keys c !! key with
  | Some e =>
      match expire_at e with
      | Some t => if now <? t then Some e else None
      | None => Some e
      end
  | None => None
  end.

(** INCR: a missing key counts from 0; the time to live is kept. *)
Definition Incr (now : Z) (key : string) (c : Client) : Client * (Z + string) :=
  if up c then
    let e := match get now c key with
             | Some e => {| value := value e + 1; expire_at := expire_at e |}
             | None => {| value := 1; expire_at := None |}
             end in
    ({| up := up c; keys := <[key := e]> (keys c) |}, inl (value e))
  else (c, inr "connection refused").

(** EXPIRE key seconds *)
Definition Expire (now : Z) (key : string) (seconds : Z) (c : Client) : Client :=
  if up c then
    match get now c key with
    | Some e =>
        {| up := up c;
           keys := <[key := {| value := value e;
                               expire_at := Some (now + seconds) |}]> (keys c) |}
    | None => c
    end
  else c.

End Redis.

(** ** net/http, as far as the handlers use it *)
Module HTTP.

Record Request := {
  http_Method : string;
  Authorization : string;
  http_Body : option string
}.

(** What was written to the [http.ResponseWriter]. *)
Variant Body :=
  | BodyRPC (r : Protocol.Response)
  | BodyText (s : string).

Record Response := {
  StatusCode : Z;
  ContentType : string;
  body : Body
}.

(** [http.Error] *)
Definition Error (msg : string) (code : Z) : Response :=
  {| StatusCode := code; ContentType := "text/plain; charset=utf-8";
     body := BodyText msg |}.

(** An [http.Handler] of the Retrieval Service: it reads the clock and the
    request with its context, and may touch the Redis counters. *)
Definition Handler :=
  Z -> Auth.Context -> Request -> Redis.Client -> Response * Redis.Client.

End HTTP.

(** ** mcp-server/internal/middleware *)
Module Middleware.

(** *** auth.go *)

Record AuthMiddleware := {
  validator : Auth.JWTValidator;
  allowUnauthenticated : gmap string bool
}.

Definition NewAuthMiddleware (v : Auth.JWTValidator) : AuthMiddleware :=
  {| validator := v;
     allowUnauthenticated := {[ Protocol.MethodInitialize := true ]} |}.

(** [AuthMiddleware.sendError] *)
Definition auth_sendError (id : Protocol.ID) (code : Z) (message : string)
    : HTTP.Response :=
  {| HTTP.StatusCode := StatusUnauthorized;
     HTTP.ContentType := "application/json";
     HTTP.body := HTTP.BodyRPC (Protocol.NewErrorResponse id code message None) |}.

Section WithJWT.

Variable jwt_decode : string -> option Auth.Token.
Variable rsa_verify : string -> Auth.Token -> bool.

(** [AuthMiddleware.Handler]: authentication is mandatory. *)
Definition Handler (m : AuthMiddleware) (next : HTTP.Handler) : HTTP.Handler :=
  fun now ctx r redis =>
    let authHeader := HTTP.Authorization r in
    if String.eqb authHeader "" then
      (auth_sendError None Protocol.AuthenticationRequired
         "Authorization header required", redis)
    else
      match Auth.ValidateToken jwt_decode rsa_verify (validator m) now authHeader with
      | inr err =>
          (auth_sendError None Protocol.AuthenticationRequired
             ("Invalid token: " +:+ err), redis)
      | inl claims => next now (Auth.WithAuth ctx claims) r redis
      end.

(** [AuthMiddleware.OptionalHandler]: a request without the header goes on
    without a principal. *)
Definition OptionalHandler (m : AuthMiddleware) (next : HTTP.Handler)
    : HTTP.Handler :=
  fun now ctx r redis =>
    let authHeader := HTTP.Authorization r in
    if negb (String.eqb authHeader "") then
      match Auth.ValidateToken jwt_decode rsa_verify (validator m) now authHeader with
      | inl claims => next now (Auth.WithAuth ctx claims) r redis
      | inr err =>
          (auth_sendError None Protocol.AuthenticationRequired
             ("Invalid token: " +:+ err), redis)
      end
    else next now ctx r redis.

End WithJWT.

(** *** ratelimit.go *)

(** [window] is a [time.Duration], kept here in seconds. *)
Record RateLimiter := {
  defaultLimit : Z;
  window : Z
}.

Definition NewRateLimiter (defaultLimit : Z) : RateLimiter :=
  {| defaultLimit := defaultLimit; window := 60 |}.

(** [fmt.Sprintf("ratelimit:%s:%d", tenantID, time.Now().Unix()/60)];
    Go's integer division truncates. *)
Definition ratelimit_key (tenantID : string) (now : Z) : string :=
  "ratelimit:" +:+ tenantID +:+ ":" +:+ pretty (now `quot` 60).

(** [RateLimiter.checkLimit] *)
Definition checkLimit (rl : RateLimiter) (now : Z) (tenantID : string)
    (redis : Redis.Client) : Redis.Client * (bool * error) :=
  let key := ratelimit_key tenantID now in
  match Redis.Incr now key redis with
  | (redis, inr err) =>
      (redis, (false, Some (wrap "failed to increment counter" err)))
  | (redis, inl count) =>
      let redis := if count =? 1
                   then Redis.Expire now key (window rl) redis
                   else redis in
      (redis, (count <=? defaultLimit rl, None))
  end.

(** Consecutive calls of [checkLimit] for one tenant at the given clock
    readings: the counters afterwards and the answers, in order. *)
Fixpoint checkLimits (rl : RateLimiter) (tenantID : string) (times : list Z)
    (redis : Redis.Client) : Redis.Client * list (bool * error) :=
  match times with
  | [] => (redis, [])
  | now :: times =>
      let '(redis, answer) := checkLimit rl now tenantID redis in
      let '(redis, answers) := checkLimits rl tenantID times redis in
      (redis, answer :: answers)
  end.

(** [RateLimiter.sendError] *)
Definition ratelimit_sendError (rl : RateLimiter) (id : Protocol.ID)
    (code : Z) (message : string) : HTTP.Response :=
  {| HTTP.StatusCode := StatusTooManyRequests;
     HTTP.ContentType := "application/json";
     HTTP.body :=
       HTTP.BodyRPC
         (Protocol.NewErrorResponse id code message
            (Some (JObject [("retry_after",
                             JNumber (PrimFloat.of_uint63
                                        (Uint63.of_Z (window rl))))]))) |}.

(** [RateLimiter.Handler] *)
Definition RateLimitHandler (rl : RateLimiter) (next : HTTP.Handler)
    : HTTP.Handler :=
  fun now ctx r redis =>
    match Auth.ExtractTenantID ctx with
    | inr _ => next now ctx r redis
    | inl tenantID =>
        match checkLimit rl now tenantID redis with
        | (redis, (_, Some _)) => next now ctx r redis
        | (redis, (allowed, None)) =>
            if negb allowed then
              (ratelimit_sendError rl None Protocol.RateLimitExceeded
                 "Rate limit exceeded for tenant", redis)
            else next now ctx r redis
        end
    end.

End Middleware.

(** ** mcp-server/internal/tools *)
Module Tools.

(** The [Tool] interface.  A tool keeps its database handle; the MCP tools
    only read, so [Execute] is a function of the context and arguments. *)
Record Tool := {
  ToolDefinition : Protocol.Tool;
  Execute : Auth.Context -> gmap string JSON -> Protocol.ToolCallResult * error
}.

Record Registry := {
  tools : gmap string Tool
}.

Definition NewRegistry : Registry := {| tools := ∅ |}.

Definition Register (r : Registry) (tool : Tool) : Registry :=
  {| tools := <[Protocol.tool_Name (ToolDefinition tool) := tool]> (tools r) |}.

Definition Get (r : Registry) (name : string) : option Tool :=
  tools r !! name.

(** [Registry.List]; Go leaves the iteration order of a map open. *)
Definition List (r : Registry) : list Protocol.Tool :=
  (fun kv => ToolDefinition kv.2) <$> map_to_list (tools r).

(** [Registry.Execute] *)
Definition RegistryExecute (r : Registry) (ctx : Auth.Context) (name : string)
    (args : gmap string JSON) : Protocol.ToolCallResult * error :=
  match Get r name with
  | None =>
      ({| Protocol.Content := []; Protocol.IsError := true |},
       Some ("tool not found: " +:+ name))
  | Some tool => Execute tool ctx args
  end.

(** The result every tool returns next to an error. *)
Definition failed : Protocol.ToolCallResult :=
  {| Protocol.Content := []; Protocol.IsError := true |}.

Section Retrieve.

Variable exec_set_local : string -> option string.
Variable uuid_cast : string -> option string.

(** [RetrieveParams] (tools/retrieve.go) *)
Record RetrieveParams := {
  DocumentID : string
}.

(** encoding/json and package time as the tool uses them:
    [unmarshalRetrieveParams] is [json.Marshal] of the arguments followed
    by [json.Unmarshal] into a [RetrieveParams] ([inr] carries the error of
    whichever fails), [marshalMetadata] is [json.Marshal] on a document's
    metadata and [formatTime] is [Format("2006-01-02 15:04:05")]. *)
Variable unmarshalRetrieveParams : gmap string JSON -> RetrieveParams + string.
Variable marshalMetadata : JSON -> string.
Variable formatTime : GoTime -> string.

(** The text of a retrieved document, as [Execute] builds it line by
    line. *)
Definition resultText (doc : Database.Document) : string :=
  "Document Retrieved:" +:+ LF +:+ LF
  +:+ "ID: " +:+ Database.doc_ID doc +:+ LF
  +:+ "Title: " +:+ Database.Title doc +:+ LF
  +:+ "Content:" +:+ LF +:+ Database.doc_Content doc +:+ LF +:+ LF
  +:+ "Metadata: " +:+ marshalMetadata (Database.Metadata doc) +:+ LF
  +:+ "Created: " +:+ formatTime (Database.CreatedAt doc) +:+ LF
  +:+ "Updated: " +:+ formatTime (Database.UpdatedAt doc) +:+ LF
  +:+ match Database.CreatedBy doc with
      | Some by_ =>
          if String.eqb by_ "" then "" else "Created By: " +:+ by_ +:+ LF
      | None => ""
      end.

(** [RetrieveTool.Execute] *)
Definition RetrieveExecute (db : Database.DB) (ctx : Auth.Context)
    (args : gmap string JSON) : Protocol.ToolCallResult * error :=
  match Auth.ExtractTenantID ctx with
  | inr err => (failed, Some (wrap "authentication required" err))
  | inl tenantID =>
      match unmarshalRetrieveParams args with
      | inr err => (failed, Some (wrap "invalid arguments" err))
      | inl params =>
          if String.eqb (DocumentID params) "" then
            (failed, Some "document_id is required")
          else
            match Database.GetDocument exec_set_local uuid_cast db
                    tenantID (DocumentID params) with
            | inr err => (failed, Some (wrap "failed to retrieve document" err))
            | inl doc =>
                ({| Protocol.Content :=
                      [{| Protocol.cb_Type := "text";
                          Protocol.cb_Text := resultText doc |}];
                    Protocol.IsError := false |}, None)
            end
      end
  end.

(** [NewRetrieveTool] with the tool's [Definition]. *)
Definition NewRetrieveTool (db : Database.DB) : Tool :=
  {| ToolDefinition :=
       {| Protocol.tool_Name := "retrieve_document";
          Protocol.tool_Description :=
            "Retrieve a specific document by its ID. Returns the full document content and metadata.";
          Protocol.tool_InputSchema :=
            JObject
              [("type", JString "object");
               ("properties",
                JObject
                  [("document_id",
                    JObject
                      [("type", JString "string");
                       ("description",
                        JString "The unique identifier of the document to retrieve")])]);
               ("required", JArray [JString "document_id"])] |};
     Execute := RetrieveExecute db |}.

End Retrieve.

End Tools.

(** ** mcp-server/internal/server *)
Module Server.

Definition MCPProtocolVersion : string := "2024-11-05".
Definition ServerName : string := "mcp-rag-server".
Definition ServerVersion : string := "1.0.0".

Record MCPHandler := {
  toolRegistry : Tools.Registry
}.

Definition NewMCPHandler (toolRegistry : Tools.Registry) : MCPHandler :=
  {| toolRegistry := toolRegistry |}.

(** [MCPHandler.sendResponse]: the HTTP status follows the error code. *)
Definition sendResponse (response : Protocol.Response) : HTTP.Response :=
  let status :=
    match Protocol.resp_Error response with
    | Some e =>
        let code := Protocol.Code e in
        if (code =? Protocol.AuthenticationRequired)
           || (code =? Protocol.AuthorizationFailed)
        then StatusUnauthorized
        else if code =? Protocol.RateLimitExceeded then StatusTooManyRequests
        else if code =? Protocol.ResourceNotFound then StatusNotFound
        else if code =? Protocol.ValidationError then StatusBadRequest
        else if (code =? Protocol.ParseError)
                || (code =? Protocol.InvalidRequest)
                || (code =? Protocol.MethodNotFound)
                || (code =? Protocol.InvalidParams)
                || (code =? Protocol.InternalError)
                || (code =? Protocol.ServerError)
        then StatusOK
        else StatusInternalServerError
    | None => StatusOK
    end in
  {| HTTP.StatusCode := status; HTTP.ContentType := "application/json";
     HTTP.body := HTTP.BodyRPC response |}.

(** [MCPHandler.sendErrorResponse] *)
Definition sendErrorResponse (id : Protocol.ID) (code : Z) (message : string)
    : HTTP.Response :=
  sendResponse (Protocol.NewErrorResponse id code message None).

Section Codec.

(** encoding/json: decoding of the request body and of [params] into the
    two parameter structs (None: the decoder returns an error). *)
Variable unmarshalRequest : string -> option Protocol.Request.
Variable unmarshalInitialize :
  Protocol.RawMessage -> option Protocol.InitializeRequest.
Variable unmarshalToolCall :
  Protocol.RawMessage -> option Protocol.ToolCallRequest.

(** [MCPHandler.handleInitialize] *)
Definition handleInitialize (h : MCPHandler) (ctx : Auth.Context)
    (req : Protocol.Request) : Protocol.Response :=
  match Protocol.ParseParams unmarshalInitialize
          {| Protocol.init_ProtocolVersion := "";
             Protocol.init_ClientName := "";
             Protocol.init_ClientVersion := "" |} req with
  | inr err =>
      Protocol.NewErrorResponse (Protocol.req_ID req) Protocol.InvalidParams
        ("Invalid initialize params: " +:+ err) None
  | inl _ =>
      Protocol.NewResponse (Protocol.req_ID req)
        (Protocol.ResultInitialize
           {| Protocol.ProtocolVersion := MCPProtocolVersion;
              Protocol.ToolsListChanged := false;
              Protocol.ServerInfoName := ServerName;
              Protocol.ServerInfoVersion := ServerVersion |})
  end.

(** [MCPHandler.handleToolsList] *)
Definition handleToolsList (h : MCPHandler) (ctx : Auth.Context)
    (req : Protocol.Request) : Protocol.Response :=
  Protocol.NewResponse (Protocol.req_ID req)
    (Protocol.ResultToolsList (Tools.List (toolRegistry h))).

(** [req.ParseParams(&toolReq)] on a zero [ToolCallRequest]. *)
Definition parseToolCall (req : Protocol.Request)
    : Protocol.ToolCallRequest + string :=
  Protocol.ParseParams unmarshalToolCall
    {| Protocol.call_Name := ""; Protocol.call_Arguments := ∅ |} req.

(** [MCPHandler.handleToolsCall] *)
Definition handleToolsCall (h : MCPHandler) (ctx : Auth.Context)
    (req : Protocol.Request) : Protocol.Response :=
  match parseToolCall req with
  | inr err =>
      Protocol.NewErrorResponse (Protocol.req_ID req) Protocol.InvalidParams
        ("Invalid tool call params: " +:+ err) None
  | inl toolReq =>
      match Tools.RegistryExecute (toolRegistry h) ctx
              (Protocol.call_Name toolReq) (Protocol.call_Arguments toolReq) with
      | (_, Some err) =>
          Protocol.NewErrorResponse (Protocol.req_ID req) Protocol.InternalError
            ("Tool execution failed: " +:+ err) None
      | (result, None) =>
          Protocol.NewResponse (Protocol.req_ID req)
            (Protocol.ResultToolCall result)
      end
  end.

(** [MCPHandler.handleRequest] *)
Definition handleRequest (h : MCPHandler) (ctx : Auth.Context)
    (req : Protocol.Request) : Protocol.Response :=
  if String.eqb (Protocol.req_Method req) Protocol.MethodInitialize then
    handleInitialize h ctx req
  else if String.eqb (Protocol.req_Method req) Protocol.MethodToolsList then
    handleToolsList h ctx req
  else if String.eqb (Protocol.req_Method req) Protocol.MethodToolsCall then
    handleToolsCall h ctx req
  else
    Protocol.NewErrorResponse (Protocol.req_ID req) Protocol.MethodNotFound
      ("Method not found: " +:+ Protocol.req_Method req) None.

(** [MCPHandler.ServeHTTP] *)
Definition ServeHTTP (h : MCPHandler) (ctx : Auth.Context) (r : HTTP.Request)
    : HTTP.Response :=
  if negb (String.eqb (HTTP.http_Method r) "POST") then
    HTTP.Error "Method not allowed" StatusMethodNotAllowed
  else
    match HTTP.http_Body r with
    | None => sendErrorResponse None Protocol.ParseError
                "Failed to read request body"
    | Some body =>
        match unmarshalRequest body with
        | None => sendErrorResponse None Protocol.ParseError "Invalid JSON"
        | Some req =>
            match Protocol.Validate req with
            | Some err =>
                sendErrorResponse (Protocol.req_ID req)
                  Protocol.InvalidRequest err
            | None => sendResponse (handleRequest h ctx req)
            end
        end
    end.

Variable jwt_decode : string -> option Auth.Token.
Variable rsa_verify : string -> Auth.Token -> bool.

(** The [/mcp] route of cmd/server/main.go: optional authentication, then
    rate limiting, then the handler (the tracing wrapper around them only
    observes). *)
Definition mcpEndpoint (m : Middleware.AuthMiddleware)
    (rl : Middleware.RateLimiter) (h : MCPHandler) : HTTP.Handler :=
  Middleware.OptionalHandler jwt_decode rsa_verify m
    (Middleware.RateLimitHandler rl
       (fun _ ctx r redis => (ServeHTTP h ctx r, redis))).

End Codec.

End Server.

(** ** a2a-server/internal/protocol *)
Module A2AProtocol.

Variant TaskState :=
  | TaskStatePending
  | TaskStateRunning
  | TaskStateCompleted
  | TaskStateFailed
  | TaskStateCancelled.

#[global] Instance TaskState_eq_dec : EqDecision TaskState.
Proof. solve_decision. Defined.

(** [TaskState.IsTerminal] *)
Definition IsTerminal (ts : TaskState) : bool :=
  match ts with
  | TaskStateCompleted | TaskStateFailed | TaskStateCancelled => true
  | TaskStatePending | TaskStateRunning => false
  end.

Record Task := {
  ID : string;
  AgentID : string;
  Capability : string;
  Input : gmap string JSON;
  State : TaskState;
  Result : option (gmap string JSON);
  Error : string;
  CreatedAt : GoTime;
  UpdatedAt : GoTime;
  CompletedAt : GoTime
}.

(** [NewTask]; [id] is the value of [uuid.New().String()], [now] the
    clock. *)
Definition NewTask (id : string) (now : Z) (agentID capability : string)
    (input : gmap string JSON) : Task :=
  {| ID := id; AgentID := agentID; Capability := capability; Input := input;
     State := TaskStatePending; Result := None; Error := "";
     CreatedAt := instant now; UpdatedAt := instant now;
     CompletedAt := zero_time |}.

(** [Task.UpdateState] *)
Definition UpdateState (t : Task) (state : TaskState) (now : Z) : Task :=
  {| ID := ID t; AgentID := AgentID t; Capability := Capability t;
     Input := Input t; State := state; Result := Result t; Error := Error t;
     CreatedAt := CreatedAt t; UpdatedAt := instant now;
     CompletedAt := CompletedAt t |}.

(** [Task.SetResult] *)
Definition SetResult (t : Task) (result : gmap string JSON) (now : Z) : Task :=
  {| ID := ID t; AgentID := AgentID t; Capability := Capability t;
     Input := Input t; State := TaskStateCompleted; Result := Some result;
     Error := Error t; CreatedAt := CreatedAt t; UpdatedAt := instant now;
     CompletedAt := instant now |}.

(** [Task.SetError] *)
Definition SetError (t : Task) (err : string) (now : Z) : Task :=
  {| ID := ID t; AgentID := AgentID t; Capability := Capability t;
     Input := Input t; State := TaskStateFailed; Result := Result t;
     Error := err; CreatedAt := CreatedAt t; UpdatedAt := instant now;
     CompletedAt := instant now |}.

(** [Task.Cancel] *)
Definition Cancel (t : Task) (reason : string) (now : Z) : Task :=
  {| ID := ID t; AgentID := AgentID t; Capability := Capability t;
     Input := Input t; State := TaskStateCancelled; Result := Result t;
     Error := reason; CreatedAt := CreatedAt t; UpdatedAt := instant now;
     CompletedAt := instant now |}.

Record Capability_ := {
  cap_Name : string;
  cap_Description : string
}.

Record AgentCard := {
  card_ID : string;
  card_Name : string;
  card_Version : string;
  card_Description : string;
  Capabilities : list Capability_
}.

(** [NewAgentCard] *)
Definition NewAgentCard (id name version description : string) : AgentCard :=
  {| card_ID := id; card_Name := name; card_Version := version;
     card_Description := description; Capabilities := [] |}.

(** [AgentCard.AddCapability] *)
Definition AddCapability (ac : AgentCard) (cap : Capability_) : AgentCard :=
  {| card_ID := card_ID ac; card_Name := card_Name ac;
     card_Version := card_Version ac;
     card_Description := card_Description ac;
     Capabilities := Capabilities ac ++ [cap] |}.

Record TaskEvent := {
  ev_TaskID : string;
  ev_State : TaskState;
  ev_Message : string;
  ev_Data : gmap string JSON;
  Timestamp : GoTime
}.

End A2AProtocol.

(** ** a2a-server/internal/tasks *)
Module Tasks.
Import A2AProtocol.

(** A buffered [chan protocol.TaskEvent]. *)
Record Channel := {
  buffer : list TaskEvent;
  closed : bool
}.

(** [make(chan protocol.TaskEvent, 10)] *)
Definition capacity : nat := 10.

(** The memory the Task Service works on.  Tasks and channels are Go
    reference objects: [objects] and [channels] map addresses to them and
    [next] is the next free address.  [tasks] and [subscribers] are the two
    maps of [MemoryStore]; they hold addresses, so a task changed through
    its pointer is changed in the store.  [published] is a history
    variable: the events handed to [PublishEvent], oldest first. *)
Record Memory := {
  objects : gmap nat Task;
  channels : gmap nat Channel;
  next : nat;
  tasks : gmap string nat;
  subscribers : gmap string (list nat);
  published : list TaskEvent
}.

Definition set_objects (f : gmap nat Task -> gmap nat Task) (m : Memory) :=
  {| objects := f (objects m); channels := channels m; next := next m;
     tasks := tasks m; subscribers := subscribers m;
     published := published m |}.

Definition set_channels (f : gmap nat Channel -> gmap nat Channel) (m : Memory) :=
  {| objects := objects m; channels := f (channels m); next := next m;
     tasks := tasks m; subscribers := subscribers m;
     published := published m |}.

Definition set_tasks (f : gmap string nat -> gmap string nat) (m : Memory) :=
  {| objects := objects m; channels := channels m; next := next m;
     tasks := f (tasks m); subscribers := subscribers m;
     published := published m |}.

Definition set_subscribers
    (f : gmap string (list nat) -> gmap string (list nat)) (m : Memory) :=
  {| objects := objects m; channels := channels m; next := next m;
     tasks := tasks m; subscribers := f (subscribers m);
     published := published m |}.

(** A computation on the memory; [None] is a Go panic. *)
Definition M (A : Type) : Type := Memory -> option (A * Memory).

Definition ret {A} (a : A) : M A := fun m => Some (a, m).

Definition bind {A B} (c : M A) (k : A -> M B) : M B :=
  fun m => match c m with
           | Some (a, m') => k a m'
           | None => None
           end.

Definition panic {A} : M A := fun _ => None.

Notation "'let*' x ':=' c 'in' k" := (bind c (fun x => k))
  (at level 10, x name, c at level 200, k at level 200).
Notation "'let*' '_' ':=' c 'in' k" := (bind c (fun _ => k))
  (at level 10, c at level 200, k at level 200).

(** [*p] and [*p = t] on a task pointer; a pointer that is not allocated
    stands for nil. *)
Definition deref (p : nat) : M Task :=
  fun m => match objects m !! p with
           | Some t => Some (t, m)
           | None => None
           end.

Definition assign (p : nat) (t : Task) : M unit :=
  fun m => Some (tt, set_objects <[p := t]> m).

(** [&Task{...}] *)
Definition new (t : Task) : M nat :=
  fun m =>
    Some (next m,
          {| objects := <[next m := t]> (objects m); channels := channels m;
             next := S (next m); tasks := tasks m;
             subscribers := subscribers m; published := published m |}).

(** [MemoryStore.Create] *)
Definition Create (p : nat) : M error :=
  let* task := deref p in
  fun m =>
    match tasks m !! ID task with
    | Some _ => Some (Some ("task " +:+ ID task +:+ " already exists"), m)
    | None => Some (None, set_tasks <[ID task := p]> m)
    end.

(** [MemoryStore.Get] *)
Definition Get (id : string) : M (nat + string) :=
  fun m =>
    match tasks m !! id with
    | Some p => Some (inl p, m)
    | None => Some (inr ("task " +:+ id +:+ " not found"), m)
    end.

(** [MemoryStore.Update] *)
Definition Update (p : nat) : M error :=
  let* task := deref p in
  fun m =>
    match tasks m !! ID task with
    | None => Some (Some ("task " +:+ ID task +:+ " not found"), m)
    | Some _ => Some (None, set_tasks <[ID task := p]> m)
    end.

(** [MemoryStore.Delete] *)
Definition Delete (id : string) : M error :=
  fun m =>
    match tasks m !! id with
    | None => Some (Some ("task " +:+ id +:+ " not found"), m)
    | Some _ => Some (None, set_tasks (delete id) m)
    end.

(** [MemoryStore.Subscribe] *)
Definition Subscribe (taskID : string) : M nat :=
  fun m =>
    let ch := next m in
    Some (ch,
          {| objects := objects m;
             channels := <[ch := {| buffer := []; closed := false |}]>
                           (channels m);
             next := S (next m); tasks := tasks m;
             subscribers :=
               <[taskID := default [] (subscribers m !! taskID) ++ [ch]]>
                 (subscribers m);
             published := published m |}).

(** The effect of a non-blocking send on the receiving channel: the event
    is appended when the buffer has room, and dropped when it is full. *)
Definition deliver (event : TaskEvent) (c : Channel) : Channel :=
  if (length (buffer c) <? capacity)%nat
  then {| buffer := buffer c ++ [event]; closed := closed c |}
  else c.

(** [select { case ch <- event: default: }]; sending on a closed channel
    panics. *)
Definition try_send (event : TaskEvent) (ch : nat) : M unit :=
  fun m =>
    match channels m !! ch with
    | Some c =>
        if closed c then None
        else Some (tt, set_channels <[ch := deliver event c]> m)
    | None => None
    end.

Fixpoint send_all (event : TaskEvent) (chs : list nat) : M unit :=
  match chs with
  | [] => ret tt
  | ch :: chs => let* _ := try_send event ch in send_all event chs
  end.

(** [MemoryStore.PublishEvent] *)
Definition PublishEvent (event : TaskEvent) : M unit :=
  fun m =>
    send_all event (default [] (subscribers m !! ev_TaskID event))
      {| objects := objects m; channels := channels m; next := next m;
         tasks := tasks m; subscribers := subscribers m;
         published := published m ++ [event] |}.

(** The record the store holds for an id: [Get] followed by a read
    through the pointer. *)
Definition stored (m : Memory) (id : string) : option Task :=
  tasks m !! id ≫= fun p => objects m !! p.

(** The subscribers of a task are distinct channels, allocated and open
    ([Subscribe] makes a fresh channel each time; [Unsubscribe] takes a
    channel off the list before it closes it). *)
Definition subscribers_ready (m : Memory) (taskID : string) : Prop :=
  NoDup (default [] (subscribers m !! taskID))
  /\ Forall (fun ch => exists c, channels m !! ch = Some c /\ closed c = false)
       (default [] (subscribers m !! taskID)).

(** What a terminal transition of the task at [p] leaves behind when it
    happened at clock [now], started from memory [m] and ended in [m']:
    the task is terminal with [completed_at] and [updated_at] at [now],
    the store holds it, exactly one event was published, which carries
    the task's state and the zero timestamp, and every subscriber of the
    task got that event, unless its buffer was full. *)
Definition terminal_transition (now : Z) (p : nat) (id : string)
    (m m' : Memory) : Prop :=
  exists t' e,
    objects m' !! p = Some t'
    /\ ID t' = id
    /\ IsTerminal (State t') = true
    /\ CompletedAt t' = instant now
    /\ UpdatedAt t' = instant now
    /\ tasks m' !! id = Some p
    /\ published m' = published m ++ [e]
    /\ ev_TaskID e = id
    /\ ev_State e = State t'
    /\ Timestamp e = zero_time
    /\ forall ch c,
         ch ∈ default [] (subscribers m !! id) ->
         channels m !! ch = Some c ->
         channels m' !! ch = Some (deliver e c).

(** The [Task] methods, called through a pointer. *)
Definition UpdateState (p : nat) (state : TaskState) (now : Z) : M unit :=
  let* t := deref p in assign p (A2AProtocol.UpdateState t state now).

Definition SetResult (p : nat) (result : gmap string JSON) (now : Z) : M unit :=
  let* t := deref p in assign p (A2AProtocol.SetResult t result now).

Definition SetError (p : nat) (err : string) (now : Z) : M unit :=
  let* t := deref p in assign p (A2AProtocol.SetError t err now).

Definition Cancel (p : nat) (reason : string) (now : Z) : M unit :=
  let* t := deref p in assign p (A2AProtocol.Cancel t reason now).

(** [NewMemoryStore] on a fresh heap. *)
Definition NewMemoryStore : Memory :=
  {| objects := ∅; channels := ∅; next := 0; tasks := ∅; subscribers := ∅;
     published := [] |}.

(** The loop of [MemoryStore.List]: the pointers of the tasks that pass
    the agent filter, in the order in which [range] visits the map.  Go
    leaves that order open, so the visit is a parameter; the task is read
    only when the filter is on. *)
Fixpoint collect (agentID : string) (visit : list (string * nat))
    : M (list nat) :=
  match visit with
  | [] => ret []
  | (_, p) :: visit =>
      if String.eqb agentID "" then
        let* ps := collect agentID visit in ret (p :: ps)
      else
        let* task := deref p in
        let* ps := collect agentID visit in
        ret (if String.eqb (AgentID task) agentID then p :: ps else ps)
  end.

(** [s[start:end]]; a slice expression panics unless
    [0 <= start <= end <= cap(s)].  [List] has cut [end] to the length
    before it slices, so the length stands for the capacity here. *)
Definition slice {A} (l : list A) (start end_ : Z) : option (list A) :=
  if (0 <=? start) && (start <=? end_) && (end_ <=? Z.of_nat (length l))
  then Some (take (Z.to_nat (end_ - start)) (drop (Z.to_nat start) l))
  else None.

(** [MemoryStore.List] *)
Definition List (visit : list (string * nat)) (agentID : string)
    (limit offset : Z) : M (list nat) :=
  let* tasks := collect agentID visit in
  let len := Z.of_nat (length tasks) in
  let start := offset in
  if len <? start then ret []
  else
    let end_ := wrap_int (start + limit) in
    let end_ := if len <? end_ then len else end_ in
    match slice tasks start end_ with
    | Some page => ret page
    | None => panic
    end.

(** [close(ch)]: closing a nil or a closed channel panics. *)
Definition close (ch : nat) : M unit :=
  fun m =>
    match channels m !! ch with
    | Some c =>
        if closed c then None
        else Some (tt, set_channels
                         <[ch := {| buffer := buffer c; closed := true |}]> m)
    | None => None
    end.

(** The loop of [MemoryStore.Unsubscribe]: the list without the first
    occurrence of [ch]; [None] when [ch] is not in it. *)
Fixpoint remove_first (ch : nat) (subscribers : list nat)
    : option (list nat) :=
  match subscribers with
  | [] => None
  | sub :: rest =>
      if decide (sub = ch) then Some rest
      else (fun l => sub :: l) <$> remove_first ch rest
  end.

(** [MemoryStore.Unsubscribe] *)
Definition Unsubscribe (taskID : string) (ch : nat) : M unit :=
  let* _ :=
    fun m =>
      match remove_first ch (default [] (subscribers m !! taskID)) with
      | Some rest => close ch (set_subscribers <[taskID := rest]> m)
      | None => Some (tt, m)
      end in
  fun m =>
    if (length (default [] (subscribers m !! taskID)) =? 0)%nat
    then Some (tt, set_subscribers (delete taskID) m)
    else Some (tt, m).

(** [PublishEvent] for each event of a list, in order. *)
Fixpoint publish_all (events : list TaskEvent) : M unit :=
  match events with
  | [] => ret tt
  | event :: events => let* _ := PublishEvent event in publish_all events
  end.

End Tasks.

(** ** a2a-server/internal/cost *)
Module Cost.

Record Budget := {
  UserID : string;
  MonthlyLimitUSD : float;
  CurrentSpendUSD : float;
  ResetAt : GoTime
}.

(** [Budget.CheckBudget] *)
Definition CheckBudget (b : Budget) (costUSD : float) : bool :=
  PrimFloat.leb (PrimFloat.add (CurrentSpendUSD b) costUSD) (MonthlyLimitUSD b).

(** [Budget.UpdateSpend] *)
Definition UpdateSpend (b : Budget) (costUSD : float) : Budget :=
  {| UserID := UserID b; MonthlyLimitUSD := MonthlyLimitUSD b;
     CurrentSpendUSD := PrimFloat.add (CurrentSpendUSD b) costUSD;
     ResetAt := ResetAt b |}.

(** [BudgetManager]: the map guarded by its mutex.  Every method holds the
    lock from entry to return; the methods are given first as one step
    on the map, and [CheckAndUpdate] then statement by statement, with
    the mutex, for concurrent callers. *)
Record BudgetManager := {
  budgets : gmap string Budget
}.

Definition NewBudgetManager : BudgetManager := {| budgets := ∅ |}.

(** [BudgetManager.SetBudget]; [reset] is [time.Now().AddDate(0, 1, 0)]. *)
Definition SetBudget (bm : BudgetManager) (userID : string)
    (monthlyLimitUSD : float) (reset : GoTime) : BudgetManager :=
  {| budgets :=
       <[userID := {| UserID := userID; MonthlyLimitUSD := monthlyLimitUSD;
                      CurrentSpendUSD := 0; ResetAt := reset |}]>
         (budgets bm) |}.

(** [BudgetManager.CheckAndUpdate] *)
Definition CheckAndUpdate (bm : BudgetManager) (userID : string)
    (costUSD : float) : BudgetManager * (bool * error) :=
  match budgets bm !! userID with
  | None =>
      (bm, (false, Some ("budget for user " +:+ userID +:+ " not found")))
  | Some budget =>
      if negb (CheckBudget budget costUSD) then (bm, (false, None))
      else ({| budgets := <[userID := UpdateSpend budget costUSD]> (budgets bm) |},
            (true, None))
  end.

(** [Budget.RemainingBudget] *)
Definition RemainingBudget (b : Budget) : float :=
  let remaining := PrimFloat.sub (MonthlyLimitUSD b) (CurrentSpendUSD b) in
  if PrimFloat.ltb remaining 0 then 0%float else remaining.

(** [Budget.PercentUsed] *)
Definition PercentUsed (b : Budget) : float :=
  if PrimFloat.eqb (MonthlyLimitUSD b) 0 then 0%float
  else PrimFloat.mul (PrimFloat.div (CurrentSpendUSD b) (MonthlyLimitUSD b))
         100.

(** [BudgetManager.GetBudget] *)
Definition GetBudget (bm : BudgetManager) (userID : string)
    : Budget + string :=
  match budgets bm !! userID with
  | Some budget => inl budget
  | None => inr ("budget for user " +:+ userID +:+ " not found")
  end.

(** [BudgetManager.ResetBudget]; [reset] is [time.Now().AddDate(0, 1, 0)]. *)
Definition ResetBudget (bm : BudgetManager) (userID : string)
    (reset : GoTime) : BudgetManager * error :=
  match budgets bm !! userID with
  | None => (bm, Some ("budget for user " +:+ userID +:+ " not found"))
  | Some budget =>
      ({| budgets :=
            <[userID := {| UserID := UserID budget;
                           MonthlyLimitUSD := MonthlyLimitUSD budget;
                           CurrentSpendUSD := 0; ResetAt := reset |}]>
              (budgets bm) |}, None)
  end.

(** *** CheckAndUpdate among concurrent callers *)

(** Where a goroutine stands in [CheckAndUpdate]: before the statement
    named, or back at its caller with the result. *)
Variant Pc :=
  | AtLock    (* bm.mu.Lock() *)
  | AtLookup  (* budget, exists := bm.budgets[userID] *)
  | AtCheck   (* if !budget.CheckBudget(costUSD) *)
  | AtUpdate  (* budget.UpdateSpend(costUSD) *)
  | AtUnlock (result : bool * error)  (* the deferred bm.mu.Unlock() *)
  | Returned (result : bool * error).

(** A goroutine in a call [bm.CheckAndUpdate(ctx, userID, costUSD)]. *)
Record Goroutine := {
  g_userID : string;
  g_costUSD : float;
  pc : Pc
}.

Definition goto (g : Goroutine) (next : Pc) : Goroutine :=
  {| g_userID := g_userID g; g_costUSD := g_costUSD g; pc := next |}.

(** The manager as the goroutines share it: whether its mutex is held,
    and the map. *)
Record Shared := {
  locked : bool;
  manager : BudgetManager
}.

(** One statement of a goroutine.  None when it cannot move: it waits
    for the mutex, or it has returned.  [budget] is a pointer to the
    record the map holds under [userID], so [CheckBudget] and
    [UpdateSpend] read and write that record where they run. *)
Definition step (g : Goroutine) (s : Shared) : option (Goroutine * Shared) :=
  match pc g with
  | AtLock =>
      if locked s then None
      else Some (goto g AtLookup, {| locked := true; manager := manager s |})
  | AtLookup =>
      match budgets (manager s) !! g_userID g with
      | None =>
          Some (goto g (AtUnlock (false,
                                  Some ("budget for user " +:+ g_userID g
                                        +:+ " not found"))), s)
      | Some _ => Some (goto g AtCheck, s)
      end
  | AtCheck =>
      match budgets (manager s) !! g_userID g with
      | None => None
      | Some budget =>
          if negb (CheckBudget budget (g_costUSD g))
          then Some (goto g (AtUnlock (false, None)), s)
          else Some (goto g AtUpdate, s)
      end
  | AtUpdate =>
      match budgets (manager s) !! g_userID g with
      | None => None
      | Some budget =>
          Some (goto g (AtUnlock (true, None)),
                {| locked := locked s;
                   manager :=
                     {| budgets :=
                          <[g_userID g := UpdateSpend budget (g_costUSD g)]>
                            (budgets (manager s)) |} |})
      end
  | AtUnlock result =>
      Some (goto g (Returned result),
            {| locked := false; manager := manager s |})
  | Returned _ => None
  end.

(** The goroutines that call [CheckAndUpdate] on one manager. *)
Record System := {
  shared : Shared;
  goroutines : list Goroutine
}.

(** The scheduler lets goroutine [i] run one statement; nothing happens
    when it cannot move. *)
Definition schedule_step (s : System) (i : nat) : System :=
  match goroutines s !! i with
  | None => s
  | Some g =>
      match step g (shared s) with
      | None => s
      | Some (g', shared') =>
          {| shared := shared'; goroutines := <[i := g']> (goroutines s) |}
      end
  end.

(** A run under a schedule: the goroutines chosen, in order. *)
Definition run (schedule : list nat) (s : System) : System :=
  foldl schedule_step s schedule.

(** One goroutine per call, each about to enter, on an unlocked
    manager. *)
Definition start (bm : BudgetManager) (calls : list (string * float))
    : System :=
  {| shared := {| locked := false; manager := bm |};
     goroutines :=
       (fun c => {| g_userID := c.1; g_costUSD := c.2; pc := AtLock |})
         <$> calls |}.

(** *** tracker.go *)

Record Usage := {
  usage_UserID : string;
  usage_TaskID : string;
  Model : string;
  PromptTokens : Z;
  CompletionTokens : Z;
  TotalTokens : Z;
  CostUSD : float;
  usage_Timestamp : GoTime
}.

(** [Tracker]: the slice guarded by its mutex, oldest record first. *)
Record Tracker := {
  usage : list Usage
}.

Definition NewTracker : Tracker := {| usage := [] |}.

(** [Tracker.RecordUsage]; [now] is the clock, read when the record
    carries no timestamp. *)
Definition RecordUsage (t : Tracker) (now : Z) (u : Usage) : Tracker * error :=
  let u :=
    if time_is_zero (usage_Timestamp u)
    then {| usage_UserID := usage_UserID u; usage_TaskID := usage_TaskID u;
            Model := Model u; PromptTokens := PromptTokens u;
            CompletionTokens := CompletionTokens u;
            TotalTokens := TotalTokens u; CostUSD := CostUSD u;
            usage_Timestamp := instant now |}
    else u in
  ({| usage := usage t ++ [u] |}, None).

(** The condition of the loop of [GetUsage]. *)
Definition in_range (userID : string) (start end_ : GoTime) (u : Usage)
    : bool :=
  String.eqb (usage_UserID u) userID
  && (time_equal (usage_Timestamp u) start
      || time_after (usage_Timestamp u) start)
  && (time_equal (usage_Timestamp u) end_
      || time_before (usage_Timestamp u) end_).

(** [Tracker.GetUsage] *)
Definition GetUsage (t : Tracker) (userID : string) (start end_ : GoTime)
    : list Usage * error :=
  (List.filter (in_range userID start end_) (usage t), None).

(** [Tracker.GetTotalCost] *)
Definition GetTotalCost (t : Tracker) (userID : string) (start end_ : GoTime)
    : float * error :=
  match GetUsage t userID start end_ with
  | (_, Some err) => (0%float, Some err)
  | (records, None) =>
      (fold_left (fun total u => PrimFloat.add total (CostUSD u)) records
         0%float, None)
  end.

(** [Tracker.GetTotalTokens]; the sum is a Go [int]. *)
Definition GetTotalTokens (t : Tracker) (userID : string) (start end_ : GoTime)
    : Z * error :=
  match GetUsage t userID start end_ with
  | (_, Some err) => (0, Some err)
  | (records, None) =>
      (fold_left (fun total u => wrap_int (total + TotalTokens u)) records 0,
       None)
  end.

End Cost.

(** ** a2a-server/internal/agentcard *)
Module AgentCards.
Import A2AProtocol.

(** [Store] is the map guarded by its mutex.  The Go map holds pointers
    to the cards; the services do not change a card once it is
    registered, so the map holds the cards themselves here. *)
Definition NewStore : gmap string AgentCard := ∅.

(** [Store.Register] *)
Definition Register (s : gmap string AgentCard) (card : AgentCard) : gmap string AgentCard * error :=
  match s !! card_ID card with
  | Some _ =>
      (s, Some ("agent " +:+ card_ID card +:+ " already registered"))
  | None => (<[card_ID card := card]> s, None)
  end.

(** [Store.Get] *)
Definition Get (s : gmap string AgentCard) (id : string) : AgentCard + string :=
  match s !! id with
  | Some card => inl card
  | None => inr ("agent " +:+ id +:+ " not found")
  end.

(** [Store.Update] *)
Definition Update (s : gmap string AgentCard) (card : AgentCard) : gmap string AgentCard * error :=
  match s !! card_ID card with
  | None => (s, Some ("agent " +:+ card_ID card +:+ " not found"))
  | Some _ => (<[card_ID card := card]> s, None)
  end.

(** [Store.Delete] *)
Definition Delete (s : gmap string AgentCard) (id : string) : gmap string AgentCard * error :=
  match s !! id with
  | None => (s, Some ("agent " +:+ id +:+ " not found"))
  | Some _ => (delete id s, None)
  end.

(** [Store.List]; [visit] is the order in which [range] goes through the
    map, which Go leaves open. *)
Definition List (visit : list (string * AgentCard)) : list AgentCard :=
  snd <$> visit.

(** The inner loop of [FindByCapability]. *)
Definition has_capability (capability : string) (card : AgentCard) : bool :=
  existsb (fun cap => String.eqb (cap_Name cap) capability)
    (Capabilities card).

(** [Store.FindByCapability] *)
Definition FindByCapability (visit : list (string * AgentCard))
    (capability : string) : list AgentCard :=
  List.filter (has_capability capability) (snd <$> visit).

End AgentCards.

(** ** a2a-server/internal/server *)
Module A2AServer.
Import A2AProtocol Tasks.

Record CreateTaskRequest := {
  req_UserID : string;
  req_AgentID : string;
  req_Capability : string;
  req_Input : gmap string JSON
}.

(** The server with what it owns: the task store (inside the memory), the
    agent-card store and the budget manager. *)
Record Server := {
  memory : Tasks.Memory;
  agentStore : gmap string AgentCard;
  budgetManager : Cost.BudgetManager
}.

Variant Body :=
  | BodyText (s : string)
  | BodyTask (t : Task).

Record Response := {
  StatusCode : Z;
  body : Body
}.

(** [http.Error] *)
Definition httpError (msg : string) (code : Z) : Response :=
  {| StatusCode := code; body := BodyText msg |}.

(** Runs a computation of the task store inside the server. *)
Definition run {A} (c : Tasks.M A) (s : Server) : option (A * Server) :=
  match c (memory s) with
  | Some (a, m) =>
      Some (a, {| memory := m; agentStore := agentStore s;
                  budgetManager := budgetManager s |})
  | None => None
  end.

Definition with_budgets (bm : Cost.BudgetManager) (s : Server) : Server :=
  {| memory := memory s; agentStore := agentStore s; budgetManager := bm |}.

Section Handlers.

(** encoding/json: decoding of the POST /tasks body. *)
Variable decodeCreateTask : string -> option CreateTaskRequest.

(** [Server.handleCreateTask]; [id] is the UUID [NewTask] draws, [now] the
    clock.  [None] is a panic. *)
Definition handleCreateTask (id : string) (now : Z) (reqBody : string)
    (s : Server) : option (Response * Server) :=
  match decodeCreateTask reqBody with
  | None => Some (httpError "Invalid request body" StatusBadRequest, s)
  | Some req =>
      match agentStore s !! req_AgentID req with
      | None => Some (httpError "Agent not found" StatusNotFound, s)
      | Some _ =>
          let estimatedCost := 0.01%float in
          match Cost.CheckAndUpdate (budgetManager s) (req_UserID req)
                  estimatedCost with
          | (bm, (_, Some _)) =>
              Some (httpError "Budget not configured" StatusBadRequest,
                    with_budgets bm s)
          | (bm, (false, None)) =>
              Some (httpError "Budget exceeded" StatusPaymentRequired,
                    with_budgets bm s)
          | (bm, (true, None)) =>
              match
                run (let* task := Tasks.new (NewTask id now (req_AgentID req)
                                           (req_Capability req) (req_Input req)) in
                     let* err := Tasks.Create task in
                     let* t := Tasks.deref task in
                     Tasks.ret (err, t))
                  (with_budgets bm s)
              with
              | None => None
              | Some ((Some err, _), s) =>
                  Some (httpError err StatusInternalServerError, s)
              | Some ((None, t), s) =>
                  Some ({| StatusCode := StatusCreated; body := BodyTask t |}, s)
              end
          end
      end
  end.

End Handlers.

(** [Server.handleGetTask] *)
Definition handleGetTask (taskID : string) (s : Server)
    : option (Response * Server) :=
  run (let* r := Tasks.Get taskID in
       match r with
       | inr _ => Tasks.ret (httpError "Task not found" StatusNotFound)
       | inl task =>
           let* t := Tasks.deref task in
           Tasks.ret {| StatusCode := StatusOK; body := BodyTask t |}
       end) s.

(** [Server.handleCancelTask] *)
Definition handleCancelTask (now : Z) (taskID : string) (s : Server)
    : option (Response * Server) :=
  run (let* r := Tasks.Get taskID in
       match r with
       | inr _ => Tasks.ret (httpError "Task not found" StatusNotFound)
       | inl task =>
           let* t := Tasks.deref task in
           if IsTerminal (State t) then
             Tasks.ret (httpError "Task already in terminal state"
                          StatusConflict)
           else
             let* _ := Tasks.Cancel task "Cancelled by user" now in
             let* err := Tasks.Update task in
             match err with
             | Some e => Tasks.ret (httpError e StatusInternalServerError)
             | None =>
                 let* _ := Tasks.PublishEvent
                   {| ev_TaskID := taskID; ev_State := TaskStateCancelled;
                      ev_Message := "Task cancelled"; ev_Data := ∅;
                      Timestamp := zero_time |} in
                 let* t := Tasks.deref task in
                 Tasks.ret {| StatusCode := StatusOK; body := BodyTask t |}
             end
       end) s.

(** What the handlers below write: the status with either the text of
    [http.Error] or the value they encode as JSON. *)
Record Answer (A : Type) := {
  answer_Status : Z;
  answer_Body : string + A
}.
Arguments answer_Status {A}.
Arguments answer_Body {A}.

(** [Server.handleGetAgentCard]: the first card of [agentStore.List];
    [visit] is the order of that listing. *)
Definition handleGetAgentCard (visit : list (string * AgentCard))
    : Answer AgentCard :=
  match AgentCards.List visit with
  | [] => {| answer_Status := StatusNotFound;
             answer_Body := inl "No agent registered" |}
  | card :: _ => {| answer_Status := StatusOK; answer_Body := inr card |}
  end.

(** [json.NewEncoder(w).Encode(tasks)] reads every task of the slice. *)
Fixpoint deref_all (ps : list nat) : Tasks.M (list Task) :=
  match ps with
  | [] => Tasks.ret []
  | p :: ps =>
      let* t := Tasks.deref p in
      let* ts := deref_all ps in
      Tasks.ret (t :: ts)
  end.

Section ListTasks.

(** [strconv.Atoi]: None when the text is no decimal [int]. *)
Variable Atoi : string -> option Z.

(** [Server.handleListTasks]; [query] is [r.URL.Query().Get] and [visit]
    the order in which the store's [List] goes through its map.  [None]
    is a panic. *)
Definition handleListTasks (visit : list (string * nat))
    (query : string -> string) (s : Server)
    : option (Answer (list Task) * Server) :=
  let agentID := query "agent_id" in
  let limitStr := query "limit" in
  let offsetStr := query "offset" in
  let limit :=
    if negb (String.eqb limitStr "")
    then match Atoi limitStr with Some l => l | None => 100 end
    else 100 in
  let offset :=
    if negb (String.eqb offsetStr "")
    then match Atoi offsetStr with Some o => o | None => 0 end
    else 0 in
  run (let* tasks := Tasks.List visit agentID limit offset in
       let* encoded := deref_all tasks in
       Tasks.ret {| answer_Status := StatusOK; answer_Body := inr encoded |})
    s.

End ListTasks.

(** *** processor.go *)

(** [task.ID[:8]] panics on an id shorter than eight bytes. *)
Definition log_id_prefix (task : nat) : Tasks.M unit :=
  let* t := Tasks.deref task in
  if (String.length (ID t) <? 8)%nat then Tasks.panic else Tasks.ret tt.

(** [task.ID[0]] *)
Definition first_byte (id : string) : option nat :=
  Ascii.nat_of_ascii <$> String.get 0 id.

(** [TaskProcessor.processTask] up to its [time.Sleep]: the transition to
    running.  The result tells whether the function goes on. *)
Definition processTask_start (now : Z) (task : nat) : Tasks.M bool :=
  let* _ := Tasks.UpdateState task TaskStateRunning now in
  let* err := Tasks.Update task in
  match err with
  | Some _ => Tasks.ret false
  | None =>
      let* t := Tasks.deref task in
      let* _ := Tasks.PublishEvent
        {| ev_TaskID := ID t; ev_State := TaskStateRunning;
           ev_Message := "Task started"; ev_Data := ∅;
           Timestamp := zero_time |} in
      let* _ := log_id_prefix task in
      Tasks.ret true
  end.

(** [TaskProcessor.processTask] after its [time.Sleep]: the terminal
    transition.  [stamp] is the clock read for the result's timestamp,
    [now] the clock read by [SetResult] or [SetError]. *)
Definition processTask_finish (stamp now : Z) (task : nat) : Tasks.M unit :=
  let* t := Tasks.deref task in
  match first_byte (ID t) with
  | None => Tasks.panic
  | Some b =>
      let success := negb (b mod 10 =? 0)%nat in
      if success then
        let result : gmap string JSON :=
          {[ "status" := JString "success";
             "capability" := JString (Capability t);
             "message" := JString "Task completed successfully";
             "timestamp" := JTime (instant stamp);
             "cost" := JNumber 0.01 ]} in
        let* _ := Tasks.SetResult task result now in
        let* err := Tasks.Update task in
        match err with
        | Some _ => Tasks.ret tt
        | None =>
            let* t := Tasks.deref task in
            let* _ := Tasks.PublishEvent
              {| ev_TaskID := ID t; ev_State := TaskStateCompleted;
                 ev_Message := "Task completed successfully"; ev_Data := ∅;
                 Timestamp := zero_time |} in
            log_id_prefix task
        end
      else
        let* _ := Tasks.SetError task "Simulated task failure" now in
        let* err := Tasks.Update task in
        match err with
        | Some _ => Tasks.ret tt
        | None =>
            let* t := Tasks.deref task in
            let* _ := Tasks.PublishEvent
              {| ev_TaskID := ID t; ev_State := TaskStateFailed;
                 ev_Message := "Task failed"; ev_Data := ∅;
                 Timestamp := zero_time |} in
            log_id_prefix task
        end
  end.

(** [TaskProcessor.processTask] when nothing else runs during its sleep. *)
Definition processTask (start stamp finish : Z) (task : nat) : Tasks.M unit :=
  let* continue := processTask_start start task in
  if continue then processTask_finish stamp finish task else Tasks.ret tt.

End A2AServer.

(** * The specification's own wording, where a claim is a refinement *)
Module Spec.

(** The HTTP status mapping as the specification words it: 200 for the
    six protocol codes, 401 for the two authentication and authorization
    codes, 429 for rate limiting, 404 for resource not found, 400 for
    validation, 500 otherwise. *)
Definition http_status_of_code (code : Z) : Z :=
  if existsb (Z.eqb code) [-32700; -32600; -32601; -32602; -32603; -32000]
  then 200
  else if existsb (Z.eqb code) [-32001; -32002] then 401
  else if code =? -32003 then 429
  else if code =? -32004 then 404
  else if code =? -32005 then 400
  else 500.

End Spec.

(** * Notions the further theorems are stated with *)
Module Notions.

(** A response made by one of the two constructors: version 2.0, the
    given id, and either a result or an error, never both. *)
Definition wellformed (id : Protocol.ID) (response : Protocol.Response) : Prop :=
  Protocol.resp_JSONRPC response = "2.0"
  /\ Protocol.resp_ID response = id
  /\ (Protocol.resp_Result response = None
      <-> is_Some (Protocol.resp_Error response)).

(** The registry main.go builds: a fresh one, then [Register] for each
    tool in turn. *)
Definition registered (ts : list Tools.Tool) : Tools.Registry :=
  foldl Tools.Register Tools.NewRegistry ts.

Definition named (name : string) (t : Tools.Tool) : Prop :=
  Protocol.tool_Name (Tools.ToolDefinition t) = name.

#[global] Instance named_dec name t : Decision (named name t).
Proof. unfold named. apply _. Defined.

(** Consecutive requests to a handler under one context, each at its
    clock reading: the counters afterwards and the answers, in order. *)
Fixpoint serve (h : HTTP.Handler) (ctx : Auth.Context)
    (requests : list (Z * HTTP.Request)) (redis : Redis.Client)
    : Redis.Client * list HTTP.Response :=
  match requests with
  | [] => (redis, [])
  | (now, r) :: requests =>
      let '(response, redis) := h now ctx r redis in
      let '(redis, responses) := serve h ctx requests redis in
      (redis, response :: responses)
  end.

(** A handler behind the rate limiter that leaves the counters alone, as
    the one main.go puts there does. *)
Definition behind (next : Z -> Auth.Context -> HTTP.Request -> HTTP.Response)
    : HTTP.Handler :=
  fun now ctx r redis => (next now ctx r, redis).

(** A row of table [documents] that the session opened for [tenantID]
    may see: the value SET LOCAL leaves in [app.current_tenant_id] casts
    to the row's tenant. *)
Definition owned_by (exec_set_local : string -> option string)
    (uuid_cast : string -> option string) (db : Database.DB)
    (tenantID : string) (d : Database.Document) : Prop :=
  d ∈ Database.documents db
  /\ exists setting,
       exec_set_local (Database.tenant_context_query tenantID) = Some setting
       /\ uuid_cast setting = Some (Database.doc_TenantID d).

(** A channel that is allocated and not closed. *)
Definition open_in (m : Tasks.Memory) (ch : nat) : Prop :=
  exists c, Tasks.channels m !! ch = Some c /\ Tasks.closed c = false.

(** The state of the subscriber side that the task store keeps: each
    subscriber list holds distinct open channels, no channel is in the
    lists of two tasks, channels lie below the next free address, and no
    buffer holds more than its capacity. *)
Definition store_ok (m : Tasks.Memory) : Prop :=
  (forall taskID chs,
     Tasks.subscribers m !! taskID = Some chs ->
     NoDup chs /\ Forall (open_in m) chs)
  /\ (forall t1 t2 chs1 chs2 ch,
        Tasks.subscribers m !! t1 = Some chs1 ->
        Tasks.subscribers m !! t2 = Some chs2 ->
        ch ∈ chs1 -> ch ∈ chs2 -> t1 = t2)
  /\ (forall ch, is_Some (Tasks.channels m !! ch) -> (ch < Tasks.next m)%nat)
  /\ (forall ch c,
        Tasks.channels m !! ch = Some c ->
        (length (Tasks.buffer c) <= Tasks.capacity)%nat).

(** The channels after a non-blocking send of [event] to each channel of
    a list. *)
Definition delivered (event : A2AProtocol.TaskEvent) (chs : list nat)
    (cs : gmap nat Tasks.Channel) : gmap nat Tasks.Channel :=
  foldl (fun cs ch => alter (Tasks.deliver event) ch cs) cs chs.

(** The memory after [PublishEvent] went through. *)
Definition published_to (event : A2AProtocol.TaskEvent) (m : Tasks.Memory)
    : Tasks.Memory :=
  {| Tasks.objects := Tasks.objects m;
     Tasks.channels :=
       delivered event
         (default [] (Tasks.subscribers m !! A2AProtocol.ev_TaskID event))
         (Tasks.channels m);
     Tasks.next := Tasks.next m; Tasks.tasks := Tasks.tasks m;
     Tasks.subscribers := Tasks.subscribers m;
     Tasks.published := Tasks.published m ++ [event] |}.

(** The calls a client of the store's event side can make. *)
Variant Call :=
  | CallSubscribe (taskID : string)
  | CallUnsubscribe (taskID : string) (ch : nat)
  | CallPublishEvent (event : A2AProtocol.TaskEvent).

Definition call (c : Call) : Tasks.M unit :=
  match c with
  | CallSubscribe taskID =>
      Tasks.bind (Tasks.Subscribe taskID) (fun _ => Tasks.ret tt)
  | CallUnsubscribe taskID ch => Tasks.Unsubscribe taskID ch
  | CallPublishEvent event => Tasks.PublishEvent event
  end.

Fixpoint calls (cs : list Call) : Tasks.M unit :=
  match cs with
  | [] => Tasks.ret tt
  | c :: cs => Tasks.bind (call c) (fun _ => calls cs)
  end.

(** The agent filter of [MemoryStore.List] on the task behind a
    pointer. *)
Definition passes (m : Tasks.Memory) (agentID : string) (p : nat) : bool :=
  String.eqb agentID ""
  || match Tasks.objects m !! p with
     | Some t => String.eqb (A2AProtocol.AgentID t) agentID
     | None => false
     end.

(** Every pointer the store holds is allocated. *)
Definition allocated (m : Tasks.Memory) : Prop :=
  forall id p, Tasks.tasks m !! id = Some p -> is_Some (Tasks.objects m !! p).

(** A budget whose recorded spend is at most its monthly limit. *)
Definition within_limit (b : Cost.Budget) : Prop :=
  PrimFloat.leb (Cost.CurrentSpendUSD b) (Cost.MonthlyLimitUSD b) = true.

(** The budgets after a run of [CheckAndUpdate] calls, each given as the
    user and the cost. *)
Definition charges (calls : list (string * float)) (bm : Cost.BudgetManager)
    : Cost.BudgetManager :=
  foldl (fun bm c => (Cost.CheckAndUpdate bm c.1 c.2).1) bm calls.

(** The calls at the given positions of a list of calls, in that
    order. *)
Definition picked (calls : list (string * float)) (order : list nat)
    : list (string * float) :=
  omap (fun i => calls !! i) order.

(** What call [i] returns when the calls run one after another in the
    given order, [i] at position [k]. *)
Definition answer_at (bm : Cost.BudgetManager) (calls : list (string * float))
    (order : list nat) (k i : nat) : option (bool * error) :=
  (fun c =>
     (Cost.CheckAndUpdate (charges (picked calls (take k order)) bm)
        c.1 c.2).2) <$> (calls !! i).

(** What the goroutine that holds the mutex has done so far, when the
    manager was [pre] as it took the mutex: nothing before
    [UpdateSpend], and by the unlock what [CheckAndUpdate] does in one
    step. *)
Definition critical (pre : Cost.BudgetManager) (g : Cost.Goroutine)
    (m : Cost.BudgetManager) : Prop :=
  match Cost.pc g with
  | Cost.AtLookup => m = pre
  | Cost.AtCheck =>
      m = pre /\ is_Some (Cost.budgets pre !! Cost.g_userID g)
  | Cost.AtUpdate =>
      m = pre
      /\ exists b, Cost.budgets pre !! Cost.g_userID g = Some b
                   /\ Cost.CheckBudget b (Cost.g_costUSD g) = true
  | Cost.AtUnlock result =>
      Cost.CheckAndUpdate pre (Cost.g_userID g) (Cost.g_costUSD g)
      = (m, result)
  | Cost.AtLock | Cost.Returned _ => False
  end.

(** The state of a run: the goroutines in [order] have returned, in
    that order, with the answers of the calls run one after another;
    [holder] is inside; the others wait at the lock. *)
Definition serial (bm : Cost.BudgetManager) (calls : list (string * float))
    (order : list nat) (holder : option nat) (s : Cost.System) : Prop :=
  let pre := charges (picked calls order) bm in
  NoDup order
  /\ length (Cost.goroutines s) = length calls
  /\ Cost.locked (Cost.shared s) = bool_decide (is_Some holder)
  /\ (holder = None -> Cost.manager (Cost.shared s) = pre)
  /\ (forall i, holder = Some i -> (i < length calls)%nat /\ i ∉ order)
  /\ (forall i, i ∈ order -> (i < length calls)%nat)
  /\ forall i g,
       Cost.goroutines s !! i = Some g ->
       (exists c, calls !! i = Some c
                  /\ Cost.g_userID g = c.1 /\ Cost.g_costUSD g = c.2)
       /\ ((exists k r, order !! k = Some i
                        /\ answer_at bm calls order k i = Some r
                        /\ Cost.pc g = Cost.Returned r)
           \/ ((i ∉ order) /\ holder = Some i
               /\ critical pre g (Cost.manager (Cost.shared s)))
           \/ ((i ∉ order) /\ holder <> Some i /\ Cost.pc g = Cost.AtLock)).

(** Every goroutine is back at its caller. *)
Definition all_returned (s : Cost.System) : Prop :=
  Forall (fun g => exists r, Cost.pc g = Cost.Returned r) (Cost.goroutines s).

(** The statements a goroutine has at most left to run, and those of all
    goroutines together. *)
Definition remaining (g : Cost.Goroutine) : nat :=
  match Cost.pc g with
  | Cost.AtLock => 5
  | Cost.AtLookup => 4
  | Cost.AtCheck => 3
  | Cost.AtUpdate => 2
  | Cost.AtUnlock _ => 1
  | Cost.Returned _ => 0
  end.

Definition work (s : Cost.System) : nat :=
  sum_list_with remaining (Cost.goroutines s).

(** The record [RecordUsage] appends: stamped with the clock when it
    came without a timestamp. *)
Definition stamped (now : Z) (u : Cost.Usage) : Cost.Usage :=
  if time_is_zero (Cost.usage_Timestamp u)
  then {| Cost.usage_UserID := Cost.usage_UserID u;
          Cost.usage_TaskID := Cost.usage_TaskID u;
          Cost.Model := Cost.Model u;
          Cost.PromptTokens := Cost.PromptTokens u;
          Cost.CompletionTokens := Cost.CompletionTokens u;
          Cost.TotalTokens := Cost.TotalTokens u;
          Cost.CostUSD := Cost.CostUSD u;
          Cost.usage_Timestamp := instant now |}
  else u.

(** The sum of the token counts of a list of records, as an integer. *)
Definition tokens (records : list Cost.Usage) : Z :=
  fold_right Z.add 0 (Cost.TotalTokens <$> records).

End Notions.

(** * Concrete scenarios, used by the examples below *)
Module Scenarios.

(** A stand-in engine: the SET LOCAL text yields what stands between its
    quotes, and every text is taken as a canonical UUID. *)
Definition exec_set_local (sql : string) : option string :=
  let prefix := "SET LOCAL app.current_tenant_id = '" in
  if String.prefix prefix sql
  then Some (String.substring (String.length prefix)
               (String.length sql - String.length prefix - 1) sql)
  else None.

Definition uuid_cast (s : string) : option string := Some s.

Definition tenantA : string := "11111111-1111-1111-1111-111111111111".
Definition tenantB : string := "22222222-2222-2222-2222-222222222222".

Definition doc (id tenant title : string) (emb : option (list float))
    : Database.Document :=
  {| Database.doc_ID := id; Database.doc_TenantID := tenant;
     Database.Title := title; Database.doc_Content := "security policy";
     Database.Metadata := JNull; Database.Embedding := emb;
     Database.CreatedAt := instant 1700000000;
     Database.UpdatedAt := instant 1700000000;
     Database.CreatedBy := None |}.

Definition docA1 := doc "aaaaaaaa-0000-0000-0000-000000000001" tenantA "Q4" (Some [1%float]).
Definition docA2 := doc "aaaaaaaa-0000-0000-0000-000000000002" tenantA "MFA" (Some [2%float]).
Definition docA3 := doc "aaaaaaaa-0000-0000-0000-000000000003" tenantA "VPN" (Some [3%float]).

Definition docB1 := doc "bbbbbbbb-0000-0000-0000-000000000001" tenantB "Plan" (Some [4%float]).

(** The database as the server reaches it by default. *)
Definition db : Database.DB :=
  {| Database.pool_up := true; Database.role := Database.default_role;
     Database.documents := [docA1; docA2; docA3] |}.

(** A database reached with DB_USER=app_user, holding a row of tenant B
    as well. *)
Definition db_app : Database.DB :=
  {| Database.pool_up := true; Database.role := Database.app_user;
     Database.documents := [docA1; docA2; docA3; docB1] |}.

(** Stand-ins for the search functions of the engine: every row matches,
    the rank is the first coordinate of the embedding, the distance its
    difference to the query's. *)
Definition ts_match (d : Database.Document) (q : string) : bool := true.

Definition ts_rank_cd (d : Database.Document) (q : string) : float :=
  default 0%float (head (Database.embedding_of d)).

Definition cosine_distance (a b : list float) : float :=
  PrimFloat.abs (PrimFloat.sub (default 0%float (head a))
                               (default 0%float (head b))).

Definition reciprocal (n : Z) : float :=
  PrimFloat.div 1 (PrimFloat.of_uint63 (Uint63.of_Z n)).

Definition search_one : Database.HybridSearchParams :=
  {| Database.Query := "security"; Database.QueryEmbedding := Some [1%float];
     Database.Limit := 1; Database.BM25Weight := 0.5;
     Database.VectorWeight := 0.5; Database.MinBM25Score := 0;
     Database.MinVectorSim := 0 |}.

(** Request bodies (the quotes of JSON are written ' here) with the
    decoders that read them. *)
Definition body_tools_list : string :=
  "{'jsonrpc':'2.0','id':'1','method':'tools/list'}".
Definition body_initialize : string :=
  "{'jsonrpc':'2.0','id':'2','method':'initialize'}".
Definition body_retrieve : string :=
  "{'jsonrpc':'2.0','id':'3','method':'tools/call','params':{'name':'retrieve_document','arguments':{'document_id':'aaaaaaaa-0000-0000-0000-000000000001'}}}".
Definition params_retrieve : string :=
  "{'name':'retrieve_document','arguments':{'document_id':'aaaaaaaa-0000-0000-0000-000000000001'}}".
Definition body_retrieve_absent : string :=
  "{'jsonrpc':'2.0','id':'4','method':'tools/call','params':{'name':'retrieve_document','arguments':{'document_id':'aaaaaaaa-0000-0000-0000-000000000009'}}}".
Definition params_retrieve_absent : string :=
  "{'name':'retrieve_document','arguments':{'document_id':'aaaaaaaa-0000-0000-0000-000000000009'}}".

Definition request (id method params : string) : Protocol.Request :=
  {| Protocol.req_JSONRPC := "2.0";
     Protocol.req_ID := Some (Protocol.IDString id);
     Protocol.req_Method := method; Protocol.req_Params := params |}.

Definition unmarshalRequest (body : string) : option Protocol.Request :=
  if String.eqb body body_tools_list then Some (request "1" "tools/list" "")
  else if String.eqb body body_initialize then Some (request "2" "initialize" "")
  else if String.eqb body body_retrieve
  then Some (request "3" "tools/call" params_retrieve)
  else if String.eqb body body_retrieve_absent
  then Some (request "4" "tools/call" params_retrieve_absent)
  else None.

Definition unmarshalInitialize (raw : string)
    : option Protocol.InitializeRequest := None.

Definition unmarshalToolCall (raw : string) : option Protocol.ToolCallRequest :=
  if String.eqb raw params_retrieve
  then Some {| Protocol.call_Name := "retrieve_document";
               Protocol.call_Arguments :=
                 {[ "document_id" :=
                      JString "aaaaaaaa-0000-0000-0000-000000000001" ]} |}
  else if String.eqb raw params_retrieve_absent
  then Some {| Protocol.call_Name := "retrieve_document";
               Protocol.call_Arguments :=
                 {[ "document_id" :=
                      JString "aaaaaaaa-0000-0000-0000-000000000009" ]} |}
  else None.

(** Tokens: the stand-in decoder knows two, both signed with the demo
    key; the second carries a tenant id with a quote in it. *)
Definition claims (tenant : string) : Auth.Claims :=
  {| Auth.TenantID := tenant; Auth.UserID := "demo-user"; Auth.Email := "";
     Auth.Scopes := ["read"; "write"]; Auth.Issuer := "mcp-server-demo";
     Auth.Audience := ["mcp-server"]; Auth.ExpiresAt := Some 1700086400;
     Auth.NotBefore := Some 1700000000; Auth.IssuedAt := Some 1700000000 |}.

Definition token (tenant : string) : Auth.Token :=
  {| Auth.Method := Auth.SigningMethodRSA "RS256";
     Auth.token_Claims := claims tenant; Auth.Signature := "demo-key" |}.

Definition quoted_tenant : string := "x'; DROP TABLE documents; --".

Definition jwt_decode (s : string) : option Auth.Token :=
  if String.eqb s "token-B" then Some (token tenantB)
  else if String.eqb s "token-quoted" then Some (token quoted_tenant)
  else None.

Definition rsa_verify (key : string) (t : Auth.Token) : bool :=
  String.eqb (Auth.Signature t) key.

Definition jwtValidator : Auth.JWTValidator :=
  {| Auth.publicKey := "demo-key"; Auth.issuer := "mcp-server-demo";
     Auth.audience := "mcp-server" |}.

(** Stand-ins for encoding/json and the time format in the retrieve
    tool. *)
Definition unmarshalRetrieveParams (args : gmap string JSON)
    : Tools.RetrieveParams + string :=
  match args !! "document_id" with
  | Some (JString s) => inl {| Tools.DocumentID := s |}
  | None | Some JNull => inl {| Tools.DocumentID := "" |}
  | Some _ =>
      inr "json: cannot unmarshal into Go struct field RetrieveParams.document_id of type string"
  end.

Definition marshalMetadata (metadata : JSON) : string :=
  match metadata with
  | JNull => "null"
  | _ => "{}"
  end.

Definition formatTime (t : GoTime) : string :=
  match t with
  | zero_time => "0001-01-01 00:00:00"
  | instant unix => pretty unix
  end.

Definition retrieveTool : Tools.Tool :=
  Tools.NewRetrieveTool exec_set_local uuid_cast unmarshalRetrieveParams
    marshalMetadata formatTime db.

Definition registry : Tools.Registry :=
  Tools.Register Tools.NewRegistry retrieveTool.

Definition mcpHandler : Server.MCPHandler := Server.NewMCPHandler registry.

(** The handler over the database reached as [app_user]. *)
Definition mcpHandler_app : Server.MCPHandler :=
  Server.NewMCPHandler
    (Tools.Register Tools.NewRegistry
       (Tools.NewRetrieveTool exec_set_local uuid_cast unmarshalRetrieveParams
          marshalMetadata formatTime db_app)).

Definition redis : Redis.Client := {| Redis.up := true; Redis.keys := ∅ |}.

Definition post (authorization body : string) : HTTP.Request :=
  {| HTTP.http_Method := "POST"; HTTP.Authorization := authorization;
     HTTP.http_Body := Some body |}.

(** The [/mcp] route as main.go wires it, with a limit of 3 per minute. *)
Definition mcp : HTTP.Handler :=
  Server.mcpEndpoint unmarshalRequest unmarshalInitialize unmarshalToolCall
    jwt_decode rsa_verify (Middleware.NewAuthMiddleware jwtValidator)
    (Middleware.NewRateLimiter 3) mcpHandler.

(** The same request sent at each of the given clock readings. *)
Fixpoint serve_all (times : list Z) (r : HTTP.Request) (redis : Redis.Client)
    : Redis.Client * list HTTP.Response :=
  match times with
  | [] => (redis, [])
  | now :: times =>
      let '(response, redis) := mcp now Auth.Background r redis in
      let '(redis, responses) := serve_all times r redis in
      (redis, response :: responses)
  end.

(** *** The Task Service *)

Definition agentCard : A2AProtocol.AgentCard :=
  {| A2AProtocol.card_ID := "test-agent"; A2AProtocol.card_Name := "Test";
     A2AProtocol.card_Version := "1.0.0";
     A2AProtocol.card_Description := "Test";
     A2AProtocol.Capabilities :=
       [{| A2AProtocol.cap_Name := "search";
           A2AProtocol.cap_Description := "" |}] |}.

Definition emptyMemory : Tasks.Memory :=
  {| Tasks.objects := ∅; Tasks.channels := ∅; Tasks.next := 0%nat;
     Tasks.tasks := ∅; Tasks.subscribers := ∅; Tasks.published := [] |}.

(** A server with the agent registered and user-1 on a budget of $0.02. *)
Definition server : A2AServer.Server :=
  {| A2AServer.memory := emptyMemory;
     A2AServer.agentStore := {[ "test-agent" := agentCard ]};
     A2AServer.budgetManager :=
       Cost.SetBudget Cost.NewBudgetManager "user-1" 0.02
         (instant 1702592000) |}.

Definition body_create : string :=
  "{'user_id':'user-1','agent_id':'test-agent','capability':'search','input':{'query':'test'}}".

Definition decodeCreateTask (body : string)
    : option A2AServer.CreateTaskRequest :=
  if String.eqb body body_create
  then Some {| A2AServer.req_UserID := "user-1";
               A2AServer.req_AgentID := "test-agent";
               A2AServer.req_Capability := "search";
               A2AServer.req_Input := {[ "query" := JString "test" ]} |}
  else None.

Definition create (id : string) (now : Z) (s : A2AServer.Server)
    : option (A2AServer.Response * A2AServer.Server) :=
  A2AServer.handleCreateTask decodeCreateTask id now body_create s.

(** The server after two admitted creations. *)
Definition server_after_two : option A2AServer.Server :=
  r1 ← create "a1b2c3d4-0001" 1700000001 server;
  r2 ← create "a1b2c3d4-0002" 1700000002 r1.2;
  Some r2.2.

Definition taskID : string := "a1b2c3d4-0001".

Definition pendingTask : A2AProtocol.Task :=
  A2AProtocol.NewTask taskID 1700000000 "test-agent" "search" ∅.

Definition completedTask : A2AProtocol.Task :=
  A2AProtocol.SetResult pendingTask ∅ 1700000005.

(** A store that holds a completed task at address 0, and a second task
    object with the same id, in state pending, at address 1. *)
Definition memory_completed : Tasks.Memory :=
  {| Tasks.objects := {[ 0%nat := completedTask; 1%nat := pendingTask ]};
     Tasks.channels := ∅; Tasks.next := 2%nat;
     Tasks.tasks := {[ taskID := 0%nat ]}; Tasks.subscribers := ∅;
     Tasks.published := [] |}.

(** A store that holds a pending task at address 0, with one subscriber,
    whose channel is at address 1. *)
Definition memory_pending : Tasks.Memory :=
  {| Tasks.objects := {[ 0%nat := pendingTask ]};
     Tasks.channels :=
       {[ 1%nat := {| Tasks.buffer := []; Tasks.closed := false |} ]};
     Tasks.next := 2%nat;
     Tasks.tasks := {[ taskID := 0%nat ]};
     Tasks.subscribers := {[ taskID := [1%nat] ]};
     Tasks.published := [] |}.

Definition server_pending : A2AServer.Server :=
  {| A2AServer.memory := memory_pending;
     A2AServer.agentStore := {[ "test-agent" := agentCard ]};
     A2AServer.budgetManager := Cost.NewBudgetManager |}.

(** The memory after the processor ran the pending task: started at
    1700000001, finished at 1700000005. *)
Definition memory_processed : Tasks.Memory :=
  default memory_pending
    (snd <$> A2AServer.processTask 1700000001 1700000004 1700000005 0%nat
               memory_pending).

(** A budget of $10 with $5 spent. *)
Definition halfSpent : Cost.BudgetManager :=
  {| Cost.budgets :=
       {[ "user-1" := {| Cost.UserID := "user-1"; Cost.MonthlyLimitUSD := 10;
                         Cost.CurrentSpendUSD := 5;
                         Cost.ResetAt := instant 1702592000 |} ]} |}.

End Scenarios.

(** * Proofs: the Retrieval Service *)
Module ServerProofs.

(** Decides one comparison of the error code and substitutes it. *)
Ltac case_code :=
  match goal with
  | |- context [Z.eqb ?a ?b] => destruct (Z.eqb_spec a b); [subst | ]
  end.

(** The status [sendResponse] writes for a response with an error is the
    specification's mapping of the error code. *)
Lemma sendResponse_status (response : Protocol.Response) (e : Protocol.Error) :
  Protocol.resp_Error response = Some e ->
  HTTP.StatusCode (Server.sendResponse response)
  = Spec.http_status_of_code (Protocol.Code e).
Proof.
  intros He. unfold Server.sendResponse, Spec.http_status_of_code.
  rewrite He. cbn [HTTP.StatusCode existsb].
  generalize (Protocol.Code e). intros code.
  unfold Protocol.AuthenticationRequired, Protocol.AuthorizationFailed,
    Protocol.RateLimitExceeded, Protocol.ResourceNotFound,
    Protocol.ValidationError, Protocol.ParseError, Protocol.InvalidRequest,
    Protocol.MethodNotFound, Protocol.InvalidParams, Protocol.InternalError,
    Protocol.ServerError.
  repeat (case_code; [reflexivity | ]).
  reflexivity.
Qed.

Section Endpoint.

Variable unmarshalRequest : string -> option Protocol.Request.
Variable unmarshalInitialize :
  Protocol.RawMessage -> option Protocol.InitializeRequest.
Variable unmarshalToolCall :
  Protocol.RawMessage -> option Protocol.ToolCallRequest.
Variable jwt_decode : string -> option Auth.Token.
Variable rsa_verify : string -> Auth.Token -> bool.

(** A request without the Authorization header reaches the handler with
    the context it came with, and the counters are not touched. *)
Lemma no_header_passes_through m rl h now (r : HTTP.Request) redis :
  HTTP.Authorization r = "" ->
  Server.mcpEndpoint unmarshalRequest unmarshalInitialize unmarshalToolCall
    jwt_decode rsa_verify m rl h now Auth.Background r redis
  = (Server.ServeHTTP unmarshalRequest unmarshalInitialize unmarshalToolCall
       h Auth.Background r, redis).
Proof.
  intros Hauth.
  unfold Server.mcpEndpoint, Middleware.OptionalHandler,
    Middleware.RateLimitHandler.
  rewrite Hauth. reflexivity.
Qed.

(** A well-formed POST is dispatched on its method. *)
Lemma ServeHTTP_dispatch h ctx (r : HTTP.Request) b req :
  HTTP.http_Method r = "POST" ->
  HTTP.http_Body r = Some b ->
  unmarshalRequest b = Some req ->
  Protocol.Validate req = None ->
  Server.ServeHTTP unmarshalRequest unmarshalInitialize unmarshalToolCall h ctx r
  = Server.sendResponse
      (Server.handleRequest unmarshalInitialize unmarshalToolCall h ctx req).
Proof.
  intros Hm Hb Hreq Hv. unfold Server.ServeHTTP.
  rewrite Hm, Hb, Hreq, Hv. reflexivity.
Qed.

(** Every JSON-RPC answer of the handler itself goes through
    [sendResponse]. *)
Lemma ServeHTTP_status h ctx (r : HTTP.Request) response e :
  HTTP.body
    (Server.ServeHTTP unmarshalRequest unmarshalInitialize unmarshalToolCall
       h ctx r) = HTTP.BodyRPC response ->
  Protocol.resp_Error response = Some e ->
  HTTP.StatusCode
    (Server.ServeHTTP unmarshalRequest unmarshalInitialize unmarshalToolCall
       h ctx r)
  = Spec.http_status_of_code (Protocol.Code e).
Proof.
  unfold Server.ServeHTTP, Server.sendErrorResponse.
  destruct (negb (String.eqb (HTTP.http_Method r) "POST")); [discriminate | ].
  destruct (HTTP.http_Body r) as [b | ];
    [destruct (unmarshalRequest b) as [req | ];
       [destruct (Protocol.Validate req) | ] | ];
    cbn [HTTP.body Server.sendResponse]; intros [= <-] He;
    apply sendResponse_status; exact He.
Qed.

(** C2. A JSON-RPC response that carries an error goes out with the HTTP
    status its error code determines, by the mapping of the
    specification: 200 for -32700, -32600, -32601, -32602, -32603 and
    -32000; 401 for -32001 and -32002; 429 for -32003; 404 for -32004;
    400 for -32005; 500 for every other code.  This holds of
    [sendResponse] for every response it is given, and of every answer of
    the /mcp route, where the [sendError] of the two middlewares writes
    error responses as well. *)
Theorem status_follows_error_code m rl h now ctx (r : HTTP.Request) redis
    response e :
  Protocol.resp_Error response = Some e ->
  let sent := Server.sendResponse response in
  let answer :=
    (Server.mcpEndpoint unmarshalRequest unmarshalInitialize unmarshalToolCall
       jwt_decode rsa_verify m rl h now ctx r redis).1 in
  HTTP.body sent = HTTP.BodyRPC response
  /\ HTTP.StatusCode sent = Spec.http_status_of_code (Protocol.Code e)
  /\ (HTTP.body answer = HTTP.BodyRPC response ->
      HTTP.StatusCode answer = Spec.http_status_of_code (Protocol.Code e)).
Proof.
  intros He sent answer. subst sent answer.
  split; [reflexivity | ].
  split; [exact (sendResponse_status response e He) | ].
  intros Hbody. revert Hbody He.
  assert (Hlimited : forall ctx redis,
    HTTP.body
      (Middleware.RateLimitHandler rl
         (fun _ ctx r redis =>
            (Server.ServeHTTP unmarshalRequest unmarshalInitialize
               unmarshalToolCall h ctx r, redis)) now ctx r redis).1
    = HTTP.BodyRPC response ->
    Protocol.resp_Error response = Some e ->
    HTTP.StatusCode
      (Middleware.RateLimitHandler rl
         (fun _ ctx r redis =>
            (Server.ServeHTTP unmarshalRequest unmarshalInitialize
               unmarshalToolCall h ctx r, redis)) now ctx r redis).1
    = Spec.http_status_of_code (Protocol.Code e)).
  { intros ctx' redis'. unfold Middleware.RateLimitHandler.
    destruct (Auth.ExtractTenantID ctx') as [tenantID | ];
      [ | apply ServeHTTP_status].
    destruct (Middleware.checkLimit rl now tenantID redis')
      as [redis'' [allowed [err | ]]]; [apply ServeHTTP_status | ].
    destruct allowed; cbn [negb]; [apply ServeHTTP_status | ].
    cbn. intros [= <-] [= <-]. reflexivity. }
  unfold Server.mcpEndpoint, Middleware.OptionalHandler.
  destruct (negb (String.eqb (HTTP.Authorization r) "")); [ | apply Hlimited].
  destruct (Auth.ValidateToken _ _ _ _ _) as [claims | err];
    [apply Hlimited | ].
  cbn. intros [= <-] [= <-]. reflexivity.
Qed.

End Endpoint.

Section ToolsCall.

Variable unmarshalInitialize :
  Protocol.RawMessage -> option Protocol.InitializeRequest.
Variable unmarshalToolCall :
  Protocol.RawMessage -> option Protocol.ToolCallRequest.

(** Whatever a tool does, the answer to [tools/call] goes out with HTTP
    200: its only error codes are invalid-params and internal-error. *)
Lemma tools_call_status h ctx req :
  HTTP.StatusCode
    (Server.sendResponse (Server.handleToolsCall unmarshalToolCall h ctx req))
  = 200.
Proof.
  unfold Server.handleToolsCall.
  destruct (Server.parseToolCall unmarshalToolCall req) as [toolReq | err];
    [ | reflexivity].
  destruct (Tools.RegistryExecute _ _ _ _) as [result [err | ]]; reflexivity.
Qed.

(** When the tool behind a [tools/call] fails, the JSON-RPC error carries
    the internal-error code with the tool's message after 'Tool execution
    failed: ', and the HTTP status is 200. *)
Lemma tools_call_error_response h ctx req toolReq result err :
  Protocol.req_Method req = Protocol.MethodToolsCall ->
  Server.parseToolCall unmarshalToolCall req = inl toolReq ->
  Tools.RegistryExecute (Server.toolRegistry h) ctx
    (Protocol.call_Name toolReq) (Protocol.call_Arguments toolReq)
  = (result, Some err) ->
  let response :=
    Server.handleRequest unmarshalInitialize unmarshalToolCall h ctx req in
  response
  = Protocol.NewErrorResponse (Protocol.req_ID req) Protocol.InternalError
      ("Tool execution failed: " +:+ err) None
  /\ Server.sendResponse response
     = {| HTTP.StatusCode := 200; HTTP.ContentType := "application/json";
          HTTP.body := HTTP.BodyRPC response |}.
Proof.
  intros Hmeth Hparse Hexec response.
  assert (Hresp : response
            = Protocol.NewErrorResponse (Protocol.req_ID req)
                Protocol.InternalError ("Tool execution failed: " +:+ err) None).
  { subst response. unfold Server.handleRequest. rewrite Hmeth. cbn.
    unfold Server.handleToolsCall. rewrite Hparse, Hexec. reflexivity. }
  split; [exact Hresp | ]. rewrite Hresp. reflexivity.
Qed.

End ToolsCall.

Section Storage.

Variable exec_set_local : string -> option string.
Variable uuid_cast : string -> option string.

(** [GetDocument] fails when the table holds no row with the id, and
    also when the sessions' role is subject to the row-security policy
    and every row with the id belongs to another tenant. *)
Lemma GetDocument_absent_or_hidden (db : Database.DB) tenantID docID :
  (forall d id,
     d ∈ Database.documents db ->
     uuid_cast docID = Some id ->
     Database.doc_ID d <> id)
  \/ (Database.row_security_applies (Database.role db) = true
      /\ forall d setting tenant id,
           d ∈ Database.documents db ->
           exec_set_local (Database.tenant_context_query tenantID)
           = Some setting ->
           uuid_cast setting = Some tenant ->
           uuid_cast docID = Some id ->
           Database.doc_ID d = id ->
           Database.doc_TenantID d <> tenant) ->
  exists err,
    Database.GetDocument exec_set_local uuid_cast db tenantID docID = inr err.
Proof.
  intros Hnone. unfold Database.GetDocument, Database.BeginTx.
  destruct (Database.pool_up db); [ | eauto].
  unfold Database.SetTenantContext.
  destruct (exec_set_local _) as [setting | ] eqn:Hset; [ | eauto].
  unfold Database.visible. cbn [Database.tx_tenant].
  destruct (Database.row_security_applies (Database.role db)) eqn:Hrole.
  - destruct (uuid_cast setting) as [tenant | ] eqn:Hten; [ | eauto].
    destruct (uuid_cast docID) as [id | ] eqn:Hid; [ | eauto].
    destruct (filter (fun d => Database.doc_ID d = id)
                (filter (fun d => Database.doc_TenantID d = tenant)
                   (Database.documents db))) as [ | d rest] eqn:Hf;
      [eauto | ].
    exfalso.
    assert (Hd : d ∈ filter (fun d => Database.doc_ID d = id)
                   (filter (fun d => Database.doc_TenantID d = tenant)
                      (Database.documents db))).
    { rewrite Hf. left. }
    apply list_elem_of_filter in Hd as [Hdid Hd].
    apply list_elem_of_filter in Hd as [Hdten Hd].
    destruct Hnone as [Habsent | [_ Hforeign]].
    + exact (Habsent d id Hd eq_refl Hdid).
    + exact (Hforeign d setting tenant id Hd eq_refl Hten eq_refl Hdid Hdten).
  - destruct (uuid_cast docID) as [id | ] eqn:Hid; [ | eauto].
    destruct (filter (fun d => Database.doc_ID d = id)
                (Database.documents db)) as [ | d rest] eqn:Hf; [eauto | ].
    exfalso.
    assert (Hd : d ∈ filter (fun d => Database.doc_ID d = id)
                   (Database.documents db)).
    { rewrite Hf. left. }
    apply list_elem_of_filter in Hd as [Hdid Hd].
    destruct Hnone as [Habsent | [Hsubject _]]; [ | discriminate].
    exact (Habsent d id Hd eq_refl Hdid).
Qed.

End Storage.

Section Retrieve.

Variable unmarshalInitialize :
  Protocol.RawMessage -> option Protocol.InitializeRequest.
Variable unmarshalToolCall :
  Protocol.RawMessage -> option Protocol.ToolCallRequest.
Variable exec_set_local : string -> option string.
Variable uuid_cast : string -> option string.
Variable unmarshalRetrieveParams :
  gmap string JSON -> Tools.RetrieveParams + string.
Variable marshalMetadata : JSON -> string.
Variable formatTime : GoTime -> string.

(** C7 (amended). A [tools/call] of [retrieve_document] under a principal
    of tenant [tenantID], for a document id of which the table holds no
    row -- or, when the sessions' role is subject to the row-security
    policy, of which every row belongs to another tenant -- is answered
    with the internal-error code (-32603), the message 'Tool execution
    failed: failed to retrieve document: ...' and HTTP status 200; the
    code is not resource-not-found and the status is not 404. *)
Theorem retrieve_failure_is_internal_error h ctx req toolReq tenantID params
    (db : Database.DB) :
  Protocol.req_Method req = Protocol.MethodToolsCall ->
  Server.parseToolCall unmarshalToolCall req = inl toolReq ->
  Protocol.call_Name toolReq = "retrieve_document" ->
  Tools.Get (Server.toolRegistry h) "retrieve_document"
  = Some (Tools.NewRetrieveTool exec_set_local uuid_cast
            unmarshalRetrieveParams marshalMetadata formatTime db) ->
  Auth.ExtractTenantID ctx = inl tenantID ->
  unmarshalRetrieveParams (Protocol.call_Arguments toolReq) = inl params ->
  Tools.DocumentID params <> "" ->
  (forall d id,
     d ∈ Database.documents db ->
     uuid_cast (Tools.DocumentID params) = Some id ->
     Database.doc_ID d <> id)
  \/ (Database.row_security_applies (Database.role db) = true
      /\ forall d setting tenant id,
           d ∈ Database.documents db ->
           exec_set_local (Database.tenant_context_query tenantID)
           = Some setting ->
           uuid_cast setting = Some tenant ->
           uuid_cast (Tools.DocumentID params) = Some id ->
           Database.doc_ID d = id ->
           Database.doc_TenantID d <> tenant) ->
  let response :=
    Server.handleRequest unmarshalInitialize unmarshalToolCall h ctx req in
  exists err,
    Database.GetDocument exec_set_local uuid_cast db tenantID
      (Tools.DocumentID params) = inr err
    /\ response
       = Protocol.NewErrorResponse (Protocol.req_ID req) Protocol.InternalError
           ("Tool execution failed: failed to retrieve document: " +:+ err)
           None
    /\ Protocol.InternalError = -32603
    /\ Server.sendResponse response
       = {| HTTP.StatusCode := 200; HTTP.ContentType := "application/json";
            HTTP.body := HTTP.BodyRPC response |}.
Proof.
  intros Hmeth Hparse Hname Htool Hctx Hargs Hid Hnone response.
  destruct (GetDocument_absent_or_hidden exec_set_local uuid_cast db
              tenantID (Tools.DocumentID params) Hnone) as [err Hget].
  exists err. split; [exact Hget | ].
  apply String.eqb_neq in Hid.
  assert (Hexec :
    Tools.RegistryExecute (Server.toolRegistry h) ctx
      (Protocol.call_Name toolReq) (Protocol.call_Arguments toolReq)
    = (Tools.failed, Some (wrap "failed to retrieve document" err))).
  { unfold Tools.RegistryExecute. rewrite Hname, Htool.
    cbn [Tools.Execute Tools.NewRetrieveTool]. unfold Tools.RetrieveExecute.
    rewrite Hctx, Hargs, Hid, Hget. reflexivity. }
  destruct (tools_call_error_response unmarshalInitialize unmarshalToolCall
              h ctx req toolReq _ _ Hmeth Hparse Hexec) as [Hresp Hsend].
  split; [exact Hresp | ]. split; [reflexivity | exact Hsend].
Qed.

End Retrieve.

Section TenantContext.

Variable jwt_decode : string -> option Auth.Token.
Variable rsa_verify : string -> Auth.Token -> bool.
Variable exec_set_local : string -> option string.

(** C10. [ValidateToken] accepts every well-signed, unexpired token of
    the right issuer and audience whose [tenant_id] is not empty -- it
    does not look at the form of the tenant id -- and the statement
    [BeginTx] then sends for that principal is the text
    [SET LOCAL app.current_tenant_id = '<tenant_id>'] with the claim's
    characters put between the quotes as they are. *)
Theorem tenant_id_reaches_sql_verbatim (v : Auth.JWTValidator) now header
    token alg (db : Database.DB) :
  jwt_decode (Auth.TrimPrefix header "Bearer ") = Some token ->
  Auth.Method token = Auth.SigningMethodRSA alg ->
  rsa_verify (Auth.publicKey v) token = true ->
  Auth.registered_claims_valid now (Auth.token_Claims token) = true ->
  Auth.Issuer (Auth.token_Claims token) = Auth.issuer v ->
  Auth.audience v ∈ Auth.Audience (Auth.token_Claims token) ->
  Auth.TenantID (Auth.token_Claims token) <> "" ->
  Database.pool_up db = true ->
  let tenant := Auth.TenantID (Auth.token_Claims token) in
  let sql := "SET LOCAL app.current_tenant_id = '" +:+ tenant +:+ "'" in
  Auth.ValidateToken jwt_decode rsa_verify v now header
  = inl (Auth.token_Claims token)
  /\ Auth.ExtractTenantID
       (Auth.WithAuth Auth.Background (Auth.token_Claims token))
     = inl tenant
  /\ Database.BeginTx exec_set_local db tenant
     = match exec_set_local sql with
       | Some setting =>
           inl {| Database.tx_log := [sql]; Database.tx_tenant := setting |}
       | None => inr "failed to set tenant context"
       end.
Proof.
  intros Hdec Halg Hsig Hreg Hiss Haud Hten Hpool tenant sql.
  apply String.eqb_neq in Hten.
  split; [ | split].
  - unfold Auth.ValidateToken, Auth.ParseWithClaims.
    rewrite Hdec, Halg, Hsig, Hreg. cbn [negb].
    rewrite Hiss, String.eqb_refl. cbn [negb].
    assert (Hex : existsb (fun aud => String.eqb aud (Auth.audience v))
                    (Auth.Audience (Auth.token_Claims token)) = true).
    { apply existsb_exists. exists (Auth.audience v). split.
      - apply list_elem_of_In. exact Haud.
      - apply String.eqb_refl. }
    rewrite Hex. cbn [negb].
    unfold Auth.registered_claims_valid in Hreg.
    apply andb_true_iff in Hreg as [Hexp _].
    destruct (Auth.ExpiresAt (Auth.token_Claims token)) as [e | ].
    + apply Z.ltb_lt in Hexp.
      destruct (Z.ltb_spec e now); [lia | ]. rewrite Hten. reflexivity.
    + rewrite Hten. reflexivity.
  - unfold Auth.ExtractTenantID, Auth.WithAuth. cbn [Auth.ctx_TenantID].
    fold tenant. unfold tenant at 1. rewrite Hten. reflexivity.
  - unfold Database.BeginTx, Database.SetTenantContext,
      Database.tenant_context_query.
    rewrite Hpool. fold sql. destruct (exec_set_local sql); reflexivity.
Qed.

End TenantContext.

(** A token accepted by [ValidateToken] whose tenant id holds a quote:
    the statement sent to the database closes the literal early. *)
Lemma tenant_id_reaches_sql_verbatim_witness :
  Auth.ValidateToken Scenarios.jwt_decode Scenarios.rsa_verify
    Scenarios.jwtValidator 1700000100 "Bearer token-quoted"
  = inl (Scenarios.claims "x'; DROP TABLE documents; --")
  /\ Database.BeginTx (fun _ => Some "x") Scenarios.db
       "x'; DROP TABLE documents; --"
     = inl {| Database.tx_log :=
                ["SET LOCAL app.current_tenant_id = 'x'; DROP TABLE documents; --'"];
              Database.tx_tenant := "x" |}.
Proof.
  destruct (tenant_id_reaches_sql_verbatim Scenarios.jwt_decode
              Scenarios.rsa_verify (fun _ => Some "x") Scenarios.jwtValidator
              1700000100 "Bearer token-quoted"
              (Scenarios.token Scenarios.quoted_tenant) "RS256" Scenarios.db
              eq_refl eq_refl eq_refl eq_refl eq_refl
              ltac:(cbn; left) ltac:(discriminate) eq_refl)
    as (Hv & _ & Htx).
  split; [exact Hv | exact Htx].
Defined.

(** *** Hybrid search *)

Section OrderBy.

Context {A : Type} (before : A -> A -> bool).

Lemma insert_by_Permutation x (l : list A) :
  Database.insert_by before x l ≡ₚ x :: l.
Proof.
  induction l as [ | y l IH]; cbn; [reflexivity | ].
  destruct (before x y); [reflexivity | ].
  rewrite IH. apply Permutation_swap.
Qed.

Lemma order_by_Permutation (l : list A) : Database.order_by before l ≡ₚ l.
Proof.
  unfold Database.order_by.
  induction l as [ | x l IH]; cbn; [reflexivity | ].
  rewrite insert_by_Permutation, IH. reflexivity.
Qed.


Lemma order_by_elem_of (l : list A) x :
  x ∈ Database.order_by before l <-> x ∈ l.
Proof. rewrite order_by_Permutation. reflexivity. Qed.

End OrderBy.



Section Candidates.

Variable exec_set_local : string -> option string.
Variable uuid_cast : string -> option string.
Variable ts_match : Database.Document -> string -> bool.
Variable ts_rank_cd : Database.Document -> string -> float.
Variable cosine_distance : list float -> list float -> float.
Variable reciprocal : Z -> float.






End Candidates.


(** C7, as the specification states it, fails: a retrieval of a document
    id that no row carries is answered with the internal-error code and
    HTTP 200, not with resource-not-found (-32004) and HTTP 404. *)
Lemma retrieve_absent_document :
  (forall d, d ∈ Database.documents Scenarios.db ->
             Database.doc_ID d <> "aaaaaaaa-0000-0000-0000-000000000009")
  /\ (Scenarios.mcp 1700000100 Auth.Background
        (Scenarios.post "Bearer token-B" Scenarios.body_retrieve_absent)
        Scenarios.redis).1
     = {| HTTP.StatusCode := 200; HTTP.ContentType := "application/json";
          HTTP.body :=
            HTTP.BodyRPC
              (Protocol.NewErrorResponse (Some (Protocol.IDString "4"))
                 (-32603)
                 "Tool execution failed: failed to retrieve document: document not found"
                 None) |}.
Proof.
  split; [ | vm_compute; reflexivity].
  intros d Hd. vm_compute in Hd.
  repeat (apply elem_of_cons in Hd as [-> | Hd]; [discriminate | ]).
  inversion Hd.
Qed.

(** Reached as [app_user], the same answer is given to tenant B asking
    for a document of tenant A. *)
Example retrieve_foreign_document_as_app_user :
  Server.sendResponse
    (Server.handleRequest Scenarios.unmarshalInitialize
       Scenarios.unmarshalToolCall Scenarios.mcpHandler_app
       (Auth.WithAuth Auth.Background (Scenarios.claims Scenarios.tenantB))
       (Scenarios.request "3" "tools/call" Scenarios.params_retrieve))
  = {| HTTP.StatusCode := 200; HTTP.ContentType := "application/json";
       HTTP.body :=
         HTTP.BodyRPC
           (Protocol.NewErrorResponse (Some (Protocol.IDString "3")) (-32603)
              "Tool execution failed: failed to retrieve document: document not found"
              None) |}.
Proof. vm_compute. reflexivity. Qed.

(** [retrieve_failure_is_internal_error] at two retrievals under the
    principal of tenant B: of an id no row carries, on the database as
    the server reaches it by default, and of a document of tenant A, on
    the database reached as [app_user]. *)
Lemma retrieve_failure_is_internal_error_witness :
  let absent :=
    Server.handleRequest Scenarios.unmarshalInitialize
      Scenarios.unmarshalToolCall Scenarios.mcpHandler
      (Auth.WithAuth Auth.Background (Scenarios.claims Scenarios.tenantB))
      (Scenarios.request "4" "tools/call" Scenarios.params_retrieve_absent) in
  let foreign :=
    Server.handleRequest Scenarios.unmarshalInitialize
      Scenarios.unmarshalToolCall Scenarios.mcpHandler_app
      (Auth.WithAuth Auth.Background (Scenarios.claims Scenarios.tenantB))
      (Scenarios.request "3" "tools/call" Scenarios.params_retrieve) in
  (Protocol.Code <$> Protocol.resp_Error absent = Some (-32603)
   /\ HTTP.StatusCode (Server.sendResponse absent) = 200)
  /\ (Protocol.Code <$> Protocol.resp_Error foreign = Some (-32603)
      /\ HTTP.StatusCode (Server.sendResponse foreign) = 200).
Proof.
  intros absent foreign. split.
  - destruct (retrieve_failure_is_internal_error Scenarios.unmarshalInitialize
                Scenarios.unmarshalToolCall Scenarios.exec_set_local
                Scenarios.uuid_cast Scenarios.unmarshalRetrieveParams
                Scenarios.marshalMetadata Scenarios.formatTime
                Scenarios.mcpHandler
                (Auth.WithAuth Auth.Background
                   (Scenarios.claims Scenarios.tenantB))
                (Scenarios.request "4" "tools/call"
                   Scenarios.params_retrieve_absent)
                {| Protocol.call_Name := "retrieve_document";
                   Protocol.call_Arguments :=
                     {[ "document_id" :=
                          JString "aaaaaaaa-0000-0000-0000-000000000009" ]} |}
                Scenarios.tenantB
                {| Tools.DocumentID := "aaaaaaaa-0000-0000-0000-000000000009" |}
                Scenarios.db
                eq_refl eq_refl eq_refl eq_refl eq_refl eq_refl)
      as (err & _ & Hresp & _ & Hsend).
    + discriminate.
    + left. intros d id Hd Hid. vm_compute in Hid. injection Hid as <-.
      vm_compute in Hd.
      repeat (apply elem_of_cons in Hd as [-> | Hd]; [discriminate | ]).
      inversion Hd.
    + subst absent. rewrite Hsend, Hresp. split; reflexivity.
  - destruct (retrieve_failure_is_internal_error Scenarios.unmarshalInitialize
                Scenarios.unmarshalToolCall Scenarios.exec_set_local
                Scenarios.uuid_cast Scenarios.unmarshalRetrieveParams
                Scenarios.marshalMetadata Scenarios.formatTime
                Scenarios.mcpHandler_app
                (Auth.WithAuth Auth.Background
                   (Scenarios.claims Scenarios.tenantB))
                (Scenarios.request "3" "tools/call" Scenarios.params_retrieve)
                {| Protocol.call_Name := "retrieve_document";
                   Protocol.call_Arguments :=
                     {[ "document_id" :=
                          JString "aaaaaaaa-0000-0000-0000-000000000001" ]} |}
                Scenarios.tenantB
                {| Tools.DocumentID := "aaaaaaaa-0000-0000-0000-000000000001" |}
                Scenarios.db_app
                eq_refl eq_refl eq_refl eq_refl eq_refl eq_refl)
      as (err & _ & Hresp & _ & Hsend).
    + discriminate.
    + right. split; [reflexivity | ].
      intros d setting tenant id Hd Hset Hten Hid Hdid.
      vm_compute in Hset. injection Hset as <-.
      vm_compute in Hten. injection Hten as <-.
      vm_compute in Hid. injection Hid as <-.
      vm_compute in Hd.
      repeat (apply elem_of_cons in Hd as [-> | Hd];
              [first [discriminate | discriminate Hdid] | ]).
      inversion Hd.
    + subst foreign. rewrite Hsend, Hresp. split; reflexivity.
Defined.

(** [status_follows_error_code] at four responses given to
    [sendResponse] -- resource not found, validation, authorization and
    a code outside the table -- and at the answer of the route to a
    retrieval of an id no row carries. *)
Lemma status_follows_error_code_witness :
  HTTP.StatusCode
    <$> (Server.sendResponse
           <$> [Protocol.NewErrorResponse None (-32004) "no such document" None;
                Protocol.NewErrorResponse None (-32005) "limit out of range" None;
                Protocol.NewErrorResponse None (-32002) "scope missing" None;
                Protocol.NewErrorResponse None 1 "other" None])
  = [404; 400; 401; 500]
  /\ HTTP.StatusCode
       (Scenarios.mcp 1700000100 Auth.Background
          (Scenarios.post "Bearer token-B" Scenarios.body_retrieve_absent)
          Scenarios.redis).1
     = 200.
Proof.
  pose (at_code := fun code message =>
    status_follows_error_code Scenarios.unmarshalRequest
      Scenarios.unmarshalInitialize Scenarios.unmarshalToolCall
      Scenarios.jwt_decode Scenarios.rsa_verify
      (Middleware.NewAuthMiddleware Scenarios.jwtValidator)
      (Middleware.NewRateLimiter 3) Scenarios.mcpHandler 1700000100
      Auth.Background
      (Scenarios.post "Bearer token-B" Scenarios.body_retrieve_absent)
      Scenarios.redis
      (Protocol.NewErrorResponse None code message None)
      {| Protocol.Code := code; Protocol.Message := message;
         Protocol.Data := None |} eq_refl).
  destruct (at_code (-32004) "no such document") as (_ & H404 & _).
  destruct (at_code (-32005) "limit out of range") as (_ & H400 & _).
  destruct (at_code (-32002) "scope missing") as (_ & H401 & _).
  destruct (at_code 1 "other") as (_ & H500 & _).
  split.
  - cbn [fmap list_fmap]. rewrite H404, H400, H401, H500. reflexivity.
  - destruct (status_follows_error_code Scenarios.unmarshalRequest
                Scenarios.unmarshalInitialize Scenarios.unmarshalToolCall
                Scenarios.jwt_decode Scenarios.rsa_verify
                (Middleware.NewAuthMiddleware Scenarios.jwtValidator)
                (Middleware.NewRateLimiter 3) Scenarios.mcpHandler 1700000100
                Auth.Background
                (Scenarios.post "Bearer token-B" Scenarios.body_retrieve_absent)
                Scenarios.redis
                (Protocol.NewErrorResponse (Some (Protocol.IDString "4"))
                   (-32603)
                   "Tool execution failed: failed to retrieve document: document not found"
                   None)
                {| Protocol.Code := -32603;
                   Protocol.Message :=
                     "Tool execution failed: failed to retrieve document: document not found";
                   Protocol.Data := None |} eq_refl) as (_ & _ & Hroute).
    unfold Scenarios.mcp. rewrite Hroute; [reflexivity | ].
    vm_compute. reflexivity.
Defined.

(** C1. The failing input: [tools/list] posted to /mcp without an
    Authorization header.  The middleware of the route holds the
    allow-list [NewAuthMiddleware] builds, in which [initialize] is the
    only method, and yet the request is answered with HTTP 200 and the
    list of tools, not with the authentication-required code and HTTP
    401: [OptionalHandler] never reads the list. *)
Lemma tools_list_without_authorization :
  let m := Middleware.NewAuthMiddleware Scenarios.jwtValidator in
  Middleware.allowUnauthenticated m !! "initialize" = Some true
  /\ Middleware.allowUnauthenticated m !! "tools/list" = None
  /\ (Server.mcpEndpoint Scenarios.unmarshalRequest
        Scenarios.unmarshalInitialize Scenarios.unmarshalToolCall
        Scenarios.jwt_decode Scenarios.rsa_verify m
        (Middleware.NewRateLimiter 3) Scenarios.mcpHandler
        1700000100 Auth.Background
        (Scenarios.post "" Scenarios.body_tools_list) Scenarios.redis).1
     = {| HTTP.StatusCode := 200; HTTP.ContentType := "application/json";
          HTTP.body :=
            HTTP.BodyRPC
              {| Protocol.resp_JSONRPC := "2.0";
                 Protocol.resp_ID := Some (Protocol.IDString "1");
                 Protocol.resp_Result :=
                   Some (Protocol.ResultToolsList
                           [Tools.ToolDefinition Scenarios.retrieveTool]);
                 Protocol.resp_Error := None |} |}.
Proof.
  split; [reflexivity | ]. split; [reflexivity | ].
  vm_compute. reflexivity.
Qed.

End ServerProofs.

(** * Proofs: the rate limiter *)
Module RateLimitProofs.
Import Notions.

(** For a clock at or after the epoch, Go's truncating division is the
    floor. *)
Lemma ratelimit_key_floor tenantID now :
  0 <= now ->
  Middleware.ratelimit_key tenantID now
  = "ratelimit:" +:+ tenantID +:+ ":" +:+ pretty (now / 60).
Proof.
  intros Hnow. unfold Middleware.ratelimit_key.
  rewrite Z.quot_div_nonneg by lia. reflexivity.
Qed.

(** One call of [checkLimit] on a reachable Redis: the counter of the key
    goes up by one (from 0 when the key is absent or expired), the time to
    live is set when the new value is 1, and the answer compares the new
    value with the limit. *)
Lemma checkLimit_step rl now tenantID (redis : Redis.Client) :
  Redis.up redis = true ->
  let key := Middleware.ratelimit_key tenantID now in
  let old := Redis.get now redis key in
  let count := match old with Some e => Redis.value e + 1 | None => 1 end in
  let ttl := if count =? 1 then Some (now + Middleware.window rl)
             else old ≫= Redis.expire_at in
  Middleware.checkLimit rl now tenantID redis
  = ({| Redis.up := true;
        Redis.keys := <[key := {| Redis.value := count; Redis.expire_at := ttl |}]>
                        (Redis.keys redis) |},
     (count <=? Middleware.defaultLimit rl, None)).
Proof.
  intros Hup key old count ttl.
  unfold Middleware.checkLimit, Redis.Incr. fold key. rewrite Hup. fold old.
  assert (Hlive : forall e, old = Some e ->
            match Redis.expire_at e with
            | Some t => (now <? t) = true
            | None => True
            end).
  { intros e. subst old. unfold Redis.get.
    destruct (Redis.keys redis !! key) as [e' | ]; [ | discriminate].
    destruct (Redis.expire_at e') as [t | ] eqn:Ht.
    - destruct (now <? t) eqn:Hlt; [ | discriminate].
      intros [= <-]. rewrite Ht. exact Hlt.
    - intros [= <-]. rewrite Ht. exact I. }
  subst ttl count. destruct old as [e | ] eqn:Hold; cbn [Redis.value mbind option_bind].
  - specialize (Hlive e eq_refl).
    destruct (Redis.value e + 1 =? 1) eqn:Hone; [ | reflexivity].
    unfold Redis.Expire, Redis.get. cbn [Redis.up Redis.keys].
    rewrite lookup_insert_eq. cbn [Redis.expire_at Redis.value].
    destruct (Redis.expire_at e) as [t | ].
    + rewrite Hlive, insert_insert_eq. reflexivity.
    + rewrite insert_insert_eq. reflexivity.
  - cbn. unfold Redis.Expire, Redis.get. cbn [Redis.up Redis.keys].
    rewrite lookup_insert_eq. cbn. rewrite insert_insert_eq. reflexivity.
Qed.

Lemma window_bounds t w :
  0 <= t -> t / 60 = w -> 60 * w <= t < 60 * (w + 1).
Proof.
  intros Ht Hw. pose proof (Z.div_mod t 60 ltac:(lia)) as Hdm.
  pose proof (Z.mod_pos_bound t 60 ltac:(lia)) as Hmod. lia.
Qed.

(** Inside one window the counter of a tenant only grows: with the key
    at [k] and alive until the window ends, the i-th further request
    (from 1) is answered by comparing [k + i] with the limit. *)
Lemma checkLimits_counting limit tenantID w times :
  forall (redis : Redis.Client) k e i t,
    Redis.up redis = true ->
    Redis.keys redis !! ("ratelimit:" +:+ tenantID +:+ ":" +:+ pretty w)
    = Some {| Redis.value := k; Redis.expire_at := Some e |} ->
    60 * (w + 1) <= e ->
    Forall (fun t => 0 <= t /\ t / 60 = w) times ->
    times !! i = Some t ->
    (Middleware.checkLimits (Middleware.NewRateLimiter limit) tenantID times
       redis).2 !! i
    = Some (k + Z.of_nat (S i) <=? limit, None).
Proof.
  induction times as [ | t0 times IH]; intros redis k e i t Hup Hkey He Hall Hi.
  - destruct i; discriminate.
  - apply Forall_cons in Hall as [[Ht0 Hw0] Hall].
    pose proof (window_bounds t0 w Ht0 Hw0) as Hb.
    cbn [Middleware.checkLimits].
    rewrite (checkLimit_step _ _ _ _ Hup).
    rewrite (ratelimit_key_floor _ _ Ht0), Hw0.
    set (key := "ratelimit:" +:+ tenantID +:+ ":" +:+ pretty w) in *.
    assert (Hget : Redis.get t0 redis key
                   = Some {| Redis.value := k; Redis.expire_at := Some e |}).
    { unfold Redis.get. rewrite Hkey. cbn.
      destruct (Z.ltb_spec t0 e); [reflexivity | lia]. }
    rewrite Hget. cbn [Redis.value mbind option_bind Redis.expire_at
                       Middleware.window Middleware.NewRateLimiter
                       Middleware.defaultLimit].
    match goal with
    | |- context [Middleware.checkLimits ?rl tenantID times ?r] =>
        specialize (IH r (k + 1)
                      (if k + 1 =? 1 then t0 + 60 else e));
        destruct (Middleware.checkLimits rl tenantID times r)
          as [redis' answers] eqn:Hrest
    end.
    destruct i as [ | i].
    + cbn [snd].
      replace (k + Z.of_nat 1) with (k + 1) by lia. reflexivity.
    + cbn [snd]. change (answers !! i = Some (k + Z.of_nat (S (S i)) <=? limit, None)).
      cbn in Hi.
      cbn [snd] in IH. rewrite (IH i t); try assumption.
      * replace (k + Z.of_nat (S (S i))) with (k + 1 + Z.of_nat (S i)) by lia.
        reflexivity.
      * reflexivity.
      * cbn [Redis.keys]. rewrite lookup_insert_eq.
        destruct (k + 1 =? 1); reflexivity.
      * destruct (k + 1 =? 1); lia.
Qed.

(** Requests of one tenant through the handler are decided by the
    answers of [checkLimit], one for one, while Redis is reachable. *)
Lemma serve_limited rl next ctx tenantID requests :
  Auth.ExtractTenantID ctx = inl tenantID ->
  forall redis : Redis.Client,
    Redis.up redis = true ->
    serve (Middleware.RateLimitHandler rl (behind next)) ctx requests redis
    = ((Middleware.checkLimits rl tenantID requests.*1 redis).1,
       zip_with (fun (request : Z * HTTP.Request) (answer : bool * error) =>
                   if answer.1 then next request.1 ctx request.2
                   else Middleware.ratelimit_sendError rl None
                          Protocol.RateLimitExceeded
                          "Rate limit exceeded for tenant")
         requests (Middleware.checkLimits rl tenantID requests.*1 redis).2).
Proof.
  intros Hten. induction requests as [ | [t r] requests IH]; intros redis Hup;
    [reflexivity | ].
  cbn [serve fmap list_fmap fst Middleware.checkLimits].
  unfold Middleware.RateLimitHandler at 1. rewrite Hten.
  rewrite (checkLimit_step rl t tenantID redis Hup).
  match goal with
  | |- context [Middleware.checkLimits rl tenantID _ ?r] =>
      specialize (IH r eq_refl);
      destruct (Middleware.checkLimits rl tenantID requests.*1 r)
        as [redis' answers]
  end.
  cbn [fst snd] in IH.
  match goal with
  | |- context [negb ?b] => destruct b
  end; cbn [negb behind]; rewrite IH; reflexivity.
Qed.

(** C6. For every tenant and clock reading the rate limiter works on the
    key [ratelimit:<tenant_id>:<window_index>] with
    [window_index = floor(now_seconds / window_seconds)]; a request
    increments the key's counter, sets its time to live to the window
    length when the incremented value is 1, and is handed on to the next
    handler exactly when that value is at most the limit: otherwise it is
    answered with HTTP 429 and the rate-limit code, and the counter keeps
    the increment.  Hence, from a window with no counter yet, the i-th
    request of a tenant in the window is handed on exactly when i is at
    most the limit N: the first N are, the (N+1)th is answered 429. *)
Theorem fixed_window_rate_limit limit tenantID now (redis : Redis.Client)
    (next : Z -> Auth.Context -> HTTP.Request -> HTTP.Response) ctx
    (r : HTTP.Request) :
  Redis.up redis = true ->
  0 <= now ->
  Auth.ExtractTenantID ctx = inl tenantID ->
  let rl := Middleware.NewRateLimiter limit in
  let key :=
    "ratelimit:" +:+ tenantID +:+ ":" +:+ pretty (now / Middleware.window rl) in
  let old := Redis.get now redis key in
  let count := match old with Some e => Redis.value e + 1 | None => 1 end in
  let ttl := if count =? 1 then Some (now + Middleware.window rl)
             else old ≫= Redis.expire_at in
  let counted :=
    {| Redis.up := true;
       Redis.keys := <[key := {| Redis.value := count; Redis.expire_at := ttl |}]>
                       (Redis.keys redis) |} in
  let refused :=
    {| HTTP.StatusCode := 429; HTTP.ContentType := "application/json";
       HTTP.body :=
         HTTP.BodyRPC
           (Protocol.NewErrorResponse None (-32003)
              "Rate limit exceeded for tenant"
              (Some (JObject [("retry_after",
                               JNumber (PrimFloat.of_uint63
                                          (Uint63.of_Z 60)))]))) |} in
  Middleware.checkLimit rl now tenantID redis
  = (counted, (count <=? limit, None))
  /\ Middleware.RateLimitHandler rl (behind next) now ctx r redis
     = (if count <=? limit then next now ctx r else refused, counted)
  /\ (forall times i t,
        old = None ->
        Forall (fun t => 0 <= t /\ t / Middleware.window rl
                                   = now / Middleware.window rl) times ->
        (now :: times) !! i = Some t ->
        (Middleware.checkLimits rl tenantID (now :: times) redis).2 !! i
        = Some (Z.of_nat (S i) <=? limit, None))
  /\ (forall requests i t ri,
        old = None ->
        Forall (fun t => 0 <= t /\ t / Middleware.window rl
                                   = now / Middleware.window rl)
          requests.*1 ->
        ((now, r) :: requests) !! i = Some (t, ri) ->
        (serve (Middleware.RateLimitHandler rl (behind next)) ctx
           ((now, r) :: requests) redis).2 !! i
        = Some (if Z.of_nat (S i) <=? limit then next t ctx ri else refused)).
Proof.
  intros Hup Hnow Hten rl key old count ttl counted refused.
  pose proof (checkLimit_step rl now tenantID redis Hup) as Hstep.
  cbn zeta in Hstep. rewrite (ratelimit_key_floor _ _ Hnow) in Hstep.
  change (Middleware.window rl) with 60 in *.
  fold key in Hstep. fold old in Hstep. fold count in Hstep.
  fold ttl in Hstep. fold counted in Hstep.
  assert (Hseq : forall times i t,
            old = None ->
            Forall (fun t => 0 <= t /\ t / 60 = now / 60) times ->
            (now :: times) !! i = Some t ->
            (Middleware.checkLimits rl tenantID (now :: times) redis).2 !! i
            = Some (Z.of_nat (S i) <=? limit, None)).
  { intros times i t Hold Hall Hi.
    cbn [Middleware.checkLimits]. rewrite Hstep.
    subst counted count ttl. rewrite Hold in *.
    cbn [mbind option_bind Z.eqb Pos.eqb].
    match goal with
    | |- context [Middleware.checkLimits rl tenantID times ?r] =>
        pose proof (checkLimits_counting limit tenantID (now / 60) times r 1
                      (now + 60)) as Hrest;
        destruct (Middleware.checkLimits rl tenantID times r)
          as [redis' answers] eqn:Hrun
    end.
    fold rl in Hrest. rewrite Hrun in Hrest.
    destruct i as [ | i]; [reflexivity | ].
    cbn [snd].
    change (answers !! i = Some (Z.of_nat (S (S i)) <=? limit, None)).
    cbn in Hi. cbn [snd] in Hrest.
    rewrite (Hrest i t); try assumption.
    - replace (Z.of_nat (S (S i))) with (1 + Z.of_nat (S i)) by lia.
      reflexivity.
    - reflexivity.
    - cbn [Redis.keys]. apply lookup_insert_eq.
    - pose proof (window_bounds now (now / 60) Hnow eq_refl). lia. }
  split; [exact Hstep | ]. split; [ | split; [exact Hseq | ]].
  - unfold Middleware.RateLimitHandler. rewrite Hten, Hstep.
    change (Middleware.defaultLimit rl) with limit.
    destruct (count <=? limit); reflexivity.
  - intros requests i t ri Hold Hall Hi.
    rewrite (serve_limited rl next ctx tenantID _ Hten redis Hup).
    cbn [snd]. apply lookup_zip_with_Some.
    exists (t, ri), (Z.of_nat (S i) <=? limit, None).
    split; [ | split; [exact Hi | ]].
    + cbn [fst snd]. destruct (Z.of_nat (S i) <=? limit); reflexivity.
    + change (((now, r) :: requests).*1) with (now :: requests.*1).
      apply (Hseq requests.*1 i t Hold Hall).
      change (now :: requests.*1) with (((now, r) :: requests).*1).
      rewrite list_lookup_fmap, Hi. reflexivity.
Qed.

(** The handler lets the request through when the counter is within the
    limit and answers 429 with the rate-limit code when it is not. *)
Lemma RateLimitHandler_decision rl next now ctx r (redis redis' : Redis.Client)
    tenantID allowed :
  Auth.ExtractTenantID ctx = inl tenantID ->
  Middleware.checkLimit rl now tenantID redis = (redis', (allowed, None)) ->
  Middleware.RateLimitHandler rl next now ctx r redis
  = if allowed then next now ctx r redis'
    else ({| HTTP.StatusCode := 429; HTTP.ContentType := "application/json";
             HTTP.body :=
               HTTP.BodyRPC
                 (Protocol.NewErrorResponse None Protocol.RateLimitExceeded
                    "Rate limit exceeded for tenant"
                    (Some (JObject
                             [("retry_after",
                               JNumber (PrimFloat.of_uint63
                                          (Uint63.of_Z (Middleware.window rl))))]))) |},
          redis').
Proof.
  intros Hten Hcheck. unfold Middleware.RateLimitHandler.
  rewrite Hten, Hcheck. destruct allowed; reflexivity.
Qed.

(** When Redis cannot be reached the limiter lets the request through. *)
Lemma RateLimitHandler_fails_open rl next now ctx r (redis : Redis.Client)
    tenantID :
  Auth.ExtractTenantID ctx = inl tenantID ->
  Redis.up redis = false ->
  Middleware.RateLimitHandler rl next now ctx r redis = next now ctx r redis.
Proof.
  intros Hten Hdown.
  unfold Middleware.RateLimitHandler, Middleware.checkLimit, Redis.Incr.
  rewrite Hten, Hdown. reflexivity.
Qed.

(** Scenario E4: limit 3 per 60 s; four calls of tenant B in one window
    are answered 200, 200, 200 and 429. *)
Example four_requests_in_one_window :
  HTTP.StatusCode <$> (Scenarios.serve_all [1700000100; 1700000101;
                                            1700000102; 1700000103]
                         (Scenarios.post "Bearer token-B"
                            Scenarios.body_tools_list) Scenarios.redis).2
  = [200; 200; 200; 429].
Proof. vm_compute. reflexivity. Qed.

(** Limit 3 per minute, four requests of one tenant within the window
    that starts at second 120: three are allowed and answered by the
    handler behind the limiter, the fourth is answered 429. *)
Lemma fixed_window_rate_limit_witness :
  let ctx :=
    Auth.WithAuth Auth.Background (Scenarios.claims Scenarios.tenantA) in
  let next := fun (_ : Z) ctx r =>
    Server.ServeHTTP Scenarios.unmarshalRequest Scenarios.unmarshalInitialize
      Scenarios.unmarshalToolCall Scenarios.mcpHandler ctx r in
  let r := Scenarios.post "" Scenarios.body_tools_list in
  (Middleware.checkLimits (Middleware.NewRateLimiter 3) Scenarios.tenantA
     [120; 121; 150; 179] Scenarios.redis).2
  = [(true, None); (true, None); (true, None); (false, None)]
  /\ HTTP.StatusCode
       <$> (serve (Middleware.RateLimitHandler (Middleware.NewRateLimiter 3)
                     (behind next)) ctx
              [(120, r); (121, r); (150, r); (179, r)] Scenarios.redis).2
     = [200; 200; 200; 429].
Proof.
  intros ctx next r.
  destruct (fixed_window_rate_limit 3 Scenarios.tenantA 120 Scenarios.redis
              next ctx r eq_refl ltac:(lia) eq_refl) as (_ & _ & H & Hserve).
  cbv zeta in H, Hserve. split.
  - apply list_eq. intros i.
    destruct (decide (i < 4)%nat) as [Hi | Hi].
    + destruct ([120; 121; 150; 179] !! i) as [t | ] eqn:Ht.
      * etransitivity.
        -- apply (H [121; 150; 179] i t eq_refl); [ | exact Ht].
           repeat constructor; lia.
        -- do 4 (destruct i as [ | i]; [reflexivity | ]). lia.
      * apply lookup_ge_None in Ht. cbn in Ht. lia.
    + rewrite !lookup_ge_None_2; [reflexivity | cbn; lia | ].
      vm_compute length. lia.
  - assert (Hall : Forall (fun t => 0 <= t /\ t / 60 = 120 / 60)
                     [121; 150; 179])
      by (repeat constructor; lia).
    apply list_eq. intros i. rewrite list_lookup_fmap.
    destruct (decide (i < 4)%nat) as [Hi | Hi].
    + destruct ([(120, r); (121, r); (150, r); (179, r)] !! i)
        as [[t ri] | ] eqn:Ht.
      * rewrite (Hserve [(121, r); (150, r); (179, r)] i t ri eq_refl Hall Ht).
        do 4 (destruct i as [ | i];
              [injection Ht as <- <-; vm_compute; reflexivity | ]).
        lia.
      * apply lookup_ge_None in Ht. cbn in Ht. lia.
    + rewrite !lookup_ge_None_2; [reflexivity | cbn; lia | ].
      vm_compute length. lia.
Defined.

End RateLimitProofs.

(** * Proofs: the budget manager under its mutex *)
Module MutexProofs.
Import Notions.

Lemma charges_snoc l c (bm : Cost.BudgetManager) :
  charges (l ++ [c]) bm = (Cost.CheckAndUpdate (charges l bm) c.1 c.2).1.
Proof. unfold charges. rewrite foldl_app. reflexivity. Qed.

Lemma picked_snoc (calls : list (string * float)) order i c :
  calls !! i = Some c -> picked calls (order ++ [i]) = picked calls order ++ [c].
Proof.
  intros Hc. unfold picked. rewrite omap_app. cbn. rewrite Hc. reflexivity.
Qed.

Lemma answer_at_prefix bm calls order rest k i :
  (k <= length order)%nat ->
  answer_at bm calls (order ++ rest) k i = answer_at bm calls order k i.
Proof.
  intros Hk. unfold answer_at. rewrite take_app_le by exact Hk. reflexivity.
Qed.

(** Before any goroutine has moved. *)
Lemma start_serial bm calls : serial bm calls [] None (Cost.start bm calls).
Proof.
  unfold serial, Cost.start. cbn [Cost.goroutines Cost.shared Cost.locked
    Cost.manager].
  split; [constructor | ]. split; [apply length_fmap | ].
  split; [reflexivity | ]. split; [reflexivity | ].
  split; [discriminate | ]. split; [intros i Hi; inversion Hi | ].
  intros i g Hg. rewrite list_lookup_fmap in Hg.
  destruct (calls !! i) as [c | ] eqn:Hc; [ | discriminate].
  injection Hg as <-. split; [exists c; auto | ].
  right. right. split; [intros Hi; inversion Hi | ]. split; [discriminate | ].
  reflexivity.
Qed.

Lemma serial_locked bm calls order h (s : Cost.System) :
  serial bm calls order (Some h) s -> Cost.locked (Cost.shared s) = true.
Proof.
  intros (_ & _ & Hlock & _). rewrite Hlock.
  apply bool_decide_eq_true_2. eauto.
Qed.

Lemma serial_unlocked bm calls order holder (s : Cost.System) :
  serial bm calls order holder s ->
  Cost.locked (Cost.shared s) = false ->
  holder = None.
Proof.
  intros Hs Hl. destruct holder as [h | ]; [ | reflexivity].
  rewrite (serial_locked bm calls order h s Hs) in Hl. discriminate.
Qed.

(** A goroutine that has passed the lock and not yet returned is the
    one inside. *)
Lemma serial_holder bm calls order holder (s : Cost.System) i g :
  serial bm calls order holder s ->
  Cost.goroutines s !! i = Some g ->
  Cost.pc g <> Cost.AtLock ->
  (forall r, Cost.pc g <> Cost.Returned r) ->
  holder = Some i
  /\ (i ∉ order)
  /\ critical (charges (picked calls order) bm) g
       (Cost.manager (Cost.shared s)).
Proof.
  intros (_ & _ & _ & _ & _ & _ & Hall) Hg Hlock Hret.
  destruct (Hall i g Hg) as [_ [(k & r & _ & _ & Hpc) | [Hin | (_ & _ & Hpc)]]].
  - destruct (Hret r Hpc).
  - destruct Hin as (Hno & Hh & Hcrit). auto.
  - destruct (Hlock Hpc).
Qed.

(** The goroutine inside goes on to its next statement. *)
Lemma serial_inside bm calls order h (s : Cost.System) g g' m' :
  serial bm calls order (Some h) s ->
  Cost.goroutines s !! h = Some g ->
  Cost.g_userID g' = Cost.g_userID g ->
  Cost.g_costUSD g' = Cost.g_costUSD g ->
  critical (charges (picked calls order) bm) g' m' ->
  serial bm calls order (Some h)
    {| Cost.shared := {| Cost.locked := true; Cost.manager := m' |};
       Cost.goroutines := <[h := g']> (Cost.goroutines s) |}.
Proof.
  intros (Hnd & Hlen & Hlock & Hfree & Hh & Hord & Hall) Hg Hu Hc Hcrit.
  unfold serial. cbn [Cost.goroutines Cost.shared Cost.locked Cost.manager].
  split; [exact Hnd | ]. split; [rewrite length_insert; exact Hlen | ].
  split; [reflexivity | ]. split; [discriminate | ].
  split; [exact Hh | ]. split; [exact Hord | ].
  intros j g0 Hj. apply list_lookup_insert_Some in Hj
    as [(<- & <- & _) | (Hne & Hj)].
  - destruct (Hall h g Hg) as [(c & Hcall & Hgu & Hgc) _].
    split; [exists c; rewrite Hu, Hc; auto | ].
    right. left. destruct (Hh h eq_refl) as [_ Hno]. auto.
  - destruct (Hall j g0 Hj) as [Hargs Hcase]. split; [exact Hargs | ].
    destruct Hcase as [Hret | [(Hno & Hhj & _) | Hwait]].
    + left. exact Hret.
    + exfalso. injection Hhj as ->. apply Hne. reflexivity.
    + right. right. exact Hwait.
Qed.

(** One statement of one goroutine keeps the run serial. *)
Lemma step_serial bm calls order holder (s : Cost.System) i :
  serial bm calls order holder s ->
  exists order' holder',
    serial bm calls order' holder' (Cost.schedule_step s i).
Proof.
  intros Hs. unfold Cost.schedule_step.
  destruct (Cost.goroutines s !! i) as [g | ] eqn:Hg; [ | eauto].
  destruct (Cost.step g (Cost.shared s)) as [[g' shared'] | ] eqn:Hstep;
    [ | eauto].
  unfold Cost.step in Hstep.
  destruct (Cost.pc g) as [ | | | | result | result] eqn:Hpc.
  - (* bm.mu.Lock() *)
    destruct (Cost.locked (Cost.shared s)) eqn:Hl; [discriminate | ].
    injection Hstep as <- <-.
    pose proof (serial_unlocked bm calls order holder s Hs Hl) as ->.
    destruct Hs as (Hnd & Hlen & Hlock & Hfree & Hh & Hord & Hall).
    assert (Hno : i ∉ order).
    { destruct (Hall i g Hg) as [_ [(k & r & _ & _ & Hret) | [(Hno & _) | (Hno & _)]]];
        [congruence | exact Hno | exact Hno]. }
    exists order, (Some i). unfold serial.
    cbn [Cost.goroutines Cost.shared Cost.locked Cost.manager].
    split; [exact Hnd | ]. split; [rewrite length_insert; exact Hlen | ].
    split; [reflexivity | ]. split; [discriminate | ].
    split.
    { intros j [= <-]. split; [ | exact Hno].
      rewrite <- Hlen. exact (lookup_lt_Some _ _ _ Hg). }
    split; [exact Hord | ].
    intros j g0 Hj. apply list_lookup_insert_Some in Hj
      as [(<- & <- & _) | (Hne & Hj)].
    + destruct (Hall i g Hg) as [Hargs _]. split; [exact Hargs | ].
      right. left. split; [exact Hno | ]. split; [reflexivity | ].
      unfold critical. cbn. exact (Hfree eq_refl).
    + destruct (Hall j g0 Hj) as [Hargs Hcase]. split; [exact Hargs | ].
      destruct Hcase as [Hret | [(_ & Hhj & _) | (Hnj & _ & Hw)]].
      * left. exact Hret.
      * discriminate.
      * right. right. split; [exact Hnj | ]. split; [congruence | exact Hw].
  - (* budget, exists := bm.budgets[userID] *)
    destruct (serial_holder bm calls order holder s i g Hs Hg)
      as (-> & Hno & Hcrit); [congruence | congruence | ].
    unfold critical in Hcrit. rewrite Hpc in Hcrit.
    pose proof (serial_locked bm calls order i s Hs) as Hl.
    destruct (Cost.shared s) as [l m] eqn:Hsh.
    cbn [Cost.manager Cost.locked] in Hcrit, Hstep, Hl. subst m l.
    destruct (Cost.budgets (charges (picked calls order) bm)
                !! Cost.g_userID g) as [b | ] eqn:Hb;
      injection Hstep as <- <-; exists order, (Some i);
      apply (serial_inside bm calls order i s g); try assumption;
      try reflexivity; unfold critical; cbn.
    + split; [reflexivity | ]. rewrite Hb. eauto.
    + unfold Cost.CheckAndUpdate. rewrite Hb. reflexivity.
  - (* if !budget.CheckBudget(costUSD) *)
    destruct (serial_holder bm calls order holder s i g Hs Hg)
      as (-> & Hno & Hcrit); [congruence | congruence | ].
    unfold critical in Hcrit. rewrite Hpc in Hcrit.
    pose proof (serial_locked bm calls order i s Hs) as Hl.
    destruct (Cost.shared s) as [l m] eqn:Hsh.
    cbn [Cost.manager Cost.locked] in Hcrit, Hstep, Hl.
    destruct Hcrit as [-> [b Hb]]. subst l. rewrite Hb in Hstep.
    destruct (Cost.CheckBudget b (Cost.g_costUSD g)) eqn:Hcheck;
      injection Hstep as <- <-; exists order, (Some i);
      apply (serial_inside bm calls order i s g); try assumption;
      try reflexivity; unfold critical; cbn.
    + split; [reflexivity | ]. exists b. auto.
    + unfold Cost.CheckAndUpdate. rewrite Hb, Hcheck. reflexivity.
  - (* budget.UpdateSpend(costUSD) *)
    destruct (serial_holder bm calls order holder s i g Hs Hg)
      as (-> & Hno & Hcrit); [congruence | congruence | ].
    unfold critical in Hcrit. rewrite Hpc in Hcrit.
    pose proof (serial_locked bm calls order i s Hs) as Hl.
    destruct (Cost.shared s) as [l m] eqn:Hsh.
    cbn [Cost.manager Cost.locked] in Hcrit, Hstep, Hl.
    destruct Hcrit as (-> & b & Hb & Hcheck).
    subst l. rewrite Hb in Hstep. injection Hstep as <- <-.
    exists order, (Some i).
    apply (serial_inside bm calls order i s g); try assumption;
      try reflexivity.
    unfold critical. cbn. unfold Cost.CheckAndUpdate.
    rewrite Hb, Hcheck. reflexivity.
  - (* the deferred bm.mu.Unlock() *)
    destruct (serial_holder bm calls order holder s i g Hs Hg)
      as (-> & Hno & Hcrit); [congruence | congruence | ].
    unfold critical in Hcrit. rewrite Hpc in Hcrit.
    injection Hstep as <- <-.
    destruct Hs as (Hnd & Hlen & Hlock & Hfree & Hh & Hord & Hall).
    destruct (Hall i g Hg) as [(c & Hc & Hgu & Hgc) _].
    rewrite Hgu, Hgc in Hcrit.
    exists (order ++ [i]), None. unfold serial.
    cbn [Cost.goroutines Cost.shared Cost.locked Cost.manager].
    split.
    { apply NoDup_app. split; [exact Hnd | ]. split; [ | apply NoDup_singleton].
      intros x Hx Hxi. apply list_elem_of_singleton in Hxi as ->. auto. }
    split; [rewrite length_insert; exact Hlen | ].
    split; [reflexivity | ].
    split.
    { intros _. rewrite (picked_snoc calls order i c Hc), charges_snoc, Hcrit.
      reflexivity. }
    split; [discriminate | ].
    split.
    { intros x Hx. apply elem_of_app in Hx as [Hx | Hx]; [auto | ].
      apply list_elem_of_singleton in Hx as ->.
      rewrite <- Hlen. exact (lookup_lt_Some _ _ _ Hg). }
    intros j g0 Hj. apply list_lookup_insert_Some in Hj
      as [(<- & <- & _) | (Hne & Hj)].
    + split; [exists c; auto | ]. left. exists (length order), result.
      split; [apply list_lookup_middle; reflexivity | ].
      split; [ | reflexivity].
      unfold answer_at. rewrite take_app_length, Hc. cbn. rewrite Hcrit.
      reflexivity.
    + destruct (Hall j g0 Hj) as [Hargs Hcase]. split; [exact Hargs | ].
      destruct Hcase as [(k & r & Hk & Hans & Hret) | [(_ & Hhj & _) | (Hnj & _ & Hw)]].
      * left. exists k, r.
        pose proof (lookup_lt_Some _ _ _ Hk) as Hlt.
        split; [rewrite lookup_app_l by exact Hlt; exact Hk | ].
        split; [ | exact Hret].
        rewrite answer_at_prefix by lia. exact Hans.
      * exfalso. injection Hhj as ->. apply Hne. reflexivity.
      * right. right. split; [ | split; [discriminate | exact Hw]].
        intros Hx. apply elem_of_app in Hx as [Hx | Hx]; [auto | ].
        apply list_elem_of_singleton in Hx as ->. apply Hne. reflexivity.
  - discriminate.
Qed.

(** Whatever the schedule, the run is serial. *)
Lemma run_serial bm calls schedule :
  exists order holder,
    serial bm calls order holder (Cost.run schedule (Cost.start bm calls)).
Proof.
  unfold Cost.run.
  induction schedule as [ | i schedule IH] using rev_ind.
  - exists [], None. apply start_serial.
  - destruct IH as (order & holder & IH). rewrite foldl_app. cbn [foldl].
    exact (step_serial bm calls order holder _ i IH).
Qed.

(** Once every goroutine is back, the manager and the answers are those
    of the calls run one after another, each once, in some order. *)
Lemma serial_returned bm calls order holder (s : Cost.System) :
  serial bm calls order holder s ->
  all_returned s ->
  order ≡ₚ seq 0 (length calls)
  /\ Cost.locked (Cost.shared s) = false
  /\ Cost.manager (Cost.shared s) = charges (picked calls order) bm
  /\ forall k i,
       order !! k = Some i ->
       exists g r,
         Cost.goroutines s !! i = Some g
         /\ answer_at bm calls order k i = Some r
         /\ Cost.pc g = Cost.Returned r.
Proof.
  intros (Hnd & Hlen & Hlock & Hfree & Hh & Hord & Hall) Hret.
  unfold all_returned in Hret. rewrite Forall_lookup in Hret.
  assert (Hin : forall i g, Cost.goroutines s !! i = Some g ->
            exists k r, order !! k = Some i
                        /\ answer_at bm calls order k i = Some r
                        /\ Cost.pc g = Cost.Returned r).
  { intros i g Hg. destruct (Hret i g Hg) as [r Hr].
    destruct (Hall i g Hg) as [_ [Hcase | [(_ & _ & Hcrit) | (_ & _ & Hw)]]].
    - exact Hcase.
    - unfold critical in Hcrit. rewrite Hr in Hcrit. destruct Hcrit.
    - congruence. }
  assert (Hnone : holder = None).
  { destruct holder as [h | ]; [ | reflexivity].
    destruct (Hh h eq_refl) as [Hlt Hno]. rewrite <- Hlen in Hlt.
    apply lookup_lt_is_Some_2 in Hlt as [g Hg].
    destruct (Hin h g Hg) as (k & _ & Hk & _).
    destruct (Hno (list_elem_of_lookup_2 _ _ _ Hk)). }
  subst holder. split; [ | split; [exact Hlock | split; [exact (Hfree eq_refl) | ]]].
  - apply NoDup_Permutation; [exact Hnd | apply NoDup_seq | ].
    intros i. rewrite elem_of_seq. split.
    + intros Hi. specialize (Hord i Hi). lia.
    + intros [_ Hi]. cbn in Hi. rewrite <- Hlen in Hi.
      apply lookup_lt_is_Some_2 in Hi as [g Hg].
      destruct (Hin i g Hg) as (k & _ & Hk & _).
      exact (list_elem_of_lookup_2 _ _ _ Hk).
  - intros k i Hk.
    pose proof (Hord i (list_elem_of_lookup_2 _ _ _ Hk)) as Hlt.
    rewrite <- Hlen in Hlt. apply lookup_lt_is_Some_2 in Hlt as [g Hg].
    destruct (Hin i g Hg) as (k' & r & Hk' & Hans & Hpc).
    assert (k' = k) as -> by exact (NoDup_lookup _ _ _ _ Hnd Hk' Hk).
    exists g, r. auto.
Qed.

Lemma work_insert (l : list Cost.Goroutine) i g g' :
  l !! i = Some g ->
  (remaining g' < remaining g)%nat ->
  (sum_list_with remaining (<[i := g']> l) < sum_list_with remaining l)%nat.
Proof.
  revert i. induction l as [ | x l IH]; intros [ | i] Hi Hlt; try discriminate.
  - injection Hi as ->.
    change (<[0%nat := g']> (g :: l)) with (g' :: l).
    cbn [sum_list_with]. lia.
  - change ((x :: l) !! S i) with (l !! i) in Hi.
    change (<[S i := g']> (x :: l)) with (x :: <[i := g']> l).
    cbn [sum_list_with]. specialize (IH i Hi Hlt). lia.
Qed.

Lemma work_left (l : list Cost.Goroutine) :
  sum_list_with remaining l <> 0%nat ->
  exists i g, l !! i = Some g /\ remaining g <> 0%nat.
Proof.
  induction l as [ | x l IH]; cbn; [congruence | ]. intros Hsum.
  destruct (decide (remaining x = 0%nat)) as [Hx | Hx].
  - destruct IH as (i & g & Hi & Hg); [lia | ]. exists (S i), g. auto.
  - exists 0%nat, x. auto.
Qed.

Lemma work_done (s : Cost.System) : work s = 0%nat -> all_returned s.
Proof.
  unfold work, all_returned. induction (Cost.goroutines s) as [ | g l IH];
    cbn; intros Hsum; constructor.
  - unfold remaining in Hsum. destruct (Cost.pc g); try lia. eauto.
  - apply IH. lia.
Qed.

(** No deadlock: while a goroutine has not returned, one of them can
    run a statement. *)
Lemma serial_progress bm calls order holder (s : Cost.System) :
  serial bm calls order holder s ->
  work s <> 0%nat ->
  exists i, (work (Cost.schedule_step s i) < work s)%nat.
Proof.
  intros Hs Hwork.
  pose proof Hs as (Hnd & Hlen & Hlock & Hfree & Hh & Hord & Hall).
  destruct holder as [h | ].
  - destruct (Hh h eq_refl) as [Hlt Hno]. rewrite <- Hlen in Hlt.
    apply lookup_lt_is_Some_2 in Hlt as [g Hg].
    assert (Hcrit : critical (charges (picked calls order) bm) g
                      (Cost.manager (Cost.shared s))).
    { destruct (Hall h g Hg) as [_ [(k & _ & Hk & _) | [(_ & _ & Hc) | (_ & Hne & _)]]].
      - destruct (Hno (list_elem_of_lookup_2 _ _ _ Hk)).
      - exact Hc.
      - destruct (Hne eq_refl). }
    exists h. unfold Cost.schedule_step, work. rewrite Hg.
    unfold critical in Hcrit. unfold Cost.step.
    destruct (Cost.pc g) as [ | | | | result | result] eqn:Hpc;
      try destruct Hcrit.
    + destruct (Cost.budgets _ !! _); cbn [Cost.goroutines];
        apply (work_insert _ h g); try exact Hg;
        unfold remaining; rewrite Hpc; cbn; lia.
    + match goal with H : Cost.manager _ = _ |- _ => rewrite H end.
      match goal with H : is_Some _ |- _ => destruct H as [b Hb] end.
      rewrite Hb. destruct (negb _); cbn [Cost.goroutines];
        apply (work_insert _ h g); try exact Hg;
        unfold remaining; rewrite Hpc; cbn; lia.
    + match goal with H : Cost.manager _ = _ |- _ => rewrite H end.
      match goal with H : exists b, _ |- _ => destruct H as (b & Hb & _) end.
      rewrite Hb. cbn [Cost.goroutines].
      apply (work_insert _ h g); try exact Hg.
      unfold remaining. rewrite Hpc. cbn. lia.
    + cbn [Cost.goroutines]. apply (work_insert _ h g); try exact Hg.
      unfold remaining. rewrite Hpc. cbn. lia.
  - destruct (work_left _ Hwork) as (i & g & Hg & Hleft).
    assert (Hpc : Cost.pc g = Cost.AtLock).
    { destruct (Hall i g Hg) as [_ [(_ & r & _ & _ & Hr) | [(_ & Hc & _) | (_ & _ & Hw)]]].
      - unfold remaining in Hleft. rewrite Hr in Hleft. destruct (Hleft eq_refl).
      - discriminate.
      - exact Hw. }
    exists i. unfold Cost.schedule_step, work, Cost.step.
    rewrite Hg, Hpc, Hlock. cbn [bool_decide decide_rel].
    rewrite bool_decide_eq_false_2 by (intros [? ?]; discriminate).
    cbn [Cost.goroutines]. apply (work_insert _ i g); try exact Hg.
    unfold remaining. rewrite Hpc. cbn. lia.
Qed.

(** Every serial state can be run to the end. *)
Lemma serial_completes n :
  forall bm calls order holder (s : Cost.System),
    (work s <= n)%nat ->
    serial bm calls order holder s ->
    exists rest, all_returned (Cost.run rest s).
Proof.
  induction n as [ | n IH]; intros bm calls order holder s Hn Hs.
  - exists []. apply (work_done s). lia.
  - destruct (decide (work s = 0%nat)) as [Hz | Hnz].
    + exists []. apply (work_done s). exact Hz.
    + destruct (serial_progress bm calls order holder s Hs Hnz) as [i Hi].
      destruct (step_serial bm calls order holder s i Hs)
        as (order' & holder' & Hs').
      destruct (IH bm calls order' holder' (Cost.schedule_step s i)
                  ltac:(lia) Hs') as [rest Hrest].
      exists (i :: rest). exact Hrest.
Qed.

End MutexProofs.

(** * Proofs: the Task Service *)
Module TaskProofs.
Import A2AProtocol Notions.

(** C4 (amended). For a user with a budget, [CheckAndUpdate] answers
    allowed and sets [current_spend] to the float64 sum
    [current_spend + cost] when that rounded sum is at most
    [monthly_limit], and otherwise answers denied and leaves the budgets
    as they were.  Check and update are one critical section: goroutines
    that call [CheckAndUpdate] at the same time, their statements
    interleaved in whatever way the scheduler chooses, leave the manager
    and get the answers of the same calls made one after another, each
    once, in some order; and no schedule blocks them, every run can be
    brought to the end. *)
Theorem CheckAndUpdate_reserves (bm : Cost.BudgetManager) userID
    (b : Cost.Budget) (costUSD : float) calls schedule :
  Cost.budgets bm !! userID = Some b ->
  Cost.CheckAndUpdate bm userID costUSD
  = (if PrimFloat.leb (PrimFloat.add (Cost.CurrentSpendUSD b) costUSD)
          (Cost.MonthlyLimitUSD b)
     then ({| Cost.budgets :=
                <[userID := {| Cost.UserID := Cost.UserID b;
                               Cost.MonthlyLimitUSD := Cost.MonthlyLimitUSD b;
                               Cost.CurrentSpendUSD :=
                                 PrimFloat.add (Cost.CurrentSpendUSD b) costUSD;
                               Cost.ResetAt := Cost.ResetAt b |}]>
                  (Cost.budgets bm) |},
           (true, None))
     else (bm, (false, None)))
  /\ (let s := Cost.run schedule (Cost.start bm calls) in
      all_returned s ->
      exists order,
        order ≡ₚ seq 0 (length calls)
        /\ Cost.locked (Cost.shared s) = false
        /\ Cost.manager (Cost.shared s) = charges (picked calls order) bm
        /\ forall k i,
             order !! k = Some i ->
             exists g r,
               Cost.goroutines s !! i = Some g
               /\ answer_at bm calls order k i = Some r
               /\ Cost.pc g = Cost.Returned r)
  /\ exists rest,
       all_returned (Cost.run (schedule ++ rest) (Cost.start bm calls)).
Proof.
  intros Hb. split; [ | split].
  - unfold Cost.CheckAndUpdate, Cost.CheckBudget. rewrite Hb.
    destruct (PrimFloat.leb _ _); reflexivity.
  - intros s Hret.
    destruct (MutexProofs.run_serial bm calls schedule)
      as (order & holder & Hserial).
    exists order.
    exact (MutexProofs.serial_returned bm calls order holder s Hserial Hret).
  - destruct (MutexProofs.run_serial bm calls schedule)
      as (order & holder & Hserial).
    destruct (MutexProofs.serial_completes _ bm calls order holder _
                (le_n _) Hserial) as [rest Hrest].
    exists rest. unfold Cost.run in *. rewrite foldl_app. exact Hrest.
Qed.

(** C4, as the specification states it, fails.  With a limit of $0.06,
    five charges of one cent are admitted and the sixth, which lands on
    the limit, is denied: the float64 sum of the six is above the float64
    0.06.  And with $10^16 spent of a limit of $10^16, a further cost of
    $1 is admitted and leaves the spend as it was: the float64 sum is the
    spend itself. *)
Lemma sum_is_rounded :
  let cents := Cost.SetBudget Cost.NewBudgetManager "user-1" 0.06
                 (instant 1702592000) in
  let five := replicate 5 ("user-1", 0.01%float) in
  let full :=
    {| Cost.budgets :=
         {[ "user-1" := {| Cost.UserID := "user-1";
                           Cost.MonthlyLimitUSD := 1e16;
                           Cost.CurrentSpendUSD := 1e16;
                           Cost.ResetAt := instant 1702592000 |} ]} |} in
  (fun k => answer_at cents five [0; 1; 2; 3; 4]%nat k k) <$> [0; 1; 2; 3; 4]%nat
  = replicate 5 (Some (true, None))
  /\ (Cost.CheckAndUpdate (charges five cents) "user-1" 0.01).2 = (false, None)
  /\ PrimFloat.ltb 0 1 = true
  /\ Cost.CheckAndUpdate full "user-1" 1 = (full, (true, None)).
Proof. vm_compute. repeat split. Qed.

(** [CheckAndUpdate_reserves] with $5 of $10 spent.  A cost of $5 lands
    on the limit and is allowed.  Two goroutines that ask for $5 each at
    the same time, the second entering while the first is inside: one is
    allowed and one denied, and $10 are spent. *)
Lemma CheckAndUpdate_reserves_witness :
  let calls := [("user-1", 5%float); ("user-1", 5%float)] in
  let s := Cost.run [0; 1; 0; 1; 0; 0; 1; 0; 1; 1; 1; 1; 1]%nat
             (Cost.start Scenarios.halfSpent calls) in
  (Cost.CheckAndUpdate Scenarios.halfSpent "user-1" 5).2 = (true, None)
  /\ Cost.pc <$> Cost.goroutines s
     = [Cost.Returned (true, None); Cost.Returned (false, None)]
  /\ exists order,
       order ≡ₚ [0; 1]%nat
       /\ Cost.manager (Cost.shared s) = charges (picked calls order)
                                           Scenarios.halfSpent.
Proof.
  intros calls s.
  destruct (CheckAndUpdate_reserves Scenarios.halfSpent "user-1"
              {| Cost.UserID := "user-1"; Cost.MonthlyLimitUSD := 10;
                 Cost.CurrentSpendUSD := 5;
                 Cost.ResetAt := instant 1702592000 |} 5 calls
              [0; 1; 0; 1; 0; 0; 1; 0; 1; 1; 1; 1; 1]%nat eq_refl)
    as (Hone & Hrun & _).
  split; [rewrite Hone; reflexivity | ].
  split; [vm_compute; reflexivity | ].
  destruct Hrun as (order & Hperm & _ & Hm & _).
  - repeat constructor; eexists; vm_compute; reflexivity.
  - exists order. split; [exact Hperm | exact Hm].
Defined.

(** A denial leaves every budget as it was. *)
Lemma CheckAndUpdate_denied_unchanged (bm bm' : Cost.BudgetManager) userID
    costUSD err :
  Cost.CheckAndUpdate bm userID costUSD = (bm', (false, err)) -> bm' = bm.
Proof.
  unfold Cost.CheckAndUpdate.
  destruct (Cost.budgets bm !! userID) as [b | ]; [ | congruence].
  destruct (negb (Cost.CheckBudget b costUSD)); congruence.
Qed.

Section CreateTask.

Variable decodeCreateTask : string -> option A2AServer.CreateTaskRequest.

(** C5. A POST /tasks whose budget check is denied is answered with HTTP
    402 and changes nothing: the budget is checked before any task is
    made, so the task store (and the rest of the server) is as before, and
    the id the task would have had is still unknown to GET. *)
Theorem denied_creation_stores_nothing id now reqBody req bm
    (s : A2AServer.Server) :
  decodeCreateTask reqBody = Some req ->
  is_Some (A2AServer.agentStore s !! A2AServer.req_AgentID req) ->
  Cost.CheckAndUpdate (A2AServer.budgetManager s) (A2AServer.req_UserID req)
    0.01 = (bm, (false, None)) ->
  A2AServer.handleCreateTask decodeCreateTask id now reqBody s
  = Some ({| A2AServer.StatusCode := 402;
             A2AServer.body := A2AServer.BodyText "Budget exceeded" |}, s)
  /\ (Tasks.tasks (A2AServer.memory s) !! id = None ->
      A2AServer.handleGetTask id s
      = Some ({| A2AServer.StatusCode := 404;
                 A2AServer.body := A2AServer.BodyText "Task not found" |}, s)).
Proof.
  intros Hdec [card Hcard] Hdenied. split.
  - unfold A2AServer.handleCreateTask.
    rewrite Hdec, Hcard, Hdenied.
    rewrite (CheckAndUpdate_denied_unchanged _ _ _ _ _ Hdenied).
    destruct s; reflexivity.
  - intros Hnone. unfold A2AServer.handleGetTask, A2AServer.run, Tasks.bind,
      Tasks.Get.
    rewrite Hnone. destruct s; reflexivity.
Qed.

(** An admitted creation answers 201; the stored task is pending, and the
    budgets hold the reservation. *)
Lemma allowed_creation_reserves_then_stores id now reqBody req bm
    (s : A2AServer.Server) :
  decodeCreateTask reqBody = Some req ->
  is_Some (A2AServer.agentStore s !! A2AServer.req_AgentID req) ->
  Cost.CheckAndUpdate (A2AServer.budgetManager s) (A2AServer.req_UserID req)
    0.01 = (bm, (true, None)) ->
  Tasks.tasks (A2AServer.memory s) !! id = None ->
  exists s',
    A2AServer.handleCreateTask decodeCreateTask id now reqBody s
    = Some ({| A2AServer.StatusCode := 201;
               A2AServer.body :=
                 A2AServer.BodyTask
                   (NewTask id now (A2AServer.req_AgentID req)
                      (A2AServer.req_Capability req)
                      (A2AServer.req_Input req)) |}, s')
    /\ A2AServer.budgetManager s' = bm
    /\ Tasks.tasks (A2AServer.memory s') !! id
       = Some (Tasks.next (A2AServer.memory s)).
Proof.
  intros Hdec [card Hcard] Hallowed Hfresh.
  unfold A2AServer.handleCreateTask.
  rewrite Hdec, Hcard, Hallowed.
  unfold A2AServer.run, A2AServer.with_budgets, Tasks.new,
    Tasks.Create, Tasks.deref, Tasks.ret, Tasks.set_tasks, Tasks.bind.
  cbn [A2AServer.memory Tasks.objects Tasks.tasks Tasks.next
       A2AServer.agentStore A2AServer.budgetManager].
  rewrite lookup_insert_eq. cbn [ID NewTask Tasks.tasks Tasks.objects].
  rewrite Hfresh. cbn [Tasks.objects]. rewrite lookup_insert_eq.
  eexists. split; [reflexivity | ].
  cbn [A2AServer.budgetManager A2AServer.memory Tasks.tasks].
  split; [reflexivity | apply lookup_insert_eq].
Qed.

End CreateTask.

(** Scenario E5: a budget of $0.02 and an estimate of $0.01.  Two tasks
    are created; the third request is answered 402, the server holds two
    task records, and GET of the third id finds nothing. *)
Lemma denied_creation_stores_nothing_witness :
  let s := default Scenarios.server Scenarios.server_after_two in
  Scenarios.server_after_two = Some s
  /\ Scenarios.create "a1b2c3d4-0003" 1700000003 s
     = Some ({| A2AServer.StatusCode := 402;
                A2AServer.body := A2AServer.BodyText "Budget exceeded" |}, s)
  /\ size (Tasks.tasks (A2AServer.memory s)) = 2%nat
  /\ A2AServer.handleGetTask "a1b2c3d4-0003" s
     = Some ({| A2AServer.StatusCode := 404;
                A2AServer.body := A2AServer.BodyText "Task not found" |}, s).
Proof.
  intros s.
  destruct (denied_creation_stores_nothing Scenarios.decodeCreateTask
              "a1b2c3d4-0003" 1700000003 Scenarios.body_create
              {| A2AServer.req_UserID := "user-1";
                 A2AServer.req_AgentID := "test-agent";
                 A2AServer.req_Capability := "search";
                 A2AServer.req_Input := {[ "query" := JString "test" ]} |}
              (Cost.CheckAndUpdate (A2AServer.budgetManager s) "user-1" 0.01).1
              s eq_refl ltac:(vm_compute; eauto)
              ltac:(vm_compute; reflexivity))
    as [Hcreate Hget].
  split; [vm_compute; reflexivity | ].
  split; [exact Hcreate | ].
  split; [vm_compute; reflexivity | ].
  apply Hget. vm_compute. reflexivity.
Defined.

(** *** The task store *)

Lemma bind_Some {A B} (c : Tasks.M A) (k : A -> Tasks.M B) m a m' :
  c m = Some (a, m') -> Tasks.bind c k m = k a m'.
Proof. intros H. unfold Tasks.bind. rewrite H. reflexivity. Qed.

Lemma run_deref (m : Tasks.Memory) p t :
  Tasks.objects m !! p = Some t -> Tasks.deref p m = Some (t, m).
Proof. intros H. unfold Tasks.deref. rewrite H. reflexivity. Qed.

(** Runs the next step of a computation with the equation given for it. *)
Ltac mstep H := rewrite (bind_Some _ _ _ _ _ H).

Lemma run_SetResult (m : Tasks.Memory) p t result now :
  Tasks.objects m !! p = Some t ->
  Tasks.SetResult p result now m
  = Some (tt, Tasks.set_objects <[p := SetResult t result now]> m).
Proof.
  intros H. unfold Tasks.SetResult. mstep (run_deref m p t H). reflexivity.
Qed.

Lemma run_SetError (m : Tasks.Memory) p t err now :
  Tasks.objects m !! p = Some t ->
  Tasks.SetError p err now m
  = Some (tt, Tasks.set_objects <[p := SetError t err now]> m).
Proof.
  intros H. unfold Tasks.SetError. mstep (run_deref m p t H). reflexivity.
Qed.

Lemma run_Cancel (m : Tasks.Memory) p t reason now :
  Tasks.objects m !! p = Some t ->
  Tasks.Cancel p reason now m
  = Some (tt, Tasks.set_objects <[p := Cancel t reason now]> m).
Proof.
  intros H. unfold Tasks.Cancel. mstep (run_deref m p t H). reflexivity.
Qed.

(** [Update] looks at the id of the submitted task and at nothing else. *)
Lemma run_Update (m : Tasks.Memory) p t :
  Tasks.objects m !! p = Some t ->
  Tasks.Update p m
  = Some (match Tasks.tasks m !! ID t with
          | Some _ => (None, Tasks.set_tasks <[ID t := p]> m)
          | None => (Some ("task " +:+ ID t +:+ " not found"), m)
          end).
Proof.
  intros H. unfold Tasks.Update. mstep (run_deref m p t H).
  destruct (Tasks.tasks m !! ID t); reflexivity.
Qed.

Lemma run_log_id_prefix (m : Tasks.Memory) p t :
  Tasks.objects m !! p = Some t ->
  (8 <= String.length (ID t))%nat ->
  A2AServer.log_id_prefix p m = Some (tt, m).
Proof.
  intros H Hlen. unfold A2AServer.log_id_prefix. mstep (run_deref m p t H).
  destruct (Nat.ltb_spec (String.length (ID t)) 8); [lia | reflexivity].
Qed.

(** A non-blocking send to each of a list of distinct open channels: no
    panic, nothing but the channels changes, and each listed channel
    receives the event unless its buffer is full. *)
Lemma send_all_spec event chs :
  forall m : Tasks.Memory,
    NoDup chs ->
    Forall (fun ch => exists c, Tasks.channels m !! ch = Some c
                                /\ Tasks.closed c = false) chs ->
    exists m',
      Tasks.send_all event chs m = Some (tt, m')
      /\ Tasks.objects m' = Tasks.objects m
      /\ Tasks.tasks m' = Tasks.tasks m
      /\ Tasks.subscribers m' = Tasks.subscribers m
      /\ Tasks.published m' = Tasks.published m
      /\ forall ch c,
           Tasks.channels m !! ch = Some c ->
           Tasks.channels m' !! ch
           = Some (if bool_decide (ch ∈ chs) then Tasks.deliver event c else c).
Proof.
  induction chs as [ | ch0 chs IH]; intros m Hnd Hall.
  - exists m. repeat split; try reflexivity.
    intros ch c Hc. rewrite bool_decide_eq_false_2; [exact Hc | ].
    apply not_elem_of_nil.
  - apply NoDup_cons in Hnd as [Hnotin Hnd].
    apply Forall_cons in Hall as [(c0 & Hc0 & Hopen) Hall].
    set (m1 := Tasks.set_channels <[ch0 := Tasks.deliver event c0]> m).
    assert (Hsend : Tasks.try_send event ch0 m = Some (tt, m1)).
    { unfold Tasks.try_send. rewrite Hc0, Hopen. reflexivity. }
    destruct (IH m1 Hnd) as (m' & Hrun & Ho & Ht & Hs & Hp & Hch).
    { rewrite Forall_forall in Hall |- *. intros ch Hin.
      destruct (Hall ch Hin) as (c & Hc & Hcl). exists c. split; [ | exact Hcl].
      cbn. rewrite lookup_insert_ne; [exact Hc | ].
      intros ->. contradiction. }
    exists m'. split.
    { cbn [Tasks.send_all]. mstep Hsend. exact Hrun. }
    split; [exact Ho | ]. split; [exact Ht | ]. split; [exact Hs | ].
    split; [exact Hp | ].
    intros ch c Hc. destruct (decide (ch = ch0)) as [-> | Hne].
    + rewrite Hc0 in Hc. injection Hc as <-.
      rewrite (Hch ch0 (Tasks.deliver event c0)) by apply lookup_insert_eq.
      rewrite bool_decide_eq_false_2 by exact Hnotin.
      rewrite bool_decide_eq_true_2 by left. reflexivity.
    + rewrite (Hch ch c) by (cbn; rewrite lookup_insert_ne; congruence).
      rewrite (bool_decide_ext (ch ∈ ch0 :: chs) (ch ∈ chs)); [reflexivity | ].
      rewrite elem_of_cons. tauto.
Qed.

(** [PublishEvent] records the event and sends it to the subscribers of
    its task. *)
Lemma run_PublishEvent event (m : Tasks.Memory) :
  Tasks.subscribers_ready m (ev_TaskID event) ->
  exists m',
    Tasks.PublishEvent event m = Some (tt, m')
    /\ Tasks.objects m' = Tasks.objects m
    /\ Tasks.tasks m' = Tasks.tasks m
    /\ Tasks.subscribers m' = Tasks.subscribers m
    /\ Tasks.published m' = Tasks.published m ++ [event]
    /\ forall ch c,
         ch ∈ default [] (Tasks.subscribers m !! ev_TaskID event) ->
         Tasks.channels m !! ch = Some c ->
         Tasks.channels m' !! ch = Some (Tasks.deliver event c).
Proof.
  intros [Hnd Hall]. unfold Tasks.PublishEvent.
  match goal with
  | |- context [Tasks.send_all event ?chs ?m0] =>
      destruct (send_all_spec event chs m0 Hnd Hall)
        as (m' & Hrun & Ho & Ht & Hs & Hp & Hch)
  end.
  exists m'. split; [exact Hrun | ].
  split; [exact Ho | ]. split; [exact Ht | ]. split; [exact Hs | ].
  split; [exact Hp | ].
  intros ch c Hin Hc. rewrite (Hch ch c Hc).
  rewrite bool_decide_eq_true_2 by exact Hin. reflexivity.
Qed.

(** C3 (amended). The task store checks no transition.  [Update]
    accepts every submitted task whose id is stored, whatever the state of
    the stored record and of the submitted one -- a record in a terminal
    state included --, and then holds the submitted task; it rejects only
    an id that is not stored, and then leaves the store as it was.  The
    guard for terminal tasks is in the cancel handler: for a stored task
    in a terminal state it answers 409 and changes nothing. *)
Theorem Update_checks_no_transition (s : A2AServer.Server) p t now :
  Tasks.objects (A2AServer.memory s) !! p = Some t ->
  (is_Some (Tasks.tasks (A2AServer.memory s) !! ID t) ->
   Tasks.Update p (A2AServer.memory s)
   = Some (None, Tasks.set_tasks <[ID t := p]> (A2AServer.memory s))
   /\ Tasks.stored (Tasks.set_tasks <[ID t := p]> (A2AServer.memory s)) (ID t)
      = Some t)
  /\ (Tasks.tasks (A2AServer.memory s) !! ID t = None ->
      Tasks.Update p (A2AServer.memory s)
      = Some (Some ("task " +:+ ID t +:+ " not found"), A2AServer.memory s))
  /\ (Tasks.tasks (A2AServer.memory s) !! ID t = Some p ->
      IsTerminal (State t) = true ->
      A2AServer.handleCancelTask now (ID t) s
      = Some ({| A2AServer.StatusCode := 409;
                 A2AServer.body :=
                   A2AServer.BodyText "Task already in terminal state" |}, s)).
Proof.
  intros Hp. split; [ | split].
  - intros [q Hq]. rewrite (run_Update _ p t Hp), Hq. split; [reflexivity | ].
    unfold Tasks.stored. cbn. rewrite lookup_insert_eq. exact Hp.
  - intros Hnone. rewrite (run_Update _ p t Hp), Hnone. reflexivity.
  - intros Hstored Hterm. unfold A2AServer.handleCancelTask, A2AServer.run.
    assert (Hget : Tasks.Get (ID t) (A2AServer.memory s)
                   = Some (inl p, A2AServer.memory s)).
    { unfold Tasks.Get. rewrite Hstored. reflexivity. }
    mstep Hget. mstep (run_deref _ p t Hp). rewrite Hterm.
    destruct s; reflexivity.
Qed.

(** C3, as the specification states it, fails: the store holds a
    completed task; a task with the same id in state pending is submitted;
    [Update] reports no error and the store then holds the pending task. *)
Lemma Update_accepts_completed_to_pending :
  (State <$> Tasks.stored Scenarios.memory_completed Scenarios.taskID)
  = Some TaskStateCompleted
  /\ Tasks.Update 1%nat Scenarios.memory_completed
     = Some (None,
             Tasks.set_tasks <[Scenarios.taskID := 1%nat]>
               Scenarios.memory_completed)
  /\ (State <$> Tasks.stored
                  (Tasks.set_tasks <[Scenarios.taskID := 1%nat]>
                     Scenarios.memory_completed) Scenarios.taskID)
     = Some TaskStatePending.
Proof. vm_compute. repeat split. Qed.

(** [Update_checks_no_transition] at that store: the submission is
    accepted, and a cancel request for the completed task is refused. *)
Lemma Update_checks_no_transition_witness :
  Tasks.Update 1%nat Scenarios.memory_completed
  = Some (None,
          Tasks.set_tasks <[Scenarios.taskID := 1%nat]>
            Scenarios.memory_completed)
  /\ (fst <$> A2AServer.handleCancelTask 1700000009 Scenarios.taskID
                 {| A2AServer.memory := Scenarios.memory_completed;
                    A2AServer.agentStore := ∅;
                    A2AServer.budgetManager := Cost.NewBudgetManager |})
     = Some {| A2AServer.StatusCode := 409;
               A2AServer.body :=
                 A2AServer.BodyText "Task already in terminal state" |}.
Proof.
  split.
  - destruct (Update_checks_no_transition
                {| A2AServer.memory := Scenarios.memory_completed;
                   A2AServer.agentStore := ∅;
                   A2AServer.budgetManager := Cost.NewBudgetManager |}
                1%nat Scenarios.pendingTask 0 eq_refl) as ([H _] & _ & _).
    + exists 0%nat. reflexivity.
    + exact H.
  - destruct (Update_checks_no_transition
                {| A2AServer.memory := Scenarios.memory_completed;
                   A2AServer.agentStore := ∅;
                   A2AServer.budgetManager := Cost.NewBudgetManager |}
                0%nat Scenarios.completedTask 1700000009 eq_refl)
      as (_ & _ & H).
    change Scenarios.taskID with (ID Scenarios.completedTask).
    rewrite (H eq_refl eq_refl). reflexivity.
Defined.

(** *** Terminal transitions *)

(** The steps the processor takes once the task object is terminal:
    store it, publish the event, log. *)
Lemma finish_tail now (m : Tasks.Memory) p t1 msg :
  Tasks.objects m !! p = Some t1 ->
  is_Some (Tasks.tasks m !! ID t1) ->
  (8 <= String.length (ID t1))%nat ->
  Tasks.subscribers_ready m (ID t1) ->
  IsTerminal (State t1) = true ->
  CompletedAt t1 = instant now ->
  UpdatedAt t1 = instant now ->
  exists m',
    Tasks.bind (Tasks.Update p)
      (fun err =>
         match err with
         | Some _ => Tasks.ret tt
         | None =>
             Tasks.bind (Tasks.deref p)
               (fun t =>
                  Tasks.bind
                    (Tasks.PublishEvent
                       {| ev_TaskID := ID t; ev_State := State t1;
                          ev_Message := msg; ev_Data := ∅;
                          Timestamp := zero_time |})
                    (fun _ => A2AServer.log_id_prefix p))
         end) m
    = Some (tt, m')
    /\ Tasks.terminal_transition now p (ID t1) m m'.
Proof.
  intros Hp [q Hq] Hlen Hready Hterm Hdone Hupd.
  set (m2 := Tasks.set_tasks <[ID t1 := p]> m).
  set (e := {| ev_TaskID := ID t1; ev_State := State t1; ev_Message := msg;
               ev_Data := ∅; Timestamp := zero_time |}).
  destruct (run_PublishEvent e m2 Hready)
    as (m3 & Hrun & Ho & Ht & Hs & Hpub & Hch).
  assert (Hp3 : Tasks.objects m3 !! p = Some t1) by (rewrite Ho; exact Hp).
  exists m3. split.
  - assert (Hupdate : Tasks.Update p m = Some (None, m2)).
    { rewrite (run_Update m p t1 Hp), Hq. reflexivity. }
    mstep Hupdate. mstep (run_deref m2 p t1 Hp). fold e. mstep Hrun.
    apply (run_log_id_prefix m3 p t1 Hp3 Hlen).
  - exists t1, e. split; [exact Hp3 | ]. split; [reflexivity | ].
    split; [exact Hterm | ]. split; [exact Hdone | ]. split; [exact Hupd | ].
    split; [rewrite Ht; apply lookup_insert_eq | ].
    split; [exact Hpub | ]. split; [reflexivity | ].
    split; [reflexivity | ]. split; [reflexivity | exact Hch].
Qed.

Lemma first_byte_Some id :
  (8 <= String.length id)%nat -> exists b, A2AServer.first_byte id = Some b.
Proof.
  destruct id as [ | a id]; cbn; [lia | ]. intros _.
  exists (Ascii.nat_of_ascii a). reflexivity.
Qed.

(** C8 (amended). Each terminal transition publishes exactly one event,
    and that event carries the terminal state the task then has: when the
    processor finishes a stored task (completed or failed, by the first
    byte of its id) and when the cancel handler cancels a stored task that
    is not terminal.  The task's [completed_at] is the instant of the
    transition; the event carries no instant (its timestamp is the zero
    time).  Subscribers with room in their buffer receive the event. *)
Theorem terminal_transition_publishes_once (s : A2AServer.Server) p t
    stamp now :
  Tasks.objects (A2AServer.memory s) !! p = Some t ->
  Tasks.tasks (A2AServer.memory s) !! ID t = Some p ->
  (8 <= String.length (ID t))%nat ->
  Tasks.subscribers_ready (A2AServer.memory s) (ID t) ->
  (exists m',
     A2AServer.processTask_finish stamp now p (A2AServer.memory s)
     = Some (tt, m')
     /\ Tasks.terminal_transition now p (ID t) (A2AServer.memory s) m')
  /\ (IsTerminal (State t) = false ->
      exists t' s',
        A2AServer.handleCancelTask now (ID t) s
        = Some ({| A2AServer.StatusCode := 200;
                   A2AServer.body := A2AServer.BodyTask t' |}, s')
        /\ State t' = TaskStateCancelled
        /\ Tasks.objects (A2AServer.memory s') !! p = Some t'
        /\ Tasks.terminal_transition now p (ID t) (A2AServer.memory s)
             (A2AServer.memory s')).
Proof.
  intros Hp Hstored Hlen Hready. set (m := A2AServer.memory s) in *. split.
  - unfold A2AServer.processTask_finish. mstep (run_deref m p t Hp).
    destruct (first_byte_Some (ID t) Hlen) as [b ->].
    destruct (negb (b mod 10 =? 0)%nat).
    + match goal with
      | |- context [Tasks.SetResult p ?r now] =>
          mstep (run_SetResult m p t r now Hp);
          apply (finish_tail now
                   (Tasks.set_objects <[p := SetResult t r now]> m) p
                   (SetResult t r now) "Task completed successfully")
      end; try reflexivity; try assumption.
      * apply lookup_insert_eq.
      * exists p. exact Hstored.
    + mstep (run_SetError m p t "Simulated task failure" now Hp).
      apply (finish_tail now
               (Tasks.set_objects
                  <[p := SetError t "Simulated task failure" now]> m) p
               (SetError t "Simulated task failure" now) "Task failed");
        try reflexivity; try assumption.
      * apply lookup_insert_eq.
      * exists p. exact Hstored.
  - intros Hlive.
    set (t1 := Cancel t "Cancelled by user" now).
    set (m1 := Tasks.set_objects <[p := t1]> m).
    set (m2 := Tasks.set_tasks <[ID t := p]> m1).
    set (e := {| ev_TaskID := ID t; ev_State := TaskStateCancelled;
                 ev_Message := "Task cancelled"; ev_Data := ∅;
                 Timestamp := zero_time |}).
    assert (Hp1 : Tasks.objects m1 !! p = Some t1) by apply lookup_insert_eq.
    destruct (run_PublishEvent e m2 Hready)
      as (m3 & Hrun & Ho & Ht & Hs & Hpub & Hch).
    assert (Hp3 : Tasks.objects m3 !! p = Some t1) by (rewrite Ho; exact Hp1).
    exists t1, {| A2AServer.memory := m3;
                  A2AServer.agentStore := A2AServer.agentStore s;
                  A2AServer.budgetManager := A2AServer.budgetManager s |}.
    split; [ | split; [reflexivity | split; [exact Hp3 | ]]].
    + unfold A2AServer.handleCancelTask, A2AServer.run. fold m.
      assert (Hget : Tasks.Get (ID t) m = Some (inl p, m)).
      { unfold Tasks.Get. rewrite Hstored. reflexivity. }
      mstep Hget. mstep (run_deref m p t Hp). rewrite Hlive.
      mstep (run_Cancel m p t "Cancelled by user" now Hp). fold t1 m1.
      assert (Hupdate : Tasks.Update p m1 = Some (None, m2)).
      { rewrite (run_Update m1 p t1 Hp1). cbn [ID t1 Cancel Tasks.tasks m1
          Tasks.set_objects]. fold m. rewrite Hstored. reflexivity. }
      mstep Hupdate. fold e. mstep Hrun. mstep (run_deref m3 p t1 Hp3).
      reflexivity.
    + cbn [A2AServer.memory]. exists t1, e.
      split; [exact Hp3 | ]. split; [reflexivity | ].
      split; [reflexivity | ]. split; [reflexivity | ].
      split; [reflexivity | ].
      split; [rewrite Ht; apply lookup_insert_eq | ].
      split; [exact Hpub | ]. split; [reflexivity | ].
      split; [reflexivity | ]. split; [reflexivity | exact Hch].
Qed.

(** C8, as the specification states it, fails: the processor takes a
    pending task to completed at 1700000005; two events are published
    (running, completed), the subscriber receives both, the task's
    [completed_at] is that instant, and the completed event carries the
    zero timestamp, not that instant. *)
Lemma completed_event_carries_no_instant :
  (State <$> Tasks.stored Scenarios.memory_processed Scenarios.taskID)
  = Some TaskStateCompleted
  /\ (CompletedAt <$> Tasks.stored Scenarios.memory_processed Scenarios.taskID)
     = Some (instant 1700000005)
  /\ ((fun e => (ev_State e, Timestamp e))
        <$> Tasks.published Scenarios.memory_processed)
     = [(TaskStateRunning, zero_time); (TaskStateCompleted, zero_time)]
  /\ (Tasks.buffer <$> Tasks.channels Scenarios.memory_processed !! 1%nat)
     = Some (Tasks.published Scenarios.memory_processed).
Proof. vm_compute. repeat split. Qed.

(** [terminal_transition_publishes_once] at the store with one pending
    task and one subscriber. *)
Lemma terminal_transition_publishes_once_witness :
  exists m',
    A2AServer.processTask_finish 1700000004 1700000005 0%nat
      Scenarios.memory_pending = Some (tt, m')
    /\ Tasks.terminal_transition 1700000005 0%nat Scenarios.taskID
         Scenarios.memory_pending m'.
Proof.
  assert (Hsubs : default [] (Tasks.subscribers Scenarios.memory_pending
                                !! Scenarios.taskID) = [1%nat])
    by (vm_compute; reflexivity).
  destruct (terminal_transition_publishes_once Scenarios.server_pending 0%nat
              Scenarios.pendingTask 1700000004 1700000005 eq_refl eq_refl)
    as [H _].
  - cbn. lia.
  - unfold Tasks.subscribers_ready.
    change (ID Scenarios.pendingTask) with Scenarios.taskID.
    change (A2AServer.memory Scenarios.server_pending)
      with Scenarios.memory_pending.
    rewrite Hsubs. split; [apply NoDup_singleton | ].
    constructor; [ | constructor].
    exists {| Tasks.buffer := []; Tasks.closed := false |}.
    split; reflexivity.
  - exact H.
Defined.

End TaskProofs.

(** * Proofs: bearer tokens and the request context *)
Module AuthProofs.

Lemma substring_all s : String.substring 0 (String.length s) s = s.
Proof. induction s as [ | a s IH]; cbn; [reflexivity | ]. rewrite IH. reflexivity. Qed.

(** [strings.TrimPrefix] takes a prefix off the text it was put before. *)
Lemma TrimPrefix_app p s : Auth.TrimPrefix (p +:+ s) p = s.
Proof.
  unfold Auth.TrimPrefix.
  assert (Hpre : String.prefix p (p +:+ s) = true).
  { induction p as [ | a p IH]; [destruct s; reflexivity | ].
    change (String a p +:+ s) with (String a (p +:+ s)). cbn.
    destruct (Ascii.ascii_dec a a); [exact IH | contradiction]. }
  rewrite Hpre. clear Hpre.
  induction p as [ | a p IH].
  - change ("" +:+ s) with s. cbn. rewrite Nat.sub_0_r. apply substring_all.
  - change (String a p +:+ s) with (String a (p +:+ s)). cbn. exact IH.
Qed.

Section Validation.

Variable jwt_decode : string -> option Auth.Token.
Variable rsa_verify : string -> Auth.Token -> bool.

(** An accepted token names a tenant. *)
Lemma accepted_token_names_tenant (v : Auth.JWTValidator) now header claims :
  Auth.ValidateToken jwt_decode rsa_verify v now header = inl claims ->
  Auth.TenantID claims <> "".
Proof.
  unfold Auth.ValidateToken.
  destruct (Auth.ParseWithClaims _ _ _ _ _) as [token | ]; [ | discriminate].
  repeat match goal with
         | |- context [if ?b then _ else _] =>
             lazymatch b with
             | String.eqb (Auth.TenantID _) _ => fail
             | _ => destruct b; [discriminate | ]
             end
         end.
  destruct (String.eqb_spec (Auth.TenantID (Auth.token_Claims token)) "")
    as [ | Hten]; [discriminate | ].
  intros [= <-]. exact Hten.
Qed.

(** The claims [ValidateToken] returns come from a token that decoded,
    names an RSA signing method, verifies under the validator's key, is
    inside its validity period, names the validator's issuer and audience
    and carries a tenant id: no other token is accepted. *)
Theorem accepted_token_passed_every_check (v : Auth.JWTValidator) now header
    claims :
  Auth.ValidateToken jwt_decode rsa_verify v now header = inl claims ->
  exists token alg,
    jwt_decode (Auth.TrimPrefix header "Bearer ") = Some token
    /\ Auth.token_Claims token = claims
    /\ Auth.Method token = Auth.SigningMethodRSA alg
    /\ rsa_verify (Auth.publicKey v) token = true
    /\ Auth.Issuer claims = Auth.issuer v
    /\ Auth.audience v ∈ Auth.Audience claims
    /\ (forall e, Auth.ExpiresAt claims = Some e -> now < e)
    /\ (forall n, Auth.NotBefore claims = Some n -> n <= now)
    /\ Auth.TenantID claims <> "".
Proof.
  unfold Auth.ValidateToken, Auth.ParseWithClaims.
  destruct (jwt_decode _) as [token | ] eqn:Hdec; [ | discriminate].
  destruct (Auth.Method token) as [alg | alg | alg] eqn:Halg; try discriminate.
  destruct (rsa_verify _ token) eqn:Hsig; [ | discriminate]. cbn [negb].
  destruct (Auth.registered_claims_valid now _) eqn:Hreg; [ | discriminate].
  cbn [negb].
  destruct (String.eqb_spec (Auth.Issuer (Auth.token_Claims token))
              (Auth.issuer v)) as [Hiss | ]; [ | discriminate].
  cbn [negb].
  destruct (existsb _ _) eqn:Haud; [ | discriminate]. cbn [negb].
  destruct (match Auth.ExpiresAt _ with Some e => e <? now | None => false end);
    [discriminate | ].
  destruct (String.eqb_spec (Auth.TenantID (Auth.token_Claims token)) "")
    as [ | Hten]; [discriminate | ].
  intros [= <-]. exists token, alg.
  apply andb_true_iff in Hreg as [Hexp Hnbf].
  apply existsb_exists in Haud as (aud & Hin & Heq).
  apply String.eqb_eq in Heq. subst aud.
  repeat (split; [assumption || reflexivity | ]).
  split; [apply list_elem_of_In; exact Hin | ].
  split; [ | split; [ | exact Hten]].
  - intros e He. rewrite He in Hexp. lia.
  - intros n Hn. rewrite Hn in Hnbf. lia.
Qed.

(** The strict middleware hands a request on only with the principal of
    a validated token in its context; every other request is answered
    401 with the authentication-required code, and nothing behind the
    middleware runs. *)
Theorem strict_handler_requires_principal (m : Middleware.AuthMiddleware)
    (next : HTTP.Handler) now ctx (r : HTTP.Request) redis :
  (exists claims,
     Auth.ValidateToken jwt_decode rsa_verify (Middleware.validator m) now
       (HTTP.Authorization r) = inl claims
     /\ Middleware.Handler jwt_decode rsa_verify m next now ctx r redis
        = next now (Auth.WithAuth ctx claims) r redis
     /\ Auth.ExtractTenantID (Auth.WithAuth ctx claims)
        = inl (Auth.TenantID claims))
  \/ (exists message,
        Middleware.Handler jwt_decode rsa_verify m next now ctx r redis
        = ({| HTTP.StatusCode := 401; HTTP.ContentType := "application/json";
              HTTP.body :=
                HTTP.BodyRPC
                  (Protocol.NewErrorResponse None (-32001) message None) |},
           redis)).
Proof.
  unfold Middleware.Handler.
  destruct (String.eqb (HTTP.Authorization r) "");
    [right; eexists; reflexivity | ].
  destruct (Auth.ValidateToken _ _ _ _ _) as [claims | err] eqn:Hval;
    [ | right; eexists; reflexivity].
  left. exists claims. split; [reflexivity | ]. split; [reflexivity | ].
  pose proof (accepted_token_names_tenant _ _ _ _ Hval) as Hten.
  unfold Auth.ExtractTenantID, Auth.WithAuth. cbn [Auth.ctx_TenantID].
  apply String.eqb_neq in Hten. rewrite Hten. reflexivity.
Qed.

End Validation.

(** What [WithAuth] puts into the context is what the extractors read
    back: a scope is held exactly when the claims list it, the user id is
    the claim's unless that is empty, and a context without a principal
    holds no scope. *)
Theorem context_round_trip ctx (claims : Auth.Claims) scope :
  Auth.HasScope (Auth.WithAuth ctx claims) scope
  = bool_decide (scope ∈ Auth.Scopes claims)
  /\ Auth.ExtractScopes (Auth.WithAuth ctx claims) = (Auth.Scopes claims, None)
  /\ Auth.ExtractUserID (Auth.WithAuth ctx claims)
     = (if bool_decide (Auth.UserID claims = "")
        then inr "user_id not found in context"
        else inl (Auth.UserID claims))
  /\ Auth.HasScope Auth.Background scope = false.
Proof.
  split; [ | split; [reflexivity | split; [ | reflexivity]]].
  - unfold Auth.HasScope, Auth.ExtractScopes, Auth.WithAuth.
    cbn [Auth.ctx_Scopes].
    induction (Auth.Scopes claims) as [ | s l IH]; [reflexivity | ].
    cbn [existsb]. rewrite IH.
    destruct (String.eqb_spec s scope) as [-> | Hne].
    + cbn [orb]. rewrite bool_decide_eq_true_2 by left. reflexivity.
    + cbn [orb]. apply bool_decide_ext. rewrite elem_of_cons.
      split; [tauto | intros [-> | H]; [contradiction | exact H]].
  - unfold Auth.ExtractUserID, Auth.WithAuth. cbn [Auth.ctx_UserID].
    destruct (String.eqb_spec (Auth.UserID claims) "") as [He | Hne].
    + rewrite bool_decide_eq_true_2 by exact He. reflexivity.
    + rewrite bool_decide_eq_false_2 by exact Hne. reflexivity.
Qed.

Section DemoTokens.

Variable rsa_sign : string -> Auth.SigningMethod -> Auth.Claims -> string.
Variable jwt_encode : Auth.Token -> string.
Variable jwt_decode : string -> option Auth.Token.
Variable rsa_verify : string -> Auth.Token -> bool.

(** A demo token presented as a bearer header to a validator of the demo
    issuer and audience, at or after its issue -- provided the
    serialization decodes to the token that was encoded and its signature
    verifies under the validator's key.  Until just before its expiry it
    is accepted with the tenant, user and scopes it was generated for
    when the tenant id is not empty, and refused with 'tenant_id claim is
    required' when it is.  From the expiry on it is refused by the
    parser, whatever the tenant id. *)
Theorem demo_token_round_trip (v : Auth.JWTValidator) privateKey issued now
    tenantID userID scopes expiry :
  let claims :=
    {| Auth.TenantID := tenantID; Auth.UserID := userID; Auth.Email := "";
       Auth.Scopes := scopes; Auth.Issuer := "mcp-server-demo";
       Auth.Audience := ["mcp-server"];
       Auth.ExpiresAt := Some (issued + expiry);
       Auth.NotBefore := Some issued; Auth.IssuedAt := Some issued |} in
  let token :=
    {| Auth.Method := Auth.SigningMethodRSA "RS256";
       Auth.token_Claims := claims;
       Auth.Signature :=
         rsa_sign privateKey (Auth.SigningMethodRSA "RS256") claims |} in
  let header :=
    "Bearer " +:+ Auth.GenerateDemoTokenWithExpiry rsa_sign jwt_encode issued
                    tenantID userID scopes privateKey expiry in
  jwt_decode (jwt_encode token) = Some token ->
  rsa_verify (Auth.publicKey v) token = true ->
  Auth.issuer v = "mcp-server-demo" ->
  Auth.audience v = "mcp-server" ->
  issued <= now ->
  (now < issued + expiry ->
   Auth.ValidateToken jwt_decode rsa_verify v now header
   = if String.eqb tenantID "" then inr "tenant_id claim is required"
     else inl claims)
  /\ (issued + expiry <= now ->
      exists err,
        Auth.ParseWithClaims jwt_decode rsa_verify v now (jwt_encode token)
        = inr err
        /\ Auth.ValidateToken jwt_decode rsa_verify v now header
           = inr ("failed to parse token: " +:+ err)).
Proof.
  intros claims token header Hdec Hsig Hiss Haud Hissued.
  unfold Auth.ValidateToken. subst header.
  rewrite TrimPrefix_app. unfold Auth.GenerateDemoTokenWithExpiry.
  fold claims. fold token. unfold Auth.ParseWithClaims. rewrite Hdec.
  change (Auth.Method token) with (Auth.SigningMethodRSA "RS256").
  rewrite Hsig. change (Auth.token_Claims token) with claims.
  unfold Auth.registered_claims_valid.
  cbn [negb claims Auth.ExpiresAt Auth.NotBefore].
  destruct (Z.leb_spec issued now); [ | lia]. rewrite andb_true_r.
  split; intros Hnow.
  - destruct (Z.ltb_spec now (issued + expiry)); [ | lia].
    cbn [negb]. unfold token, claims.
    cbn [negb Auth.token_Claims Auth.Issuer Auth.Audience Auth.TenantID
         Auth.ExpiresAt existsb].
    rewrite Hiss, Haud, ?String.eqb_refl. cbn [negb orb].
    destruct (Z.ltb_spec (issued + expiry) now); [lia | ]. reflexivity.
  - destruct (Z.ltb_spec now (issued + expiry)); [lia | ].
    cbn [negb]. eexists. split; reflexivity.
Qed.

End DemoTokens.

(** [accepted_token_passed_every_check] at the token of tenant B, shown
    one hundred seconds after its issue. *)
Lemma accepted_token_passed_every_check_witness :
  exists token alg,
    Scenarios.jwt_decode "token-B" = Some token
    /\ Auth.token_Claims token = Scenarios.claims Scenarios.tenantB
    /\ Auth.Method token = Auth.SigningMethodRSA alg
    /\ Scenarios.rsa_verify "demo-key" token = true
    /\ Auth.Issuer (Scenarios.claims Scenarios.tenantB) = "mcp-server-demo"
    /\ "mcp-server" ∈ Auth.Audience (Scenarios.claims Scenarios.tenantB)
    /\ (forall e, Auth.ExpiresAt (Scenarios.claims Scenarios.tenantB) = Some e ->
                  1700000100 < e)
    /\ (forall n, Auth.NotBefore (Scenarios.claims Scenarios.tenantB) = Some n ->
                  n <= 1700000100)
    /\ Auth.TenantID (Scenarios.claims Scenarios.tenantB) <> "".
Proof.
  exact (accepted_token_passed_every_check Scenarios.jwt_decode
           Scenarios.rsa_verify Scenarios.jwtValidator 1700000100
           "Bearer token-B" (Scenarios.claims Scenarios.tenantB) eq_refl).
Defined.

(** [demo_token_round_trip] at a token issued for tenant B at 1700000000
    with the default 24 hours: accepted 100 seconds later. *)
Lemma demo_token_round_trip_witness :
  Auth.ValidateToken Scenarios.jwt_decode Scenarios.rsa_verify
    Scenarios.jwtValidator 1700000100
    ("Bearer " +:+ Auth.GenerateDemoToken (fun _ _ _ => "demo-key")
                     (fun _ => "token-B") 1700000000 Scenarios.tenantB
                     "demo-user" ["read"; "write"] "demo-private-key")
  = inl (Scenarios.claims Scenarios.tenantB).
Proof.
  destruct (demo_token_round_trip (fun _ _ _ => "demo-key")
              (fun _ => "token-B") Scenarios.jwt_decode Scenarios.rsa_verify
              Scenarios.jwtValidator "demo-private-key" 1700000000 1700000100
              Scenarios.tenantB "demo-user" ["read"; "write"] (24 * 3600)
              eq_refl eq_refl eq_refl eq_refl) as [Hin _].
  - lia.
  - unfold Auth.GenerateDemoToken. rewrite Hin by lia. reflexivity.
Defined.

End AuthProofs.

(** * Proofs: the JSON-RPC handler and the tool registry *)
Module HandlerProofs.
Import Notions.

Section Handler.

Variable unmarshalRequest : string -> option Protocol.Request.
Variable unmarshalInitialize :
  Protocol.RawMessage -> option Protocol.InitializeRequest.
Variable unmarshalToolCall :
  Protocol.RawMessage -> option Protocol.ToolCallRequest.

Lemma NewResponse_wellformed id result :
  wellformed id (Protocol.NewResponse id result).
Proof.
  split; [reflexivity | split; [reflexivity | ]]. cbn. split.
  - discriminate.
  - intros [e He]. discriminate.
Qed.

Lemma NewErrorResponse_wellformed id code message data :
  wellformed id (Protocol.NewErrorResponse id code message data).
Proof.
  split; [reflexivity | split; [reflexivity | ]]. cbn. split; eauto.
Qed.

Lemma handleRequest_wellformed h ctx req :
  wellformed (Protocol.req_ID req)
    (Server.handleRequest unmarshalInitialize unmarshalToolCall h ctx req).
Proof.
  unfold Server.handleRequest, Server.handleInitialize, Server.handleToolsList,
    Server.handleToolsCall.
  repeat match goal with
         | |- context [if ?b then _ else _] => destruct b
         | |- context [match ?x with inl _ => _ | inr _ => _ end] => destruct x
         | |- context [match ?x with (_, _) => _ end] => destruct x
         | |- context [match ?x with Some _ => _ | None => _ end] => destruct x
         end;
    auto using NewResponse_wellformed, NewErrorResponse_wellformed.
Qed.

(** Whatever is POSTed to the handler, the answer is a JSON-RPC 2.0
    response sent as application/json that holds either a result or an
    error, never both and never neither; its id is the request's when the
    body decoded and null when it did not.  Any other HTTP method is
    answered 405 in plain text. *)
Theorem every_post_gets_a_jsonrpc_answer h ctx (r : HTTP.Request) :
  if String.eqb (HTTP.http_Method r) "POST" then
    exists status response,
      Server.ServeHTTP unmarshalRequest unmarshalInitialize unmarshalToolCall
        h ctx r
      = {| HTTP.StatusCode := status; HTTP.ContentType := "application/json";
           HTTP.body := HTTP.BodyRPC response |}
      /\ wellformed
           match HTTP.http_Body r ≫= unmarshalRequest with
           | Some req => Protocol.req_ID req
           | None => None
           end response
  else
    Server.ServeHTTP unmarshalRequest unmarshalInitialize unmarshalToolCall
      h ctx r
    = {| HTTP.StatusCode := 405;
         HTTP.ContentType := "text/plain; charset=utf-8";
         HTTP.body := HTTP.BodyText "Method not allowed" |}.
Proof.
  unfold Server.ServeHTTP, Server.sendErrorResponse.
  destruct (String.eqb (HTTP.http_Method r) "POST"); [ | reflexivity].
  cbn [negb].
  destruct (HTTP.http_Body r) as [b | ]; cbn [mbind option_bind];
    [destruct (unmarshalRequest b) as [req | ]; cbn [mbind option_bind];
       [destruct (Protocol.Validate req) | ] | ];
    eexists _, _; (split; [reflexivity | ]);
    auto using handleRequest_wellformed, NewErrorResponse_wellformed.
Qed.

(** Errors of the protocol layer are answered with HTTP 200 and the
    standard code: a body that is no JSON with parse-error (-32700) and a
    null id; a request whose version is not 2.0 or whose method is empty
    with invalid-request (-32600); a method other than initialize,
    tools/list and tools/call with method-not-found (-32601) and the
    method's name in the message. *)
Theorem protocol_errors h ctx (r : HTTP.Request) b :
  HTTP.http_Method r = "POST" ->
  HTTP.http_Body r = Some b ->
  let answer :=
    Server.ServeHTTP unmarshalRequest unmarshalInitialize unmarshalToolCall
      h ctx r in
  let error id code message :=
    {| HTTP.StatusCode := 200; HTTP.ContentType := "application/json";
       HTTP.body :=
         HTTP.BodyRPC (Protocol.NewErrorResponse id code message None) |} in
  match unmarshalRequest b with
  | None => answer = error None (-32700) "Invalid JSON"
  | Some req =>
      if negb (String.eqb (Protocol.req_JSONRPC req) "2.0") then
        answer = error (Protocol.req_ID req) (-32600)
                   ("invalid jsonrpc version: expected 2.0, got "
                    +:+ Protocol.req_JSONRPC req)
      else if String.eqb (Protocol.req_Method req) "" then
        answer = error (Protocol.req_ID req) (-32600) "method is required"
      else
        Protocol.req_Method req <> "initialize" ->
        Protocol.req_Method req <> "tools/list" ->
        Protocol.req_Method req <> "tools/call" ->
        answer = error (Protocol.req_ID req) (-32601)
                   ("Method not found: " +:+ Protocol.req_Method req)
  end.
Proof.
  intros Hpost Hbody answer error. subst answer error.
  unfold Server.ServeHTTP, Server.sendErrorResponse, Protocol.Validate.
  rewrite Hpost, Hbody. cbn [negb String.eqb Ascii.eqb Bool.eqb].
  destruct (unmarshalRequest b) as [req | ]; [ | reflexivity].
  change Protocol.JSONRPCVersion with "2.0".
  destruct (negb (String.eqb (Protocol.req_JSONRPC req) "2.0"));
    [reflexivity | ].
  destruct (String.eqb (Protocol.req_Method req) ""); [reflexivity | ].
  intros H1 H2 H3. unfold Server.handleRequest.
  apply String.eqb_neq in H1, H2, H3.
  unfold Protocol.MethodInitialize, Protocol.MethodToolsList,
    Protocol.MethodToolsCall.
  rewrite H1, H2, H3. reflexivity.
Qed.

End Handler.

(** *** The tool registry *)

Lemma registered_snoc ts t :
  registered (ts ++ [t]) = Tools.Register (registered ts) t.
Proof. unfold registered. apply foldl_snoc. Qed.

(** A name resolves to the tool registered last under it. *)
Lemma Get_registered ts name :
  Tools.Get (registered ts) name = last (filter (named name) ts).
Proof.
  induction ts as [ | t ts IH] using rev_ind; [reflexivity | ].
  rewrite registered_snoc, filter_app. unfold Tools.Get, Tools.Register.
  cbn [Tools.tools]. unfold Tools.Get in IH.
  destruct (decide (named name t)) as [Hn | Hn].
  - rewrite (filter_cons_True (named name) t []) by exact Hn.
    rewrite filter_nil, last_snoc. unfold named in Hn. rewrite Hn.
    apply lookup_insert_eq.
  - rewrite (filter_cons_False (named name) t []) by exact Hn.
    rewrite filter_nil, app_nil_r, lookup_insert_ne; [exact IH | ].
    exact Hn.
Qed.

(** Tools are found under the name their own definition gives: of
    several tools registered under one name the last replaces the others;
    executing a name no tool carries fails with 'tool not found' and
    runs nothing; and every definition that [tools/list] shows can be
    called under the name listed, reaching a tool with that definition. *)
Theorem registry_resolves_names (ts : list Tools.Tool) ctx name args :
  Tools.RegistryExecute (registered ts) ctx name args
  = match last (filter (named name) ts) with
    | Some tool => Tools.Execute tool ctx args
    | None =>
        ({| Protocol.Content := []; Protocol.IsError := true |},
         Some ("tool not found: " +:+ name))
    end
  /\ (forall d,
        d ∈ Tools.List (registered ts) ->
        exists tool,
          tool ∈ ts
          /\ Tools.ToolDefinition tool = d
          /\ Tools.Get (registered ts) (Protocol.tool_Name d) = Some tool).
Proof.
  split.
  - unfold Tools.RegistryExecute. rewrite Get_registered.
    destruct (last _); reflexivity.
  - intros d Hd. unfold Tools.List in Hd.
    apply list_elem_of_fmap in Hd as ([key tool] & -> & Hin).
    apply elem_of_map_to_list in Hin. cbn [snd].
    change (Tools.Get (registered ts) key = Some tool) in Hin.
    pose proof Hin as Hlast. rewrite Get_registered in Hlast.
    apply last_Some in Hlast as [l Hl].
    assert (Hmem : tool ∈ filter (named key) ts).
    { rewrite Hl. apply elem_of_app. right. left. }
    apply list_elem_of_filter in Hmem as [Hname Hts].
    exists tool. split; [exact Hts | ]. split; [reflexivity | ].
    unfold named in Hname. rewrite Hname. exact Hin.
Qed.

(** [protocol_errors] at a body that is no JSON. *)
Lemma protocol_errors_witness :
  Server.ServeHTTP Scenarios.unmarshalRequest Scenarios.unmarshalInitialize
    Scenarios.unmarshalToolCall Scenarios.mcpHandler Auth.Background
    (Scenarios.post "" "{'jsonrpc':")
  = {| HTTP.StatusCode := 200; HTTP.ContentType := "application/json";
       HTTP.body :=
         HTTP.BodyRPC
           (Protocol.NewErrorResponse None (-32700) "Invalid JSON" None) |}.
Proof.
  exact (protocol_errors Scenarios.unmarshalRequest
           Scenarios.unmarshalInitialize Scenarios.unmarshalToolCall
           Scenarios.mcpHandler Auth.Background
           (Scenarios.post "" "{'jsonrpc':") "{'jsonrpc':" eq_refl eq_refl).
Defined.

End HandlerProofs.

(** * Proofs: tenant isolation of the read paths *)
Module IsolationProofs.
Import Notions.

Section Reads.

Variable exec_set_local : string -> option string.
Variable uuid_cast : string -> option string.
Variable ts_match : Database.Document -> string -> bool.
Variable ts_rank_cd : Database.Document -> string -> float.
Variable cosine_distance : list float -> list float -> float.
Variable reciprocal : Z -> float.

(** The rows a transaction sees are rows of the table. *)
Lemma visible_rows (db : Database.DB) tx rows d :
  Database.visible uuid_cast db tx = Some rows ->
  d ∈ rows ->
  d ∈ Database.documents db.
Proof.
  unfold Database.visible.
  destruct (Database.row_security_applies (Database.role db)).
  - destruct (uuid_cast _) as [tenant | ]; [ | discriminate].
    intros [= <-] Hd. apply list_elem_of_filter in Hd as [_ Hd]. exact Hd.
  - intros [= <-] Hd. exact Hd.
Qed.

(** Under a role the policy applies to, the rows a transaction begun for
    a tenant sees are rows of that tenant. *)
Lemma visible_owned (db : Database.DB) tenantID tx rows d :
  Database.row_security_applies (Database.role db) = true ->
  Database.BeginTx exec_set_local db tenantID = inl tx ->
  Database.visible uuid_cast db tx = Some rows ->
  d ∈ rows ->
  owned_by exec_set_local uuid_cast db tenantID d.
Proof.
  intros Hrole.
  unfold Database.BeginTx, Database.SetTenantContext, Database.visible.
  rewrite Hrole.
  destruct (Database.pool_up db); [ | discriminate].
  destruct (exec_set_local _) as [setting | ] eqn:Hset; [ | discriminate].
  intros [= <-]. cbn [Database.tx_tenant].
  destruct (uuid_cast setting) as [tenant | ] eqn:Hcast; [ | discriminate].
  intros [= <-] Hd. apply list_elem_of_filter in Hd as [Hten Hd].
  split; [exact Hd | ]. exists setting. split; [exact Hset | ].
  rewrite Hcast, Hten. reflexivity.
Qed.

(** The document [GetDocument] returns is a row of the table with the id
    asked for.  When the sessions' role is subject to the row-security
    policy, it is a row of the caller's tenant: a row of another tenant
    is never returned.  When the role is exempt from the policy -- the
    default role [mcp_user] is -- the id is the query's only condition:
    a row that carries it is returned whichever tenant owns it. *)
Theorem GetDocument_isolation_rests_on_role (db : Database.DB) tenantID docID :
  (forall doc,
     Database.GetDocument exec_set_local uuid_cast db tenantID docID
     = inl doc ->
     doc ∈ Database.documents db
     /\ uuid_cast docID = Some (Database.doc_ID doc)
     /\ (Database.row_security_applies (Database.role db) = true ->
         owned_by exec_set_local uuid_cast db tenantID doc))
  /\ (forall setting id d,
        Database.row_security_applies (Database.role db) = false ->
        Database.pool_up db = true ->
        exec_set_local (Database.tenant_context_query tenantID)
        = Some setting ->
        uuid_cast docID = Some id ->
        d ∈ Database.documents db ->
        Database.doc_ID d = id ->
        exists doc,
          Database.GetDocument exec_set_local uuid_cast db tenantID docID
          = inl doc
          /\ Database.doc_ID doc = id).
Proof.
  split.
  - intros doc. unfold Database.GetDocument.
    destruct (Database.BeginTx _ _ _) as [tx | ] eqn:Htx; [ | discriminate].
    destruct (Database.visible _ _ _) as [rows | ] eqn:Hvis; [ | discriminate].
    destruct (uuid_cast docID) as [id | ]; [ | discriminate].
    destruct (filter _ rows) as [ | d rest] eqn:Hf; [discriminate | ].
    intros [= <-].
    assert (Hd : d ∈ filter (fun d => Database.doc_ID d = id) rows)
      by (rewrite Hf; left).
    apply list_elem_of_filter in Hd as [Hid Hd].
    split; [exact (visible_rows db tx rows d Hvis Hd) | ].
    split; [rewrite Hid; reflexivity | ].
    intros Hrole. exact (visible_owned db tenantID tx rows d Hrole Htx Hvis Hd).
  - intros setting id d Hrole Hup Hset Hid Hd Hdid.
    unfold Database.GetDocument, Database.BeginTx, Database.SetTenantContext,
      Database.visible.
    rewrite Hup, Hset, Hrole, Hid.
    destruct (filter (fun d => Database.doc_ID d = id)
                (Database.documents db)) as [ | doc rest] eqn:Hf.
    + assert (Hin : d ∈ filter (fun d => Database.doc_ID d = id)
                      (Database.documents db))
        by (apply list_elem_of_filter; split; assumption).
      rewrite Hf in Hin. inversion Hin.
    + exists doc. split; [reflexivity | ].
      assert (Hin : doc ∈ filter (fun d => Database.doc_ID d = id)
                      (Database.documents db)) by (rewrite Hf; left).
      apply list_elem_of_filter in Hin as [Hdoc _]. exact Hdoc.
Qed.

Lemma row_number_sound l r :
  r ∈ Database.row_number l -> (Database.row r, Database.score r) ∈ l.
Proof.
  unfold Database.row_number. intros Hr.
  apply elem_of_lookup_imap_1 in Hr as (i & [d s] & -> & Hi).
  cbn. apply (list_elem_of_lookup_2 _ i). exact Hi.
Qed.

Lemma bm25_results_sound rows query r :
  r ∈ Database.bm25_results ts_match ts_rank_cd rows query ->
  Database.row r ∈ rows.
Proof.
  unfold Database.bm25_results. intros Hr.
  apply row_number_sound, ServerProofs.order_by_elem_of in Hr.
  apply list_elem_of_fmap in Hr as (d & Heq & Hd). injection Heq as -> _.
  apply list_elem_of_filter in Hd as [_ Hd]. exact Hd.
Qed.

Lemma vector_results_sound rows q r :
  r ∈ Database.vector_results cosine_distance rows q ->
  Database.row r ∈ rows.
Proof.
  unfold Database.vector_results. intros Hr.
  apply list_elem_of_fmap in Hr as (r0 & -> & Hr). cbn [Database.row].
  apply row_number_sound, ServerProofs.order_by_elem_of in Hr.
  apply list_elem_of_fmap in Hr as (d & Heq & Hd). injection Heq as -> _.
  apply list_elem_of_filter in Hd as [_ Hd]. exact Hd.
Qed.

Lemma find_id_elem_of id l r :
  Database.find_id id l = Some r -> r ∈ l.
Proof.
  unfold Database.find_id. intros H. apply head_Some_elem_of in H.
  apply list_elem_of_filter in H as [_ H]. exact H.
Qed.

Lemma combined_sound rows p h :
  h ∈ Database.combined ts_match ts_rank_cd cosine_distance reciprocal rows p ->
  Database.hit_Document h ∈ rows.
Proof.
  unfold Database.combined. destruct (Database.normalize p) as [bw vw].
  intros Hh. apply list_elem_of_filter in Hh as [_ Hh].
  apply list_elem_of_omap in Hh as ([o1 o2] & Hj & Hc).
  unfold Database.full_outer_join in Hj. apply elem_of_app in Hj as [Hj | Hj].
  - apply list_elem_of_fmap in Hj as (x & [= -> ->] & Hx).
    unfold Database.combine in Hc. cbn in Hc.
    injection Hc as <-. cbn. eapply bm25_results_sound. exact Hx.
  - apply list_elem_of_fmap in Hj as (y & [= -> ->] & Hy).
    apply list_elem_of_filter in Hy as [_ Hy].
    unfold Database.combine in Hc. cbn in Hc.
    injection Hc as <-. cbn. eapply vector_results_sound. exact Hy.
Qed.

(** Every hit of the two hybrid searches is a row of the table, and when
    the sessions' role is subject to the row-security policy, a row of
    the caller's tenant.  When the role is exempt from the policy -- the
    default role [mcp_user] is -- the searches range over the whole
    table: they answer every tenant alike. *)
Theorem hybrid_search_hits_by_role (db : Database.DB) tenantID
    (p : Database.HybridSearchParams) :
  (forall results h,
     Database.HybridSearch exec_set_local uuid_cast ts_match ts_rank_cd
       cosine_distance reciprocal db tenantID p = inl results
     \/ Database.SimpleHybridSearch exec_set_local uuid_cast ts_match
          ts_rank_cd cosine_distance db tenantID p = inl results ->
     h ∈ results ->
     Database.hit_Document h ∈ Database.documents db
     /\ (Database.row_security_applies (Database.role db) = true ->
         owned_by exec_set_local uuid_cast db tenantID
           (Database.hit_Document h)))
  /\ (forall other,
        Database.row_security_applies (Database.role db) = false ->
        is_Some (exec_set_local (Database.tenant_context_query tenantID)) ->
        is_Some (exec_set_local (Database.tenant_context_query other)) ->
        Database.HybridSearch exec_set_local uuid_cast ts_match ts_rank_cd
          cosine_distance reciprocal db tenantID p
        = Database.HybridSearch exec_set_local uuid_cast ts_match ts_rank_cd
            cosine_distance reciprocal db other p
        /\ Database.SimpleHybridSearch exec_set_local uuid_cast ts_match
             ts_rank_cd cosine_distance db tenantID p
           = Database.SimpleHybridSearch exec_set_local uuid_cast ts_match
               ts_rank_cd cosine_distance db other p).
Proof.
  split.
  - intros results h Hrun Hh.
    enough (exists tx rows,
              Database.BeginTx exec_set_local db tenantID = inl tx
              /\ Database.visible uuid_cast db tx = Some rows
              /\ Database.hit_Document h ∈ rows)
      as (tx & rows & Htx & Hvis & Hin).
    { split; [exact (visible_rows db tx rows _ Hvis Hin) | ].
      intros Hrole.
      exact (visible_owned db tenantID tx rows _ Hrole Htx Hvis Hin). }
    destruct Hrun as [Hrun | Hrun].
    + unfold Database.HybridSearch in Hrun.
      destruct (Database.BeginTx _ _ _) as [tx | ] eqn:Htx; [ | discriminate].
      destruct (Database.visible _ _ _) as [rows | ] eqn:Hvis;
        [ | discriminate].
      injection Hrun as <-. apply elem_of_take in Hh as (i & Hi & _).
      apply list_elem_of_lookup_2, ServerProofs.order_by_elem_of,
        combined_sound in Hi.
      exists tx, rows. split; [reflexivity | ]. split; [exact Hvis | exact Hi].
    + unfold Database.SimpleHybridSearch in Hrun.
      destruct (Database.BeginTx _ _ _) as [tx | ] eqn:Htx; [ | discriminate].
      destruct (Database.visible _ _ _) as [rows | ] eqn:Hvis;
        [ | discriminate].
      destruct (mapM _ _) as [scanned | ] eqn:Hscan; [ | discriminate].
      injection Hrun as <-. apply mapM_Some in Hscan.
      apply list_elem_of_lookup in Hh as [i Hi].
      destruct (Forall2_lookup_r _ _ _ _ _ Hscan Hi) as (x & Hx & Hsc).
      apply list_elem_of_lookup_2 in Hx.
      apply elem_of_take in Hx as (i' & Hx & _).
      apply list_elem_of_lookup_2 in Hx.
      unfold Database.simple_rows in Hx.
      destruct (Database.normalize p) as [bw vw].
      apply ServerProofs.order_by_elem_of in Hx.
      apply list_elem_of_fmap in Hx as (d & -> & Hd).
      apply list_elem_of_filter in Hd as [_ Hd].
      exists tx, rows. split; [reflexivity | ]. split; [exact Hvis | ].
      unfold Database.simple_row, Database.scan_row in Hsc.
      repeat match type of Hsc with
             | context [match ?x with Some _ => _ | None => _ end] => destruct x
             | context [if ?b then _ else _] => destruct b
             end; try discriminate;
        injection Hsc as <-; exact Hd.
  - intros other Hrole [v Hv] [w Hw].
    unfold Database.HybridSearch, Database.SimpleHybridSearch,
      Database.BeginTx, Database.SetTenantContext, Database.visible.
    rewrite Hrole, Hv, Hw. destruct (Database.pool_up db); split; reflexivity.
Qed.

Variable unmarshalRetrieveParams :
  gmap string JSON -> Tools.RetrieveParams + string.
Variable marshalMetadata : JSON -> string.
Variable formatTime : GoTime -> string.

(** When [retrieve_document] answers without an error, the caller had a
    principal, named a document id, and what is shown is the text of a
    row of the table with that id -- a row of the principal's tenant when
    the sessions' role is subject to the row-security policy.  In
    particular a call without a principal never shows a document. *)
Theorem retrieve_shows_document_by_role (db : Database.DB) ctx args result :
  Tools.RetrieveExecute exec_set_local uuid_cast unmarshalRetrieveParams
    marshalMetadata formatTime db ctx args = (result, None) ->
  exists tenantID params doc,
    Auth.ExtractTenantID ctx = inl tenantID
    /\ unmarshalRetrieveParams args = inl params
    /\ Tools.DocumentID params <> ""
    /\ doc ∈ Database.documents db
    /\ uuid_cast (Tools.DocumentID params) = Some (Database.doc_ID doc)
    /\ (Database.row_security_applies (Database.role db) = true ->
        owned_by exec_set_local uuid_cast db tenantID doc)
    /\ result
       = {| Protocol.Content :=
              [{| Protocol.cb_Type := "text";
                  Protocol.cb_Text :=
                    Tools.resultText marshalMetadata formatTime doc |}];
            Protocol.IsError := false |}.
Proof.
  unfold Tools.RetrieveExecute.
  destruct (Auth.ExtractTenantID ctx) as [tenantID | ]; [ | discriminate].
  destruct (unmarshalRetrieveParams args) as [params | ]; [ | discriminate].
  destruct (String.eqb_spec (Tools.DocumentID params) "") as [ | Hid];
    [discriminate | ].
  destruct (Database.GetDocument _ _ _ _ _) as [doc | ] eqn:Hget;
    [ | discriminate].
  intros [= <-]. exists tenantID, params, doc.
  unfold Database.GetDocument in Hget.
  destruct (Database.BeginTx _ _ _) as [tx | ] eqn:Htx; [ | discriminate].
  destruct (Database.visible _ _ _) as [rows | ] eqn:Hvis; [ | discriminate].
  destruct (uuid_cast (Tools.DocumentID params)) as [id | ]; [ | discriminate].
  destruct (filter _ rows) as [ | d rest] eqn:Hf; [discriminate | ].
  injection Hget as <-.
  assert (Hd : d ∈ filter (fun d => Database.doc_ID d = id) rows)
    by (rewrite Hf; left).
  apply list_elem_of_filter in Hd as [Hdid Hd].
  split; [reflexivity | ]. split; [reflexivity | ]. split; [exact Hid | ].
  split; [exact (visible_rows db tx rows d Hvis Hd) | ].
  split; [rewrite Hdid; reflexivity | ].
  split; [ | reflexivity].
  intros Hrole. exact (visible_owned db tenantID tx rows d Hrole Htx Hvis Hd).
Qed.

End Reads.

(** [GetDocument_isolation_rests_on_role] at tenant B asking for the
    first document of tenant A.  Reached as [app_user] the database
    answers 'document not found' and gives tenant A its document; reached
    as the server does by default it hands the document to tenant B. *)
Lemma GetDocument_isolation_rests_on_role_witness :
  Database.GetDocument Scenarios.exec_set_local Scenarios.uuid_cast
    Scenarios.db_app Scenarios.tenantB "aaaaaaaa-0000-0000-0000-000000000001"
  = inr "document not found"
  /\ owned_by Scenarios.exec_set_local Scenarios.uuid_cast Scenarios.db_app
       Scenarios.tenantA Scenarios.docA1
  /\ exists doc,
       Database.GetDocument Scenarios.exec_set_local Scenarios.uuid_cast
         Scenarios.db Scenarios.tenantB "aaaaaaaa-0000-0000-0000-000000000001"
       = inl doc
       /\ Database.doc_ID doc = "aaaaaaaa-0000-0000-0000-000000000001"
       /\ Database.doc_TenantID doc = Scenarios.tenantA.
Proof.
  split; [vm_compute; reflexivity | ]. split.
  - destruct (GetDocument_isolation_rests_on_role Scenarios.exec_set_local
                Scenarios.uuid_cast Scenarios.db_app Scenarios.tenantA
                "aaaaaaaa-0000-0000-0000-000000000001") as [Hown _].
    destruct (Hown Scenarios.docA1 eq_refl) as (_ & _ & H).
    exact (H eq_refl).
  - destruct (GetDocument_isolation_rests_on_role Scenarios.exec_set_local
                Scenarios.uuid_cast Scenarios.db Scenarios.tenantB
                "aaaaaaaa-0000-0000-0000-000000000001") as [_ Hleak].
    destruct (Hleak Scenarios.tenantB "aaaaaaaa-0000-0000-0000-000000000001"
                Scenarios.docA1 eq_refl eq_refl eq_refl eq_refl
                ltac:(left) eq_refl) as (doc & Hget & Hid).
    exists doc. split; [exact Hget | ]. split; [exact Hid | ].
    vm_compute in Hget. injection Hget as <-. reflexivity.
Defined.

(** [hybrid_search_hits_by_role] at tenant B's search with limit 1.  On
    the database reached as [app_user] there is one hit, the row of
    tenant B; on the database as the server reaches it by default, tenant
    B gets what tenant A gets, a row of tenant A. *)
Lemma hybrid_search_hits_by_role_witness :
  let search db tenantID :=
    match Database.HybridSearch Scenarios.exec_set_local Scenarios.uuid_cast
            Scenarios.ts_match Scenarios.ts_rank_cd Scenarios.cosine_distance
            Scenarios.reciprocal db tenantID Scenarios.search_one with
    | inl results => results
    | inr _ => []
    end in
  Database.hit_Document <$> search Scenarios.db_app Scenarios.tenantB
  = [Scenarios.docB1]
  /\ Forall (fun h => owned_by Scenarios.exec_set_local Scenarios.uuid_cast
                       Scenarios.db_app Scenarios.tenantB
                       (Database.hit_Document h))
       (search Scenarios.db_app Scenarios.tenantB)
  /\ search Scenarios.db Scenarios.tenantB
     = search Scenarios.db Scenarios.tenantA
  /\ Database.doc_TenantID <$>
       (Database.hit_Document <$> search Scenarios.db Scenarios.tenantB)
     = [Scenarios.tenantA].
Proof.
  intros search. split; [vm_compute; reflexivity | ]. split; [ | split].
  - subst search. cbn beta.
    destruct (Database.HybridSearch _ _ _ _ _ _ _ _ _) as [results | ]
      eqn:Hrun; [ | constructor].
    apply Forall_forall. intros h Hh.
    destruct (hybrid_search_hits_by_role Scenarios.exec_set_local
                Scenarios.uuid_cast Scenarios.ts_match Scenarios.ts_rank_cd
                Scenarios.cosine_distance Scenarios.reciprocal
                Scenarios.db_app Scenarios.tenantB Scenarios.search_one)
      as [Hhits _].
    destruct (Hhits results h (or_introl Hrun) Hh) as [_ Hown].
    exact (Hown eq_refl).
  - subst search. cbn beta.
    destruct (hybrid_search_hits_by_role Scenarios.exec_set_local
                Scenarios.uuid_cast Scenarios.ts_match Scenarios.ts_rank_cd
                Scenarios.cosine_distance Scenarios.reciprocal
                Scenarios.db Scenarios.tenantB Scenarios.search_one)
      as [_ Hsame].
    destruct (Hsame Scenarios.tenantA eq_refl) as [-> _];
      [eexists; reflexivity | eexists; reflexivity | reflexivity].
  - vm_compute. reflexivity.
Defined.

(** [retrieve_shows_document_by_role] at tenant A retrieving its first
    document from the database reached as [app_user]. *)
Lemma retrieve_shows_document_by_role_witness :
  exists doc,
    owned_by Scenarios.exec_set_local Scenarios.uuid_cast Scenarios.db_app
      Scenarios.tenantA doc
    /\ Scenarios.uuid_cast "aaaaaaaa-0000-0000-0000-000000000001"
       = Some (Database.doc_ID doc)
    /\ (Tools.RetrieveExecute Scenarios.exec_set_local Scenarios.uuid_cast
          Scenarios.unmarshalRetrieveParams Scenarios.marshalMetadata
          Scenarios.formatTime Scenarios.db_app
          (Auth.WithAuth Auth.Background (Scenarios.claims Scenarios.tenantA))
          {[ "document_id" :=
               JString "aaaaaaaa-0000-0000-0000-000000000001" ]}).1
       = {| Protocol.Content :=
              [{| Protocol.cb_Type := "text";
                  Protocol.cb_Text :=
                    Tools.resultText Scenarios.marshalMetadata
                      Scenarios.formatTime doc |}];
            Protocol.IsError := false |}.
Proof.
  destruct (retrieve_shows_document_by_role Scenarios.exec_set_local
              Scenarios.uuid_cast Scenarios.unmarshalRetrieveParams
              Scenarios.marshalMetadata Scenarios.formatTime Scenarios.db_app
              (Auth.WithAuth Auth.Background
                 (Scenarios.claims Scenarios.tenantA))
              {[ "document_id" :=
                   JString "aaaaaaaa-0000-0000-0000-000000000001" ]}
              (Tools.RetrieveExecute Scenarios.exec_set_local
                 Scenarios.uuid_cast Scenarios.unmarshalRetrieveParams
                 Scenarios.marshalMetadata Scenarios.formatTime
                 Scenarios.db_app
                 (Auth.WithAuth Auth.Background
                    (Scenarios.claims Scenarios.tenantA))
                 {[ "document_id" :=
                      JString "aaaaaaaa-0000-0000-0000-000000000001" ]}).1)
    as (tenantID & params & doc & Hten & Hpar & _ & _ & Hcast & Hown & Hres).
  - vm_compute. reflexivity.
  - vm_compute in Hten. injection Hten as <-.
    vm_compute in Hpar. injection Hpar as <-.
    exists doc. split; [exact (Hown eq_refl) | ].
    split; [exact Hcast | exact Hres].
Defined.

End IsolationProofs.

(** * Proofs: more on the rate limiter *)
Module LimiterProofs.

(** Keys of one tenant for different windows are different keys. *)
Lemma ratelimit_key_window tenantID (w w' : Z) :
  "ratelimit:" +:+ tenantID +:+ ":" +:+ pretty w
  = "ratelimit:" +:+ tenantID +:+ ":" +:+ pretty w' ->
  w = w'.
Proof.
  intros H. do 3 apply String.app_inj in H. apply pretty_Z_inj in H. exact H.
Qed.

(** Requests of a tenant inside window [w] leave Redis reachable and
    touch no key but that window's. *)
Lemma checkLimits_frame limit tenantID w times :
  forall redis : Redis.Client,
    Redis.up redis = true ->
    Forall (fun t => 0 <= t /\ t / 60 = w) times ->
    let redis' :=
      (Middleware.checkLimits (Middleware.NewRateLimiter limit) tenantID times
         redis).1 in
    Redis.up redis' = true
    /\ forall key,
         key <> "ratelimit:" +:+ tenantID +:+ ":" +:+ pretty w ->
         Redis.keys redis' !! key = Redis.keys redis !! key.
Proof.
  induction times as [ | t times IH]; intros redis Hup Hall; cbn zeta.
  - split; [exact Hup | reflexivity].
  - apply Forall_cons in Hall as [[Ht Hw] Hall].
    cbn [Middleware.checkLimits].
    rewrite (RateLimitProofs.checkLimit_step _ _ _ _ Hup).
    rewrite (RateLimitProofs.ratelimit_key_floor _ _ Ht), Hw.
    match goal with
    | |- context [Middleware.checkLimits ?rl tenantID times ?r] =>
        destruct (IH r eq_refl Hall) as [Hup' Hkeys];
        destruct (Middleware.checkLimits rl tenantID times r)
          as [redis' answers]
    end.
    cbn [fst] in *. split; [exact Hup' | ].
    intros key Hkey. rewrite (Hkeys key Hkey). cbn [Redis.keys].
    apply lookup_insert_ne. congruence.
Qed.

(** The windows are independent: however many requests a tenant made in
    one window -- refused ones included --, its first request in another
    window that has no live counter yet is counted as 1 and allowed
    whenever the limit is at least 1. *)
Theorem next_window_starts_afresh limit tenantID w times now
    (redis : Redis.Client) :
  Redis.up redis = true ->
  Forall (fun t => 0 <= t /\ t / 60 = w) times ->
  0 <= now ->
  now / 60 <> w ->
  Redis.get now redis (Middleware.ratelimit_key tenantID now) = None ->
  let rl := Middleware.NewRateLimiter limit in
  (Middleware.checkLimit rl now tenantID
     (Middleware.checkLimits rl tenantID times redis).1).2
  = (1 <=? limit, None).
Proof.
  intros Hup Hall Hnow Hw Hfresh rl.
  destruct (checkLimits_frame limit tenantID w times redis Hup Hall)
    as [Hup' Hkeys].
  fold rl in Hup', Hkeys.
  rewrite (RateLimitProofs.checkLimit_step _ _ _ _ Hup'). cbn [snd].
  assert (Hget : Redis.get now (Middleware.checkLimits rl tenantID times redis).1
                   (Middleware.ratelimit_key tenantID now) = None).
  { unfold Redis.get in *. rewrite Hkeys; [exact Hfresh | ].
    rewrite (RateLimitProofs.ratelimit_key_floor _ _ Hnow).
    intros Heq. apply ratelimit_key_window in Heq. contradiction. }
  rewrite Hget. reflexivity.
Qed.

Section Endpoint.

Variable unmarshalRequest : string -> option Protocol.Request.
Variable unmarshalInitialize :
  Protocol.RawMessage -> option Protocol.InitializeRequest.
Variable unmarshalToolCall :
  Protocol.RawMessage -> option Protocol.ToolCallRequest.
Variable jwt_decode : string -> option Auth.Token.
Variable rsa_verify : string -> Auth.Token -> bool.

(** While Redis cannot be reached nothing is limited: the endpoint
    answers every request as it would with the limiter taken out, and
    the counters stay as they are. *)
Theorem unreachable_redis_limits_nothing m rl h now ctx (r : HTTP.Request)
    (redis : Redis.Client) :
  Redis.up redis = false ->
  Server.mcpEndpoint unmarshalRequest unmarshalInitialize unmarshalToolCall
    jwt_decode rsa_verify m rl h now ctx r redis
  = Middleware.OptionalHandler jwt_decode rsa_verify m
      (fun _ ctx r redis =>
         (Server.ServeHTTP unmarshalRequest unmarshalInitialize
            unmarshalToolCall h ctx r, redis))
      now ctx r redis.
Proof.
  intros Hdown.
  unfold Server.mcpEndpoint, Middleware.OptionalHandler,
    Middleware.RateLimitHandler, Middleware.checkLimit, Redis.Incr.
  rewrite Hdown.
  destruct (negb _); [destruct (Auth.ValidateToken _ _ _ _ _) | ];
    try destruct (Auth.ExtractTenantID _); reflexivity.
Qed.

End Endpoint.

(** [next_window_starts_afresh] with a limit of 3: five requests in the
    window of second 120, then one at second 180. *)
Lemma next_window_starts_afresh_witness :
  (Middleware.checkLimits (Middleware.NewRateLimiter 3) Scenarios.tenantA
     [120; 121; 150; 160; 179] Scenarios.redis).2
  = [(true, None); (true, None); (true, None); (false, None); (false, None)]
  /\ (Middleware.checkLimit (Middleware.NewRateLimiter 3) 180 Scenarios.tenantA
        (Middleware.checkLimits (Middleware.NewRateLimiter 3)
           Scenarios.tenantA [120; 121; 150; 160; 179] Scenarios.redis).1).2
     = (true, None).
Proof.
  split; [vm_compute; reflexivity | ].
  apply (next_window_starts_afresh 3 Scenarios.tenantA 2
           [120; 121; 150; 160; 179] 180 Scenarios.redis eq_refl).
  - repeat constructor; lia.
  - lia.
  - discriminate.
  - reflexivity.
Defined.

(** [unreachable_redis_limits_nothing] with a limit of 3 and Redis down:
    the fourth request of the minute is answered like the first. *)
Lemma unreachable_redis_limits_nothing_witness :
  let down := {| Redis.up := false; Redis.keys := ∅ |} in
  HTTP.StatusCode <$> (Scenarios.serve_all [1700000100; 1700000101;
                                            1700000102; 1700000103]
                         (Scenarios.post "Bearer token-B"
                            Scenarios.body_tools_list) down).2
  = [200; 200; 200; 200].
Proof.
  intros down.
  assert (Hone : forall now,
            Scenarios.mcp now Auth.Background
              (Scenarios.post "Bearer token-B" Scenarios.body_tools_list) down
            = Middleware.OptionalHandler Scenarios.jwt_decode
                Scenarios.rsa_verify
                (Middleware.NewAuthMiddleware Scenarios.jwtValidator)
                (fun _ ctx r redis =>
                   (Server.ServeHTTP Scenarios.unmarshalRequest
                      Scenarios.unmarshalInitialize Scenarios.unmarshalToolCall
                      Scenarios.mcpHandler ctx r, redis))
                now Auth.Background
                (Scenarios.post "Bearer token-B" Scenarios.body_tools_list)
                down).
  { intros now.
    apply (unreachable_redis_limits_nothing Scenarios.unmarshalRequest
             Scenarios.unmarshalInitialize Scenarios.unmarshalToolCall
             Scenarios.jwt_decode Scenarios.rsa_verify). reflexivity. }
  cbn [Scenarios.serve_all]. rewrite !Hone. vm_compute. reflexivity.
Defined.

End LimiterProofs.

(** * Proofs: the event side of the task store *)
Module StoreProofs.
Import A2AProtocol Notions.

Lemma set_channels_id (m : Tasks.Memory) : Tasks.set_channels id m = m.
Proof. destruct m; reflexivity. Qed.

Lemma deliver_closed e c : Tasks.closed (Tasks.deliver e c) = Tasks.closed c.
Proof. unfold Tasks.deliver. destruct (_ <? _)%nat; reflexivity. Qed.

Lemma deliver_bounded e c :
  (length (Tasks.buffer c) <= Tasks.capacity)%nat ->
  (length (Tasks.buffer (Tasks.deliver e c)) <= Tasks.capacity)%nat.
Proof.
  intros Hc. unfold Tasks.deliver.
  destruct (Nat.ltb_spec (length (Tasks.buffer c)) Tasks.capacity);
    cbn [Tasks.buffer]; [rewrite length_app; cbn; lia | exact Hc].
Qed.

(** What a list of sends without repetition does to one channel. *)
Lemma delivered_lookup e chs :
  forall cs ch,
    NoDup chs ->
    delivered e chs cs !! ch
    = (if bool_decide (ch ∈ chs) then Tasks.deliver e else id) <$> cs !! ch.
Proof.
  induction chs as [ | a chs IH]; intros cs ch Hnd.
  - cbn. rewrite option_fmap_id. reflexivity.
  - apply NoDup_cons in Hnd as [Ha Hnd]. unfold delivered. cbn [foldl].
    fold (delivered e chs (alter (Tasks.deliver e) a cs)).
    rewrite (IH _ _ Hnd). destruct (decide (ch = a)) as [-> | Hne].
    + rewrite lookup_alter_eq, bool_decide_eq_false_2 by exact Ha.
      rewrite bool_decide_eq_true_2 by left.
      rewrite option_fmap_id. reflexivity.
    + rewrite lookup_alter_ne by congruence.
      rewrite (bool_decide_ext (ch ∈ a :: chs) (ch ∈ chs)); [reflexivity | ].
      rewrite elem_of_cons. tauto.
Qed.

(** Sending to open channels goes through. *)
Lemma send_all_open e chs :
  forall m : Tasks.Memory,
    Forall (open_in m) chs ->
    Tasks.send_all e chs m = Some (tt, Tasks.set_channels (delivered e chs) m).
Proof.
  induction chs as [ | a chs IH]; intros m Hall.
  - cbn. unfold Tasks.ret. rewrite <- (set_channels_id m) at 1. reflexivity.
  - apply Forall_cons in Hall as [(c & Hc & Hopen) Hall].
    cbn [Tasks.send_all]. unfold Tasks.bind, Tasks.try_send.
    rewrite Hc, Hopen.
    assert (Hins : <[a := Tasks.deliver e c]> (Tasks.channels m)
                   = alter (Tasks.deliver e) a (Tasks.channels m)).
    { apply map_eq. intros i. destruct (decide (i = a)) as [-> | Hne].
      - rewrite lookup_insert_eq, lookup_alter_eq, Hc. reflexivity.
      - rewrite lookup_insert_ne, lookup_alter_ne by congruence. reflexivity. }
    rewrite IH.
    + destruct m. unfold Tasks.set_channels, delivered.
      cbn [Tasks.channels foldl] in *. rewrite Hins. reflexivity.
    + rewrite Forall_forall in Hall |- *. intros ch Hin.
      destruct (Hall ch Hin) as (c' & Hc' & Hopen').
      unfold open_in. cbn [Tasks.channels Tasks.set_channels].
      destruct (decide (ch = a)) as [-> | Hne].
      * exists (Tasks.deliver e c). rewrite lookup_insert_eq.
        split; [reflexivity | ]. rewrite deliver_closed. exact Hopen.
      * exists c'. rewrite lookup_insert_ne by congruence. split; assumption.
Qed.

Lemma subscribers_NoDup (m : Tasks.Memory) taskID :
  store_ok m -> NoDup (default [] (Tasks.subscribers m !! taskID)).
Proof.
  intros (Hlists & _). destruct (Tasks.subscribers m !! taskID) as [chs | ] eqn:H.
  - exact (proj1 (Hlists _ _ H)).
  - apply NoDup_nil_2.
Qed.

Lemma subscribers_open (m : Tasks.Memory) taskID :
  store_ok m -> Forall (open_in m) (default [] (Tasks.subscribers m !! taskID)).
Proof.
  intros (Hlists & _). destruct (Tasks.subscribers m !! taskID) as [chs | ] eqn:H.
  - exact (proj2 (Hlists _ _ H)).
  - constructor.
Qed.

(** [PublishEvent] on a store in good state: it returns, and in good
    state. *)
Lemma PublishEvent_ok e (m : Tasks.Memory) :
  store_ok m ->
  Tasks.PublishEvent e m = Some (tt, published_to e m)
  /\ store_ok (published_to e m).
Proof.
  intros Hok. split.
  - unfold Tasks.PublishEvent. rewrite send_all_open; [reflexivity | ].
    exact (subscribers_open m (ev_TaskID e) Hok).
  - pose proof (subscribers_NoDup m (ev_TaskID e) Hok) as Hnd.
    destruct Hok as (Hlists & Hown & Hfresh & Hcap).
    assert (Hopen : forall ch, open_in m ch -> open_in (published_to e m) ch).
    { intros ch (c & Hc & Hcl). unfold open_in, published_to.
      cbn [Tasks.channels]. rewrite (delivered_lookup _ _ _ _ Hnd), Hc.
      eexists. split; [reflexivity | ].
      destruct (bool_decide _); [rewrite deliver_closed | ]; exact Hcl. }
    split; [ | split; [exact Hown | split]].
    + intros taskID chs Hs. destruct (Hlists taskID chs Hs) as [Hn Ho].
      split; [exact Hn | ]. eapply Forall_impl; [exact Ho | exact Hopen].
    + intros ch [c' Hc']. apply Hfresh. unfold published_to in Hc'.
      cbn [Tasks.channels] in Hc'.
      rewrite (delivered_lookup _ _ _ _ Hnd) in Hc'.
      destruct (Tasks.channels m !! ch); [eauto | discriminate].
    + intros ch c' Hc'. unfold published_to in Hc'.
      cbn [Tasks.channels] in Hc'.
      rewrite (delivered_lookup _ _ _ _ Hnd) in Hc'.
      destruct (Tasks.channels m !! ch) as [c | ] eqn:Hc; [ | discriminate].
      injection Hc' as <-. specialize (Hcap ch c Hc).
      destruct (bool_decide _); [apply deliver_bounded | ]; exact Hcap.
Qed.

(** [Subscribe] hands out the next free address and keeps the state
    good. *)
Lemma Subscribe_ok taskID (m : Tasks.Memory) :
  store_ok m ->
  exists m',
    Tasks.Subscribe taskID m = Some (Tasks.next m, m')
    /\ store_ok m'
    /\ Tasks.subscribers m' !! taskID
       = Some (default [] (Tasks.subscribers m !! taskID) ++ [Tasks.next m])
    /\ Tasks.channels m' !! Tasks.next m
       = Some {| Tasks.buffer := []; Tasks.closed := false |}.
Proof.
  intros Hok.
  pose proof (subscribers_NoDup m taskID Hok) as Hnd.
  pose proof (subscribers_open m taskID Hok) as Hop.
  destruct Hok as (Hlists & Hown & Hfresh & Hcap).
  eexists. split; [reflexivity | ].
  assert (Hbelow : forall ch, open_in m ch -> ch <> Tasks.next m).
  { intros ch (c & Hc & _) ->.
    assert (Tasks.next m < Tasks.next m)%nat by (apply Hfresh; eauto). lia. }
  assert (Hopen : forall ch,
            open_in m ch ->
            exists c,
              <[Tasks.next m := {| Tasks.buffer := []; Tasks.closed := false |}]>
                (Tasks.channels m) !! ch = Some c
              /\ Tasks.closed c = false).
  { intros ch Ho. pose proof (Hbelow ch Ho) as Hne.
    destruct Ho as (c & Hc & Hcl). exists c.
    rewrite lookup_insert_ne by congruence. split; assumption. }
  assert (Hnew : Tasks.next m ∉ default [] (Tasks.subscribers m !! taskID)).
  { intros Hin. rewrite Forall_forall in Hop.
    exact (Hbelow _ (Hop _ Hin) eq_refl). }
  split; [ | split; [apply lookup_insert_eq | apply lookup_insert_eq]].
  split; [ | split; [ | split]]; cbn [Tasks.subscribers Tasks.channels Tasks.next].
  - intros t chs Hs. destruct (decide (t = taskID)) as [-> | Hne].
    + rewrite lookup_insert_eq in Hs. injection Hs as <-. split.
      * apply NoDup_app. split; [exact Hnd | ]. split; [ | apply NoDup_singleton].
        intros ch Hin Hin'. apply list_elem_of_singleton in Hin'. subst ch.
        contradiction.
      * apply Forall_app. split.
        -- eapply Forall_impl; [exact Hop | exact Hopen].
        -- constructor; [ | constructor]. unfold open_in.
           cbn [Tasks.channels]. eexists.
           rewrite lookup_insert_eq. split; reflexivity.
    + rewrite lookup_insert_ne in Hs by congruence.
      destruct (Hlists t chs Hs) as [Hn Ho]. split; [exact Hn | ].
      eapply Forall_impl; [exact Ho | exact Hopen].
  - assert (Hold : forall t chs ch,
              <[taskID := default [] (Tasks.subscribers m !! taskID)
                          ++ [Tasks.next m]]> (Tasks.subscribers m) !! t
              = Some chs ->
              ch ∈ chs ->
              (ch = Tasks.next m /\ t = taskID)
              \/ (ch <> Tasks.next m
                  /\ exists chs', Tasks.subscribers m !! t = Some chs'
                                  /\ ch ∈ chs')).
    { intros t chs ch Hs Hin. destruct (decide (t = taskID)) as [-> | Hne].
      - rewrite lookup_insert_eq in Hs. injection Hs as <-.
        apply elem_of_app in Hin as [Hin | Hin].
        + right. destruct (Tasks.subscribers m !! taskID) as [chs' | ] eqn:Hs';
            [ | apply elem_of_nil in Hin; contradiction].
          split; [ | eauto]. intros ->. exact (Hnew Hin).
        + left. apply list_elem_of_singleton in Hin. split; [exact Hin | reflexivity].
      - rewrite lookup_insert_ne in Hs by congruence. right.
        split; [ | eauto]. destruct (Hlists t chs Hs) as [_ Ho].
        rewrite Forall_forall in Ho. exact (Hbelow ch (Ho ch Hin)). }
    intros t1 t2 chs1 chs2 ch H1 H2 Hin1 Hin2.
    destruct (Hold _ _ _ H1 Hin1) as [[He1 ->] | [Hn1 (c1 & Hs1 & Hi1)]];
      destruct (Hold _ _ _ H2 Hin2) as [[He2 ->] | [Hn2 (c2 & Hs2 & Hi2)]];
      try congruence.
    exact (Hown _ _ _ _ _ Hs1 Hs2 Hi1 Hi2).
  - intros ch Hsome. destruct (decide (ch = Tasks.next m)) as [-> | Hne]; [lia | ].
    rewrite lookup_insert_ne in Hsome by congruence.
    specialize (Hfresh ch Hsome). lia.
  - intros ch c Hc. destruct (decide (ch = Tasks.next m)) as [-> | Hne].
    + rewrite lookup_insert_eq in Hc. injection Hc as <-. cbn. lia.
    + rewrite lookup_insert_ne in Hc by congruence. exact (Hcap ch c Hc).
Qed.

Lemma remove_first_None ch l :
  Tasks.remove_first ch l = None <-> ch ∉ l.
Proof.
  induction l as [ | a l IH]; cbn.
  - split; [intros _; apply not_elem_of_nil | reflexivity].
  - destruct (decide (a = ch)) as [-> | Hne].
    + split; [discriminate | ]. intros H. exfalso. apply H. left.
    + rewrite fmap_None, IH, not_elem_of_cons. split; [auto | tauto].
Qed.

Lemma remove_first_Some ch l rest :
  Tasks.remove_first ch l = Some rest ->
  NoDup l ->
  ch ∈ l /\ NoDup rest /\ forall x, x ∈ rest <-> x ∈ l /\ x <> ch.
Proof.
  revert rest. induction l as [ | a l IH]; intros rest; cbn; [discriminate | ].
  intros Hrem Hnd. apply NoDup_cons in Hnd as [Ha Hnd].
  destruct (decide (a = ch)) as [-> | Hne].
  - injection Hrem as <-. split; [left | ]. split; [exact Hnd | ].
    intros x. rewrite elem_of_cons. split.
    + intros Hx. split; [auto | ]. intros ->. contradiction.
    + intros [[-> | Hx] Hn]; [contradiction | exact Hx].
  - apply fmap_Some in Hrem as (rest' & Hrem & ->).
    destruct (IH rest' Hrem Hnd) as (Hin & Hnd' & Hiff).
    split; [right; exact Hin | ]. split.
    + apply NoDup_cons. split; [ | exact Hnd']. rewrite Hiff. tauto.
    + intros x. rewrite !elem_of_cons, Hiff. split.
      * intros [-> | [Hx Hn]]; [split; [auto | congruence] | tauto].
      * intros [[-> | Hx] Hn]; [auto | tauto].
Qed.

(** Dropping a key or shrinking a list keeps the state good as long as
    the channels that stay listed stay open. *)
Lemma store_ok_shrink (m m' : Tasks.Memory) :
  store_ok m ->
  Tasks.next m' = Tasks.next m ->
  (forall ch, is_Some (Tasks.channels m' !! ch)
              -> is_Some (Tasks.channels m !! ch)) ->
  (forall ch c', Tasks.channels m' !! ch = Some c' ->
                 exists c, Tasks.channels m !! ch = Some c
                           /\ Tasks.buffer c' = Tasks.buffer c) ->
  (forall t chs',
     Tasks.subscribers m' !! t = Some chs' ->
     NoDup chs'
     /\ Forall (open_in m') chs'
     /\ exists chs, Tasks.subscribers m !! t = Some chs /\ chs' ⊆ chs) ->
  store_ok m'.
Proof.
  intros (Hlists & Hown & Hfresh & Hcap) Hnext Hdom Hbuf Hsub.
  split; [ | split; [ | split]].
  - intros t chs' Hs. destruct (Hsub t chs' Hs) as (Hn & Ho & _). auto.
  - intros t1 t2 chs1 chs2 ch H1 H2 Hin1 Hin2.
    destruct (Hsub _ _ H1) as (_ & _ & c1 & Hs1 & Hsub1).
    destruct (Hsub _ _ H2) as (_ & _ & c2 & Hs2 & Hsub2).
    exact (Hown _ _ _ _ _ Hs1 Hs2 (Hsub1 _ Hin1) (Hsub2 _ Hin2)).
  - intros ch Hsome. rewrite Hnext. exact (Hfresh ch (Hdom ch Hsome)).
  - intros ch c' Hc'. destruct (Hbuf ch c' Hc') as (c & Hc & ->).
    exact (Hcap ch c Hc).
Qed.

(** [Unsubscribe] returns on every argument and keeps the state good. *)
Lemma Unsubscribe_ok taskID ch (m : Tasks.Memory) :
  store_ok m ->
  exists m',
    Tasks.Unsubscribe taskID ch m = Some (tt, m') /\ store_ok m'.
Proof.
  intros Hok.
  pose proof (subscribers_NoDup m taskID Hok) as Hnd.
  pose proof (subscribers_open m taskID Hok) as Hop.
  assert (Hdel : forall m1 : Tasks.Memory,
            store_ok m1 ->
            exists m',
              (if (length (default [] (Tasks.subscribers m1 !! taskID)) =? 0)%nat
               then Some (tt, Tasks.set_subscribers (delete taskID) m1)
               else Some (tt, m1)) = Some (tt, m')
              /\ store_ok m').
  { intros m1 Hok1. destruct (_ =? _)%nat; [ | eauto].
    eexists. split; [reflexivity | ].
    apply (store_ok_shrink m1); [exact Hok1 | reflexivity | cbn; auto | | ].
    - intros c c' Hc'. exists c'. auto.
    - intros t chs' Hs. cbn in Hs.
      apply lookup_delete_Some in Hs as [_ Hs].
      destruct Hok1 as (Hl1 & _). destruct (Hl1 t chs' Hs) as [Hn Ho].
      split; [exact Hn | ]. split; [exact Ho | ]. exists chs'. auto. }
  unfold Tasks.Unsubscribe, Tasks.bind.
  destruct (Tasks.remove_first ch _) as [rest | ] eqn:Hrem; [ | exact (Hdel m Hok)].
  destruct (remove_first_Some _ _ _ Hrem Hnd) as (Hin & Hnd' & Hrest).
  assert (Hlisted : exists chs, Tasks.subscribers m !! taskID = Some chs
                                /\ default [] (Tasks.subscribers m !! taskID) = chs).
  { destruct (Tasks.subscribers m !! taskID) as [chs | ];
      [eauto | apply elem_of_nil in Hin; contradiction]. }
  destruct Hlisted as (chs & Hchs & Hdef). rewrite Hdef in *.
  rewrite Forall_forall in Hop. destruct (Hop ch Hin) as (c & Hc & Hcl).
  unfold Tasks.close. cbn [Tasks.channels Tasks.set_subscribers].
  rewrite Hc, Hcl. apply Hdel.
  pose proof Hok as (Hlists & Hown & _).
  apply (store_ok_shrink m); [exact Hok | reflexivity | | | ];
    cbn [Tasks.channels Tasks.set_channels Tasks.set_subscribers
         Tasks.subscribers].
  - intros x Hx. destruct (decide (x = ch)) as [-> | Hne]; [eauto | ].
    rewrite lookup_insert_ne in Hx by congruence. exact Hx.
  - intros x c' Hc'. destruct (decide (x = ch)) as [-> | Hne].
    + rewrite lookup_insert_eq in Hc'. injection Hc' as <-. eauto.
    + rewrite lookup_insert_ne in Hc' by congruence. eauto.
  - assert (Hkeep : forall x, open_in m x -> x <> ch ->
              exists c0,
                <[ch := {| Tasks.buffer := Tasks.buffer c;
                           Tasks.closed := true |}]> (Tasks.channels m) !! x
                = Some c0 /\ Tasks.closed c0 = false).
    { intros x (c0 & Hc0 & Hcl0) Hne. exists c0.
      rewrite lookup_insert_ne by congruence. auto. }
    intros t chs' Hs. destruct (decide (t = taskID)) as [-> | Hne].
    + rewrite lookup_insert_eq in Hs. injection Hs as <-.
      split; [exact Hnd' | ]. split.
      * apply Forall_forall. intros x Hx. apply Hrest in Hx as [Hx Hne].
        exact (Hkeep x (Hop x Hx) Hne).
      * exists chs. split; [exact Hchs | ]. intros x Hx.
        apply Hrest in Hx. tauto.
    + rewrite lookup_insert_ne in Hs by congruence.
      destruct (Hlists t chs' Hs) as [Hn Ho]. split; [exact Hn | ]. split.
      * apply Forall_forall. intros x Hx. rewrite Forall_forall in Ho.
        apply (Hkeep x (Ho x Hx)). intros ->.
        apply Hne. exact (Hown _ _ _ _ _ Hs Hchs Hx Hin).
      * exists chs'. auto.
Qed.

Lemma NewMemoryStore_ok : store_ok Tasks.NewMemoryStore.
Proof.
  split; [ | split; [ | split]]; cbn.
  - intros t chs H. rewrite lookup_empty in H. discriminate.
  - intros t1 t2 chs1 chs2 ch H. rewrite lookup_empty in H. discriminate.
  - intros ch [c H]. rewrite lookup_empty in H. discriminate.
  - intros ch c H. rewrite lookup_empty in H. discriminate.
Qed.

Lemma calls_ok cs :
  forall m : Tasks.Memory,
    store_ok m -> exists m', calls cs m = Some (tt, m') /\ store_ok m'.
Proof.
  induction cs as [ | c cs IH]; intros m Hok; [exists m; split; [reflexivity | exact Hok] | ].
  cbn [calls]. unfold Tasks.bind at 1.
  assert (Hcall : exists m1, call c m = Some (tt, m1) /\ store_ok m1).
  { destruct c as [taskID | taskID ch | e]; cbn [call].
    - destruct (Subscribe_ok taskID m Hok) as (m1 & Hrun & Hok1 & _).
      exists m1. unfold Tasks.bind. rewrite Hrun. split; [reflexivity | exact Hok1].
    - exact (Unsubscribe_ok taskID ch m Hok).
    - exists (published_to e m). exact (PublishEvent_ok e m Hok). }
  destruct Hcall as (m1 & -> & Hok1). exact (IH m1 Hok1).
Qed.

(** From a new store, no sequence of Subscribe, Unsubscribe and
    PublishEvent calls panics -- no send reaches a closed channel and no
    channel is closed twice, whatever channel Unsubscribe is given -- and
    afterwards every subscriber list holds distinct open channels whose
    buffers are within their capacity of 10. *)
Theorem event_calls_never_panic (cs : list Call) :
  exists m, calls cs Tasks.NewMemoryStore = Some (tt, m) /\ store_ok m.
Proof. exact (calls_ok cs Tasks.NewMemoryStore NewMemoryStore_ok). Qed.

Lemma take_deliver {A} (n : nat) (b k : list A) (e : A) :
  take n ((if (length b <? n)%nat then b ++ [e] else b) ++ k)
  = take n (b ++ e :: k).
Proof.
  destruct (Nat.ltb_spec (length b) n).
  - rewrite <- app_assoc. reflexivity.
  - rewrite !take_app_le by lia. reflexivity.
Qed.

(** The buffer of a subscribed channel after a run of published events:
    what it held, then the events of its task in order, cut at the
    capacity. *)
Lemma publish_all_buffer events :
  forall (m : Tasks.Memory) taskID chs ch c,
    store_ok m ->
    Tasks.subscribers m !! taskID = Some chs ->
    ch ∈ chs ->
    Tasks.channels m !! ch = Some c ->
    exists m',
      Tasks.publish_all events m = Some (tt, m')
      /\ store_ok m'
      /\ Tasks.channels m' !! ch
         = Some {| Tasks.buffer :=
                     take Tasks.capacity
                       (Tasks.buffer c
                        ++ filter (fun e => ev_TaskID e = taskID) events);
                   Tasks.closed := Tasks.closed c |}.
Proof.
  induction events as [ | e events IH]; intros m taskID chs ch c Hok Hs Hin Hc.
  - exists m. split; [reflexivity | ]. split; [exact Hok | ].
    destruct Hok as (_ & _ & _ & Hcap). specialize (Hcap ch c Hc).
    rewrite filter_nil, app_nil_r, take_ge by exact Hcap.
    rewrite Hc. destruct c; reflexivity.
  - destruct (PublishEvent_ok e m Hok) as [Hrun Hok1].
    cbn [Tasks.publish_all]. unfold Tasks.bind at 1. rewrite Hrun.
    pose proof (subscribers_NoDup m (ev_TaskID e) Hok) as Hnd.
    assert (Hc1 : Tasks.channels (published_to e m) !! ch
                  = Some (if bool_decide (ev_TaskID e = taskID)
                          then Tasks.deliver e c else c)).
    { unfold published_to. cbn [Tasks.channels].
      rewrite (delivered_lookup _ _ _ _ Hnd), Hc. cbn. f_equal.
      destruct (decide (ev_TaskID e = taskID)) as [He | He].
      - rewrite He, Hs. cbn.
        rewrite !bool_decide_eq_true_2 by (exact Hin || reflexivity).
        reflexivity.
      - rewrite (bool_decide_eq_false_2 (ev_TaskID e = taskID)) by exact He.
        rewrite bool_decide_eq_false_2; [reflexivity | ].
        intros Hin'. apply He. destruct Hok as (_ & Hown & _).
        destruct (Tasks.subscribers m !! ev_TaskID e) as [chs' | ] eqn:Hs';
          [ | apply elem_of_nil in Hin'; contradiction].
        exact (Hown _ _ _ _ _ Hs' Hs Hin' Hin). }
    destruct (IH (published_to e m) taskID chs ch _ Hok1 Hs Hin Hc1)
      as (m' & Hrun' & Hok' & Hch).
    exists m'. split; [exact Hrun' | ]. split; [exact Hok' | ].
    rewrite Hch. destruct (decide (ev_TaskID e = taskID)) as [He | He].
    + rewrite bool_decide_eq_true_2 by exact He.
      rewrite filter_cons_True by exact He.
      rewrite deliver_closed. unfold Tasks.deliver at 1.
      destruct (Nat.ltb_spec (length (Tasks.buffer c)) Tasks.capacity) as [Hlt | Hge];
        cbn [Tasks.buffer]; f_equal.
      * rewrite <- app_assoc. reflexivity.
      * rewrite !take_app_le by exact Hge. reflexivity.
    + rewrite bool_decide_eq_false_2 by exact He.
      rewrite filter_cons_False by exact He. reflexivity.
Qed.

(** A subscriber that does not read holds, after any run of published
    events, the first ten events of its task in the order of publication;
    events of other tasks never reach it and events beyond the tenth are
    dropped without blocking the publisher. *)
Theorem subscriber_holds_first_ten (m : Tasks.Memory) taskID events :
  store_ok m ->
  exists m1 m2,
    Tasks.Subscribe taskID m = Some (Tasks.next m, m1)
    /\ Tasks.publish_all events m1 = Some (tt, m2)
    /\ Tasks.channels m2 !! Tasks.next m
       = Some {| Tasks.buffer :=
                   take 10 (filter (fun e => ev_TaskID e = taskID) events);
                 Tasks.closed := false |}.
Proof.
  intros Hok.
  destruct (Subscribe_ok taskID m Hok) as (m1 & Hsub & Hok1 & Hs & Hc).
  destruct (publish_all_buffer events m1 taskID _ (Tasks.next m)
              {| Tasks.buffer := []; Tasks.closed := false |} Hok1 Hs)
    as (m2 & Hrun & _ & Hch).
  - apply elem_of_app. right. left.
  - exact Hc.
  - exists m1, m2. split; [exact Hsub | ]. split; [exact Hrun | exact Hch].
Qed.

(** [subscriber_holds_first_ten] on a new store and twelve events, ten
    of them of the subscribed task. *)
Lemma subscriber_holds_first_ten_witness :
  let event (taskID : string) (n : nat) :=
    {| ev_TaskID := taskID; ev_State := TaskStateRunning;
       ev_Message := pretty n; ev_Data := ∅; Timestamp := zero_time |} in
  let events :=
    event "other" 0%nat :: (event "task-1" <$> seq 1 11) in
  exists m1 m2,
    Tasks.Subscribe "task-1" Tasks.NewMemoryStore = Some (0%nat, m1)
    /\ Tasks.publish_all events m1 = Some (tt, m2)
    /\ Tasks.channels m2 !! 0%nat
       = Some {| Tasks.buffer := event "task-1" <$> seq 1 10;
                 Tasks.closed := false |}.
Proof.
  intros event events.
  destruct (subscriber_holds_first_ten Tasks.NewMemoryStore "task-1" events
              NewMemoryStore_ok) as (m1 & m2 & Hsub & Hrun & Hch).
  exists m1, m2. split; [exact Hsub | ]. split; [exact Hrun | ].
  etransitivity; [exact Hch | reflexivity].
Defined.

(** Unsubscribing a listed channel closes it, with what it had buffered
    still in it, and takes it off the list of its task, leaving the other
    subscribers; events published afterwards do not reach it, and a
    second Unsubscribe of the same channel changes nothing. *)
Theorem unsubscribe_closes_and_removes (m : Tasks.Memory) taskID chs ch :
  store_ok m ->
  Tasks.subscribers m !! taskID = Some chs ->
  ch ∈ chs ->
  exists m',
    Tasks.Unsubscribe taskID ch m = Some (tt, m')
    /\ (Tasks.closed <$> Tasks.channels m' !! ch) = Some true
    /\ (Tasks.buffer <$> Tasks.channels m' !! ch)
       = (Tasks.buffer <$> Tasks.channels m !! ch)
    /\ (forall x, x ∈ default [] (Tasks.subscribers m' !! taskID)
                  <-> x ∈ chs /\ x <> ch)
    /\ (forall t, ch ∉ default [] (Tasks.subscribers m' !! t))
    /\ (forall e, exists m'',
          Tasks.PublishEvent e m' = Some (tt, m'')
          /\ Tasks.channels m'' !! ch = Tasks.channels m' !! ch)
    /\ Tasks.Unsubscribe taskID ch m' = Some (tt, m').
Proof.
  intros Hok Hs Hin.
  destruct (Unsubscribe_ok taskID ch m Hok) as (m' & Hrun & Hok').
  exists m'. split; [exact Hrun | ].
  pose proof (subscribers_NoDup m taskID Hok) as Hnd.
  pose proof (subscribers_open m taskID Hok) as Hop.
  rewrite Hs in Hnd, Hop. cbn [from_option id] in Hnd, Hop.
  rewrite Forall_forall in Hop. destruct (Hop ch Hin) as (c & Hc & Hcl).
  destruct (Tasks.remove_first ch chs) as [rest | ] eqn:Hrem;
    [ | apply remove_first_None in Hrem; contradiction].
  destruct (remove_first_Some _ _ _ Hrem Hnd) as (_ & Hnd' & Hrest).
  (* the memory after the call, spelled out *)
  assert (Hm' : Tasks.channels m'
                = <[ch := {| Tasks.buffer := Tasks.buffer c;
                             Tasks.closed := true |}]> (Tasks.channels m)
                /\ default [] (Tasks.subscribers m' !! taskID) = rest
                /\ forall t, t <> taskID ->
                     Tasks.subscribers m' !! t = Tasks.subscribers m !! t).
  { unfold Tasks.Unsubscribe, Tasks.bind, Tasks.close in Hrun.
    rewrite Hs in Hrun. cbn [from_option id] in Hrun. rewrite Hrem in Hrun.
    cbn [Tasks.channels Tasks.set_subscribers] in Hrun.
    rewrite Hc, Hcl in Hrun.
    cbn [Tasks.subscribers Tasks.set_channels Tasks.set_subscribers
         Tasks.channels] in Hrun.
    rewrite lookup_insert_eq in Hrun. cbn [from_option id] in Hrun.
    destruct (Nat.eqb_spec (length rest) 0) as [Hlen | Hlen];
      injection Hrun as <-;
      cbn [Tasks.channels Tasks.subscribers Tasks.set_subscribers
           Tasks.set_channels].
    - split; [reflexivity | ]. rewrite lookup_delete_eq. split.
      + destruct rest; [reflexivity | discriminate].
      + intros t Hne. rewrite lookup_delete_ne, lookup_insert_ne by congruence.
        reflexivity.
    - split; [reflexivity | ]. rewrite lookup_insert_eq. split; [reflexivity | ].
      intros t Hne. rewrite lookup_insert_ne by congruence. reflexivity. }
  destruct Hm' as (Hch & Hlist & Hothers).
  assert (Hgone : forall t, ch ∉ default [] (Tasks.subscribers m' !! t)).
  { intros t. destruct (decide (t = taskID)) as [-> | Hne].
    - rewrite Hlist, Hrest. tauto.
    - rewrite (Hothers t Hne). intros Hin'.
      destruct (Tasks.subscribers m !! t) as [chs' | ] eqn:Hs';
        [ | apply elem_of_nil in Hin'; contradiction].
      destruct Hok as (_ & Hown & _).
      exact (Hne (Hown _ _ _ _ _ Hs' Hs Hin' Hin)). }
  split; [rewrite Hch, lookup_insert_eq; reflexivity | ].
  split; [rewrite Hch, lookup_insert_eq, Hc; reflexivity | ].
  split; [intros x; rewrite Hlist; apply Hrest | ].
  split; [exact Hgone | ]. split.
  - intros e. exists (published_to e m').
    split; [exact (proj1 (PublishEvent_ok e m' Hok')) | ].
    unfold published_to. cbn [Tasks.channels].
    rewrite (delivered_lookup _ _ _ _ (subscribers_NoDup m' _ Hok')).
    rewrite bool_decide_eq_false_2 by apply Hgone.
    apply option_fmap_id.
  - unfold Tasks.Unsubscribe, Tasks.bind.
    assert (Hnone : Tasks.remove_first ch
                      (default [] (Tasks.subscribers m' !! taskID)) = None)
      by (apply remove_first_None, Hgone).
    rewrite Hnone.
    destruct (Nat.eqb_spec (length (default [] (Tasks.subscribers m' !! taskID))) 0)
      as [Hlen | Hlen]; [ | reflexivity].
    destruct (Tasks.subscribers m' !! taskID) as [l | ] eqn:Hs'.
    + (* an empty list was deleted by the first call *)
      exfalso. cbn [from_option id] in Hlist, Hlen. subst l.
      unfold Tasks.Unsubscribe, Tasks.bind, Tasks.close in Hrun.
      rewrite Hs in Hrun. cbn [from_option id] in Hrun. rewrite Hrem in Hrun.
      cbn [Tasks.channels Tasks.set_subscribers] in Hrun.
      rewrite Hc, Hcl in Hrun.
      cbn [Tasks.subscribers Tasks.set_channels Tasks.set_subscribers
           Tasks.channels] in Hrun.
      rewrite lookup_insert_eq in Hrun. cbn [from_option id] in Hrun.
      rewrite Hlen in Hrun. cbn in Hrun. injection Hrun as <-.
      cbn in Hs'. rewrite lookup_delete_eq in Hs'. discriminate.
    + f_equal. f_equal. destruct m' as [o c' n t s' p']. cbn in Hs' |- *.
      unfold Tasks.set_subscribers. cbn. f_equal.
      apply delete_id. exact Hs'.
Qed.

(** [unsubscribe_closes_and_removes] on a store with one subscriber that
    was sent one event. *)
Lemma unsubscribe_closes_and_removes_witness :
  let event :=
    {| ev_TaskID := "task-1"; ev_State := TaskStateRunning;
       ev_Message := "Task started"; ev_Data := ∅; Timestamp := zero_time |} in
  let m :=
    default Tasks.NewMemoryStore
      (snd <$> calls [CallSubscribe "task-1"; CallPublishEvent event]
                 Tasks.NewMemoryStore) in
  exists m',
    Tasks.Unsubscribe "task-1" 0%nat m = Some (tt, m')
    /\ (Tasks.closed <$> Tasks.channels m' !! 0%nat) = Some true
    /\ (Tasks.buffer <$> Tasks.channels m' !! 0%nat) = Some [event]
    /\ Tasks.subscribers m' !! "task-1" = None.
Proof.
  intros event m.
  destruct (calls_ok [CallSubscribe "task-1"; CallPublishEvent event]
              Tasks.NewMemoryStore NewMemoryStore_ok) as (m0 & Hrun & Hok).
  assert (Hm : m = m0) by (subst m; rewrite Hrun; reflexivity).
  rewrite <- Hm in Hok. clear Hrun Hm m0.
  destruct (unsubscribe_closes_and_removes m "task-1" [0%nat] 0%nat Hok)
    as (m' & Hrun & Hclosed & Hbuf & Hlist & _).
  { vm_compute. reflexivity. }
  { left. }
  exists m'. split; [exact Hrun | ]. split; [exact Hclosed | ].
  split; [rewrite Hbuf; vm_compute; reflexivity | ].
  clear Hclosed Hbuf Hlist Hok. vm_compute in Hrun. injection Hrun as <-.
  vm_compute. reflexivity.
Defined.

End StoreProofs.

(** * Proofs: the task records of the store *)
Module RecordProofs.
Import A2AProtocol Notions.

(** Create, Get and Delete on one id: a task created under a fresh id is
    found under it, as the pointer that was given; other ids are not
    affected; a second Create under the id is refused and changes
    nothing; after Delete the id is unknown again, a second Delete is
    refused, and the store's map is what it was before the Create, while
    the task object itself lives on. *)
Theorem create_get_delete (m : Tasks.Memory) p t :
  Tasks.objects m !! p = Some t ->
  Tasks.tasks m !! ID t = None ->
  exists m1 m2,
    Tasks.Create p m = Some (None, m1)
    /\ Tasks.Get (ID t) m1 = Some (inl p, m1)
    /\ Tasks.stored m1 (ID t) = Some t
    /\ (forall id, id <> ID t -> Tasks.tasks m1 !! id = Tasks.tasks m !! id)
    /\ (forall q t', Tasks.objects m1 !! q = Some t' -> ID t' = ID t ->
          Tasks.Create q m1
          = Some (Some ("task " +:+ ID t +:+ " already exists"), m1))
    /\ Tasks.Delete (ID t) m1 = Some (None, m2)
    /\ Tasks.Get (ID t) m2
       = Some (inr ("task " +:+ ID t +:+ " not found"), m2)
    /\ Tasks.Delete (ID t) m2
       = Some (Some ("task " +:+ ID t +:+ " not found"), m2)
    /\ Tasks.tasks m2 = Tasks.tasks m
    /\ Tasks.objects m2 !! p = Some t.
Proof.
  intros Hp Hfresh.
  exists (Tasks.set_tasks <[ID t := p]> m),
         (Tasks.set_tasks (delete (ID t))
            (Tasks.set_tasks <[ID t := p]> m)).
  split.
  { unfold Tasks.Create, Tasks.bind, Tasks.deref. rewrite Hp, Hfresh.
    reflexivity. }
  split.
  { unfold Tasks.Get. cbn [Tasks.tasks Tasks.set_tasks].
    rewrite lookup_insert_eq. reflexivity. }
  split.
  { unfold Tasks.stored. cbn [Tasks.tasks Tasks.objects Tasks.set_tasks].
    rewrite lookup_insert_eq. exact Hp. }
  split.
  { intros id Hne. cbn [Tasks.tasks Tasks.set_tasks].
    apply lookup_insert_ne. congruence. }
  split.
  { intros q t' Hq Hid. unfold Tasks.Create, Tasks.bind, Tasks.deref.
    rewrite Hq, Hid. cbn [Tasks.tasks Tasks.set_tasks].
    rewrite lookup_insert_eq. reflexivity. }
  split.
  { unfold Tasks.Delete. cbn [Tasks.tasks Tasks.set_tasks].
    rewrite lookup_insert_eq. reflexivity. }
  split.
  { unfold Tasks.Get. cbn [Tasks.tasks Tasks.set_tasks].
    rewrite lookup_delete_eq. reflexivity. }
  split.
  { unfold Tasks.Delete. cbn [Tasks.tasks Tasks.set_tasks].
    rewrite lookup_delete_eq. reflexivity. }
  split.
  { cbn [Tasks.tasks Tasks.set_tasks]. apply delete_insert_id. exact Hfresh. }
  exact Hp.
Qed.

Lemma set_tasks_stored (m : Tasks.Memory) id p :
  Tasks.tasks m !! id = Some p -> Tasks.set_tasks <[id := p]> m = m.
Proof.
  intros H. destruct m as [o c n t s' pub]. unfold Tasks.set_tasks. cbn in *.
  f_equal. apply insert_id. exact H.
Qed.

(** The store holds tasks by reference.  A change made through the
    pointer of a stored task -- by UpdateState, SetResult, SetError or
    Cancel -- is what Get shows from then on, without any Update; and
    Update with the pointer the store already holds reports no error and
    changes nothing. *)
Theorem store_holds_tasks_by_reference (m : Tasks.Memory) p t
    (change : Tasks.M unit) (t' : Task) :
  Tasks.objects m !! p = Some t ->
  Tasks.tasks m !! ID t = Some p ->
  (exists state now,
     change = Tasks.UpdateState p state now /\ t' = UpdateState t state now)
  \/ (exists result now,
        change = Tasks.SetResult p result now /\ t' = SetResult t result now)
  \/ (exists err now,
        change = Tasks.SetError p err now /\ t' = SetError t err now)
  \/ (exists reason now,
        change = Tasks.Cancel p reason now /\ t' = Cancel t reason now) ->
  exists m1,
    change m = Some (tt, m1)
    /\ Tasks.stored m1 (ID t) = Some t'
    /\ Tasks.Update p m1 = Some (None, m1).
Proof.
  intros Hp Hstored Hchange.
  exists (Tasks.set_objects <[p := t']> m).
  assert (Hid : ID t' = ID t).
  { destruct Hchange as [(? & ? & _ & ->) | [(? & ? & _ & ->)
      | [(? & ? & _ & ->) | (? & ? & _ & ->)]]]; reflexivity. }
  split.
  { destruct Hchange as [(? & ? & -> & ->) | [(? & ? & -> & ->)
      | [(? & ? & -> & ->) | (? & ? & -> & ->)]]];
      unfold Tasks.UpdateState, Tasks.SetResult, Tasks.SetError, Tasks.Cancel,
        Tasks.bind, Tasks.deref, Tasks.assign;
      rewrite Hp; reflexivity. }
  split.
  { unfold Tasks.stored. cbn [Tasks.tasks Tasks.objects Tasks.set_objects].
    rewrite Hstored. cbn. apply lookup_insert_eq. }
  unfold Tasks.Update, Tasks.bind, Tasks.deref.
  cbn [Tasks.objects Tasks.set_objects]. rewrite lookup_insert_eq, Hid.
  change (Tasks.tasks (Tasks.set_objects <[p := t']> m)) with (Tasks.tasks m).
  rewrite Hstored. f_equal. f_equal.
  apply set_tasks_stored. exact Hstored.
Qed.

(** *** Listing *)

Lemma collect_run agentID visit :
  forall m : Tasks.Memory,
    (forall id p, (id, p) ∈ visit -> is_Some (Tasks.objects m !! p)) ->
    Tasks.collect agentID visit m
    = Some (filter (fun p => passes m agentID p = true) visit.*2, m).
Proof.
  induction visit as [ | [id p] visit IH]; intros m Halloc; [reflexivity | ].
  assert (Hrest : Tasks.collect agentID visit m
                  = Some (filter (fun p => passes m agentID p = true) visit.*2, m)).
  { apply IH. intros id' p' Hin. apply (Halloc id' p'). right. exact Hin. }
  cbn [Tasks.collect fmap list_fmap snd].
  destruct (String.eqb agentID "") eqn:Hall.
  - unfold Tasks.bind. rewrite Hrest. unfold Tasks.ret.
    rewrite filter_cons_True; [reflexivity | ].
    unfold passes. rewrite Hall. reflexivity.
  - destruct (Halloc id p) as [t Ht]; [left | ].
    unfold Tasks.bind, Tasks.deref. rewrite Ht, Hrest. unfold Tasks.ret.
    destruct (String.eqb (AgentID t) agentID) eqn:Hagent.
    + rewrite filter_cons_True; [reflexivity | ].
      unfold passes. rewrite Hall, Ht, Hagent. reflexivity.
    + rewrite filter_cons_False; [reflexivity | ].
      unfold passes. rewrite Hall, Ht, Hagent. discriminate.
Qed.

Lemma wrap_int_small z : - 2 ^ 63 <= z < 2 ^ 63 -> wrap_int z = z.
Proof. intros Hz. unfold wrap_int. rewrite Z.mod_small; lia. Qed.

(** For an offset and a limit that are not negative (and whose sum is an
    [int]) List does not panic and returns the page: of the stored tasks
    that pass the agent filter, in the order of the visit, the [limit]
    ones after the first [offset].  So a page never holds more than
    [limit] tasks, an offset at or beyond the end gives the empty page,
    and every task listed is a stored one. *)
Theorem List_returns_the_page (m : Tasks.Memory) visit agentID limit offset :
  allocated m ->
  visit ≡ₚ map_to_list (Tasks.tasks m) ->
  0 <= offset ->
  0 <= limit ->
  offset + limit < 2 ^ 63 ->
  let matching := filter (fun p => passes m agentID p = true) visit.*2 in
  let page := take (Z.to_nat limit) (drop (Z.to_nat offset) matching) in
  Tasks.List visit agentID limit offset m = Some (page, m)
  /\ (length page <= Z.to_nat limit)%nat
  /\ (forall p, p ∈ page ->
        exists id t, Tasks.tasks m !! id = Some p
                     /\ Tasks.objects m !! p = Some t
                     /\ (agentID = "" \/ AgentID t = agentID)).
Proof.
  intros Halloc Hvisit Hoff Hlim Hsum matching page.
  assert (Hstored : forall id p, (id, p) ∈ visit -> Tasks.tasks m !! id = Some p).
  { intros id p Hin. rewrite Hvisit in Hin.
    apply elem_of_map_to_list in Hin. exact Hin. }
  split; [ | split].
  - unfold Tasks.List, Tasks.bind. rewrite collect_run.
    2:{ intros id p Hin. exact (Halloc id p (Hstored id p Hin)). }
    fold matching.
    destruct (Z.ltb_spec (Z.of_nat (length matching)) offset) as [Hbeyond | Hin].
    + unfold Tasks.ret, page. rewrite drop_ge by lia. rewrite take_nil.
      reflexivity.
    + rewrite wrap_int_small by lia. unfold Tasks.slice.
      destruct (Z.ltb_spec (Z.of_nat (length matching)) (offset + limit)) as [Hcut | Hfit].
      * destruct (Z.leb_spec 0 offset); [ | lia].
        destruct (Z.leb_spec offset (Z.of_nat (length matching))); [ | lia].
        destruct (Z.leb_spec (Z.of_nat (length matching))
                    (Z.of_nat (length matching))); [ | lia].
        cbn [andb]. unfold Tasks.ret, page. do 2 f_equal.
        rewrite !take_ge; [reflexivity | | ]; rewrite length_drop; lia.
      * destruct (Z.leb_spec 0 offset); [ | lia].
        destruct (Z.leb_spec offset (offset + limit)); [ | lia].
        destruct (Z.leb_spec (offset + limit) (Z.of_nat (length matching)));
          [ | lia].
        cbn [andb]. unfold Tasks.ret, page. do 3 f_equal. lia.
  - unfold page. rewrite length_take. lia.
  - intros p Hp. unfold page in Hp.
    apply elem_of_take in Hp as (i & Hi & _).
    rewrite lookup_drop in Hi. apply list_elem_of_lookup_2 in Hi.
    unfold matching in Hi. apply list_elem_of_filter in Hi as [Hpass Hin].
    apply list_elem_of_fmap in Hin as ([id q] & -> & Hin). cbn [snd] in *.
    pose proof (Hstored id q Hin) as Hs.
    destruct (Halloc id q Hs) as [t Ht]. exists id, t.
    split; [exact Hs | ]. split; [exact Ht | ].
    unfold passes in Hpass. rewrite Ht in Hpass.
    apply orb_true_iff in Hpass as [H | H]; apply String.eqb_eq in H; auto.
Qed.

Section ListTasks.

Variable Atoi : string -> option Z.

(** GET /tasks with a negative [limit] -- and no [offset], or any offset
    from 0 to the number of matching tasks -- panics in the store's slice
    expression instead of answering: the handler passes the number on as
    it was parsed. *)
Theorem negative_limit_panics (s : A2AServer.Server) visit
    (query : string -> string) limit offset :
  allocated (A2AServer.memory s) ->
  visit ≡ₚ map_to_list (Tasks.tasks (A2AServer.memory s)) ->
  query "limit" <> "" ->
  Atoi (query "limit") = Some limit ->
  - 2 ^ 63 <= limit < 0 ->
  (query "offset" = "" /\ offset = 0)
  \/ (query "offset" <> "" /\ Atoi (query "offset") = Some offset) ->
  0 <= offset
  <= Z.of_nat (length (filter (fun p => passes (A2AServer.memory s)
                                          (query "agent_id") p = true)
                         visit.*2)) ->
  offset < 2 ^ 63 ->
  A2AServer.handleListTasks Atoi visit query s = None.
Proof.
  intros Halloc Hvisit Hl Hlimit Hneg Hoffset Hrange Hint.
  unfold A2AServer.handleListTasks.
  apply String.eqb_neq in Hl. rewrite Hl, Hlimit. cbn [negb].
  assert (Ho : (if negb (String.eqb (query "offset") "")
                then match Atoi (query "offset") with
                     | Some o => o
                     | None => 0
                     end
                else 0) = offset).
  { destruct Hoffset as [[-> ->] | [Hne ->]]; [reflexivity | ].
    apply String.eqb_neq in Hne. rewrite Hne. reflexivity. }
  rewrite Ho. unfold A2AServer.run, Tasks.bind at 1, Tasks.List, Tasks.bind.
  rewrite collect_run.
  2:{ intros id p Hin. rewrite Hvisit in Hin.
      apply elem_of_map_to_list in Hin. exact (Halloc id p Hin). }
  set (matching := filter _ _) in *.
  destruct (Z.ltb_spec (Z.of_nat (length matching)) offset); [lia | ].
  rewrite wrap_int_small by lia.
  destruct (Z.ltb_spec (Z.of_nat (length matching)) (offset + limit)); [lia | ].
  unfold Tasks.slice.
  destruct (Z.leb_spec offset (offset + limit)); [lia | ].
  rewrite andb_false_r. reflexivity.
Qed.

End ListTasks.

(** [create_get_delete] at a new store and a new task. *)
Lemma create_get_delete_witness :
  let t := NewTask "a1b2c3d4-0001" 1700000001 "test-agent" "search" ∅ in
  let m := {| Tasks.objects := {[ 0%nat := t ]}; Tasks.channels := ∅;
              Tasks.next := 1; Tasks.tasks := ∅; Tasks.subscribers := ∅;
              Tasks.published := [] |} in
  exists m1 m2,
    Tasks.Create 0%nat m = Some (None, m1)
    /\ Tasks.Get "a1b2c3d4-0001" m1 = Some (inl 0%nat, m1)
    /\ Tasks.Delete "a1b2c3d4-0001" m1 = Some (None, m2)
    /\ Tasks.Get "a1b2c3d4-0001" m2
       = Some (inr "task a1b2c3d4-0001 not found", m2)
    /\ Tasks.tasks m2 = ∅.
Proof.
  intros t m.
  destruct (create_get_delete m 0%nat t eq_refl eq_refl)
    as (m1 & m2 & Hc & Hg & _ & _ & _ & Hd & Hg2 & _ & Ht & _).
  exists m1, m2. repeat (split; [assumption | ]). exact Ht.
Defined.

(** [store_holds_tasks_by_reference] at the cancellation of the pending
    task of the scenario. *)
Lemma store_holds_tasks_by_reference_witness :
  exists m1,
    Tasks.Cancel 0%nat "Cancelled by user" 1700000009 Scenarios.memory_pending
    = Some (tt, m1)
    /\ (State <$> Tasks.stored m1 Scenarios.taskID) = Some TaskStateCancelled
    /\ Tasks.Update 0%nat m1 = Some (None, m1).
Proof.
  destruct (store_holds_tasks_by_reference Scenarios.memory_pending 0%nat
              Scenarios.pendingTask
              (Tasks.Cancel 0%nat "Cancelled by user" 1700000009)
              (Cancel Scenarios.pendingTask "Cancelled by user" 1700000009)
              eq_refl eq_refl)
    as (m1 & Hrun & Hstored & Hupd).
  { right. right. right. eauto. }
  exists m1. split; [exact Hrun | ]. split; [ | exact Hupd].
  change Scenarios.taskID with (ID Scenarios.pendingTask).
  rewrite Hstored. reflexivity.
Defined.

(** [List_returns_the_page] on a store of two tasks: the second page of
    size one. *)
Lemma List_returns_the_page_witness :
  let t1 := NewTask "a1b2c3d4-0001" 1700000001 "test-agent" "search" ∅ in
  let t2 := NewTask "a1b2c3d4-0002" 1700000002 "test-agent" "search" ∅ in
  let m := {| Tasks.objects := {[ 0%nat := t1; 1%nat := t2 ]};
              Tasks.channels := ∅; Tasks.next := 2;
              Tasks.tasks := {[ "a1b2c3d4-0001" := 0%nat;
                                "a1b2c3d4-0002" := 1%nat ]};
              Tasks.subscribers := ∅; Tasks.published := [] |} in
  exists page,
    Tasks.List (map_to_list (Tasks.tasks m)) "test-agent" 1 1 m
    = Some (page, m)
    /\ length page = 1%nat.
Proof.
  intros t1 t2 m.
  destruct (List_returns_the_page m (map_to_list (Tasks.tasks m))
              "test-agent" 1 1) as (Hrun & _ & _); try lia.
  - intros id p H. cbn [m Tasks.tasks] in H.
    apply lookup_insert_Some in H as [[<- <-] | [Hne H]];
      [eexists; reflexivity | ].
    apply lookup_singleton_Some in H as [<- <-]. eexists. reflexivity.
  - reflexivity.
  - eexists. split; [exact Hrun | ]. vm_compute. reflexivity.
Defined.

(** [negative_limit_panics] at GET /tasks?limit=-1 on a server without
    tasks. *)
Lemma negative_limit_panics_witness :
  A2AServer.handleListTasks
    (fun text => if String.eqb text "-1" then Some (-1) else None) []
    (fun key => if String.eqb key "limit" then "-1" else "")
    Scenarios.server
  = None.
Proof.
  apply (negative_limit_panics
           (fun text => if String.eqb text "-1" then Some (-1) else None)
           Scenarios.server []
           (fun key => if String.eqb key "limit" then "-1" else "") (-1) 0).
  - intros id p H. vm_compute in H. discriminate.
  - reflexivity.
  - discriminate.
  - reflexivity.
  - lia.
  - left. split; reflexivity.
  - cbn. lia.
  - lia.
Defined.

End RecordProofs.

(** * Proofs: budgets, usage records and agent cards *)
Module LedgerProofs.
Import A2AProtocol Notions.

Lemma CheckAndUpdate_keeps_within (bm : Cost.BudgetManager) userID cost :
  (forall u b, Cost.budgets bm !! u = Some b -> within_limit b) ->
  forall u b,
    Cost.budgets (Cost.CheckAndUpdate bm userID cost).1 !! u = Some b ->
    within_limit b
    /\ exists b0, Cost.budgets bm !! u = Some b0
                  /\ Cost.MonthlyLimitUSD b = Cost.MonthlyLimitUSD b0.
Proof.
  intros Hin u b. unfold Cost.CheckAndUpdate.
  destruct (Cost.budgets bm !! userID) as [b0 | ] eqn:Hb0; cbn [fst]; [ | eauto].
  unfold Cost.CheckBudget.
  destruct (PrimFloat.leb _ _) eqn:Hle; cbn [negb fst]; [ | eauto].
  cbn [Cost.budgets]. intros Hb.
  apply lookup_insert_Some in Hb as [[<- <-] | [Hne Hb]]; [ | eauto].
  split; [exact Hle | ]. exists b0. split; [exact Hb0 | reflexivity].
Qed.

(** Whatever is charged, in whatever order and to whichever users, no
    budget is taken beyond its limit: if every recorded spend was within
    its monthly limit before a run of CheckAndUpdate calls, every one is
    afterwards; the calls add no user and change no limit. *)
Theorem spend_never_exceeds_limit calls (bm : Cost.BudgetManager) :
  (forall u b, Cost.budgets bm !! u = Some b -> within_limit b) ->
  forall u b,
    Cost.budgets (charges calls bm) !! u = Some b ->
    within_limit b
    /\ exists b0, Cost.budgets bm !! u = Some b0
                  /\ Cost.MonthlyLimitUSD b = Cost.MonthlyLimitUSD b0.
Proof.
  revert bm. induction calls as [ | [userID cost] calls IH]; intros bm Hin u b Hb.
  - split; [exact (Hin u b Hb) | eauto].
  - unfold charges in Hb. cbn [foldl fst snd] in Hb.
    fold (charges calls (Cost.CheckAndUpdate bm userID cost).1) in Hb.
    pose proof (CheckAndUpdate_keeps_within bm userID cost Hin) as Hstep.
    destruct (IH _ (fun u b H => proj1 (Hstep u b H)) u b Hb)
      as (Hw & b1 & Hb1 & Hlim).
    split; [exact Hw | ].
    destruct (Hstep u b1 Hb1) as (_ & b0 & Hb0 & Hlim0).
    exists b0. split; [exact Hb0 | congruence].
Qed.

Lemma wrap_int_add_l a b : wrap_int (wrap_int a + b) = wrap_int (a + b).
Proof.
  unfold wrap_int. f_equal.
  replace ((a + 2 ^ 63) `mod` 2 ^ 64 - 2 ^ 63 + b + 2 ^ 63)
    with ((a + 2 ^ 63) `mod` 2 ^ 64 + b) by lia.
  rewrite Zplus_mod_idemp_l. f_equal. lia.
Qed.

Lemma total_tokens_sum records :
  forall a,
    fold_left (fun total u => wrap_int (total + Cost.TotalTokens u)) records
      (wrap_int a)
    = wrap_int (a + tokens records).
Proof.
  induction records as [ | u records IH]; intros a; cbn.
  - unfold tokens. cbn. f_equal. lia.
  - rewrite wrap_int_add_l, IH. unfold tokens. cbn. f_equal. lia.
Qed.

(** GetUsage returns, in the order of recording, the records of the user
    whose timestamp lies between start and end with both ends included;
    GetTotalTokens is the sum of their token counts as a Go int (it wraps
    around on overflow); and recording one more usage appends it, stamped
    with the clock when it came without a timestamp, to the usage of
    exactly those queries whose user and range it falls in. *)
Theorem usage_is_reported_per_user_and_range (t : Cost.Tracker) now
    (u : Cost.Usage) userID start end_ :
  let t' := (Cost.RecordUsage t now u).1 in
  let before := (Cost.GetUsage t userID start end_).1 in
  (forall r, r ∈ before <->
             r ∈ Cost.usage t
             /\ Cost.usage_UserID r = userID
             /\ time_before (Cost.usage_Timestamp r) start = false
             /\ time_before end_ (Cost.usage_Timestamp r) = false)
  /\ Cost.GetTotalTokens t userID start end_ = (wrap_int (tokens before), None)
  /\ (Cost.GetUsage t' userID start end_).1
     = before ++ (if Cost.in_range userID start end_ (stamped now u)
                  then [stamped now u] else [])
  /\ (Cost.GetTotalTokens t' userID start end_).1
     = (if Cost.in_range userID start end_ (stamped now u)
        then wrap_int ((Cost.GetTotalTokens t userID start end_).1
                       + Cost.TotalTokens u)
        else (Cost.GetTotalTokens t userID start end_).1).
Proof.
  intros t' before.
  assert (Hzero : wrap_int 0 = 0) by reflexivity.
  assert (Hrec : Cost.usage t' = Cost.usage t ++ [stamped now u]) by reflexivity.
  assert (Htotal : forall tr,
            Cost.GetTotalTokens tr userID start end_
            = (wrap_int (tokens (Cost.GetUsage tr userID start end_).1), None)).
  { intros tr. unfold Cost.GetTotalTokens, Cost.GetUsage. cbn [fst].
    rewrite <- Hzero at 1. rewrite total_tokens_sum. reflexivity. }
  assert (Happ : (Cost.GetUsage t' userID start end_).1
                 = before ++ (if Cost.in_range userID start end_ (stamped now u)
                              then [stamped now u] else [])).
  { unfold Cost.GetUsage. cbn [fst]. rewrite Hrec, List.filter_app. cbn.
    destruct (Cost.in_range _ _ _ _); reflexivity. }
  split; [ | split; [apply Htotal | split; [exact Happ | ]]].
  - intros r. unfold before, Cost.GetUsage. cbn [fst].
    rewrite (list_elem_of_In (List.filter _ _) r), List.filter_In,
      <- list_elem_of_In.
    unfold Cost.in_range, time_equal, time_after.
    rewrite !andb_true_iff, !orb_true_iff, String.eqb_eq, !bool_decide_eq_true.
    assert (Hge : forall a b : GoTime,
              a = b \/ time_before b a = true <-> time_before a b = false).
    { intros [ | x] [ | y]; cbn.
      - split; auto.
      - split; [intros [H | H]; discriminate | discriminate].
      - split; auto.
      - rewrite Z.ltb_lt, Z.ltb_ge. split.
        + intros [[= ->] | H]; lia.
        + intros H. destruct (Z.eq_dec x y) as [-> | Hne]; [auto | right; lia]. }
    assert (Hle : forall a b : GoTime,
              a = b \/ time_before a b = true <-> time_before b a = false).
    { intros a b. rewrite <- (Hge b a). split; intros [H | H]; auto. }
    rewrite Hge, Hle. tauto.
  - rewrite !Htotal, Happ. cbn [fst].
    destruct (Cost.in_range _ _ _ _); [ | rewrite app_nil_r; reflexivity].
    rewrite wrap_int_add_l. f_equal. unfold tokens.
    rewrite fmap_app, fold_right_app. cbn.
    assert (Hacc : forall l a, fold_right Z.add a l = fold_right Z.add 0 l + a).
    { induction l as [ | x l IH]; intros a; cbn; [lia | rewrite IH; lia]. }
    rewrite Hacc. unfold stamped.
    destruct (time_is_zero _); cbn [Cost.TotalTokens]; lia.
Qed.

(** *** Agent cards *)

(** Register, Get, Update and Delete on one id: a card registered under
    a fresh id is what Get returns for it; registering the id again is
    refused with 'already registered' and changes nothing (this is what
    happens to the registration in Server.Start after main registered the
    card); Update replaces the card; Delete restores the store as it was
    before the registration, and then Get, Update and Delete are refused
    with 'not found'. *)
Theorem agent_store_round_trip (s : gmap string AgentCard) (card card2 : AgentCard) :
  s !! card_ID card = None ->
  card_ID card2 = card_ID card ->
  let id := card_ID card in
  let s1 := <[id := card]> s in
  AgentCards.Register s card = (s1, None)
  /\ AgentCards.Get s1 id = inl card
  /\ AgentCards.Register s1 card2
     = (s1, Some ("agent " +:+ id +:+ " already registered"))
  /\ AgentCards.Get (AgentCards.Update s1 card2).1 id = inl card2
  /\ AgentCards.Delete s1 id = (s, None)
  /\ AgentCards.Get s id = inr ("agent " +:+ id +:+ " not found")
  /\ AgentCards.Update s card2 = (s, Some ("agent " +:+ id +:+ " not found"))
  /\ AgentCards.Delete s id = (s, Some ("agent " +:+ id +:+ " not found")).
Proof.
  intros Hfresh Hid id s1.
  unfold AgentCards.Register, AgentCards.Get, AgentCards.Update,
    AgentCards.Delete.
  subst id s1. rewrite Hid, Hfresh, !lookup_insert_eq.
  cbn [fst]. rewrite ?lookup_insert_eq.
  rewrite delete_insert_id by exact Hfresh. repeat split.
Qed.

Lemma listed_cards (s : gmap string AgentCard) visit c :
  visit ≡ₚ map_to_list s ->
  c ∈ AgentCards.List visit <-> exists id, s !! id = Some c.
Proof.
  intros Hvisit. unfold AgentCards.List. rewrite list_elem_of_fmap. split.
  - intros ([id c'] & -> & Hin). rewrite Hvisit in Hin.
    apply elem_of_map_to_list in Hin. eauto.
  - intros [id Hid]. exists (id, c). split; [reflexivity | ].
    rewrite Hvisit. apply elem_of_map_to_list. exact Hid.
Qed.

(** FindByCapability returns exactly the registered cards that list a
    capability of the given name, each once per registration; so a card
    to which a capability was added before it was registered is found
    under that capability's name. *)
Theorem agents_are_found_by_capability (s : gmap string AgentCard) visit
    (card : AgentCard) (cap : Capability_) :
  visit ≡ₚ map_to_list s ->
  (forall c name,
     c ∈ AgentCards.FindByCapability visit name
     <-> (exists id, s !! id = Some c)
         /\ exists k, k ∈ Capabilities c /\ cap_Name k = name)
  /\ (length (AgentCards.FindByCapability visit (cap_Name cap)) <= size s)%nat
  /\ (s !! card_ID card = Some (AddCapability card cap) ->
      AddCapability card cap
      ∈ AgentCards.FindByCapability visit (cap_Name cap)).
Proof.
  intros Hvisit.
  assert (Hiff : forall c name,
            c ∈ AgentCards.FindByCapability visit name
            <-> (exists id, s !! id = Some c)
                /\ exists k, k ∈ Capabilities c /\ cap_Name k = name).
  { intros c name. unfold AgentCards.FindByCapability.
    rewrite list_elem_of_In, List.filter_In, <- list_elem_of_In.
    fold (AgentCards.List visit). rewrite (listed_cards s visit c Hvisit).
    unfold AgentCards.has_capability. rewrite existsb_exists.
    split; intros [Hreg (k & Hk & Hname)]; (split; [exact Hreg | ]); exists k.
    - apply String.eqb_eq in Hname. rewrite list_elem_of_In. auto.
    - rewrite <- list_elem_of_In. split; [exact Hk | ].
      apply String.eqb_eq. exact Hname. }
  split; [exact Hiff | split].
  - unfold AgentCards.FindByCapability.
    etransitivity; [apply List.filter_length_le | ].
    rewrite length_fmap, Hvisit, length_map_to_list. reflexivity.
  - intros Hreg. apply Hiff. split; [eauto | ].
    exists cap. split; [ | reflexivity]. cbn. apply elem_of_app. right. left.
Qed.

(** GET /agent answers 404 exactly when no agent is registered, and
    otherwise 200 with one of the registered cards. *)
Theorem agent_endpoint_shows_a_registered_card (s : gmap string AgentCard) visit :
  visit ≡ₚ map_to_list s ->
  (s = ∅
   /\ A2AServer.handleGetAgentCard visit
      = {| A2AServer.answer_Status := 404;
           A2AServer.answer_Body := inl "No agent registered" |})
  \/ (exists id card,
        s !! id = Some card
        /\ A2AServer.handleGetAgentCard visit
           = {| A2AServer.answer_Status := 200;
                A2AServer.answer_Body := inr card |}).
Proof.
  intros Hvisit. unfold A2AServer.handleGetAgentCard.
  destruct (AgentCards.List visit) as [ | card rest] eqn:Hlist.
  - left. split; [ | reflexivity].
    unfold AgentCards.List in Hlist. apply fmap_nil_inv in Hlist. subst visit.
    symmetry in Hvisit. apply Permutation_nil_r in Hvisit.
    apply map_to_list_empty_iff in Hvisit. exact Hvisit.
  - right. assert (Hin : card ∈ AgentCards.List visit) by (rewrite Hlist; left).
    apply (listed_cards s visit card Hvisit) in Hin as [id Hid].
    exists id, card. split; [exact Hid | reflexivity].
Qed.

(** [spend_never_exceeds_limit] at $5 of $10 spent: $5 more is taken,
    one cent more is not, and a user without a budget changes nothing. *)
Lemma spend_never_exceeds_limit_witness :
  let bm :=
    charges [("user-1", 5%float); ("user-1", 0.01%float); ("nobody", 1%float)]
      Scenarios.halfSpent in
  exists b,
    Cost.budgets bm !! "user-1" = Some b
    /\ Cost.CurrentSpendUSD b = 10%float
    /\ within_limit b.
Proof.
  intros bm. eexists. split; [vm_compute; reflexivity | ].
  split; [reflexivity | ].
  apply (spend_never_exceeds_limit
           [("user-1", 5%float); ("user-1", 0.01%float); ("nobody", 1%float)]
           Scenarios.halfSpent) with (u := "user-1").
  - intros u b H. unfold Scenarios.halfSpent in H. cbn [Cost.budgets] in H.
    apply lookup_singleton_Some in H as [_ <-]. reflexivity.
  - vm_compute. reflexivity.
Defined.

(** [agent_store_round_trip] at the card of the scenario and a new
    store. *)
Lemma agent_store_round_trip_witness :
  AgentCards.Register AgentCards.NewStore Scenarios.agentCard
  = ({[ "test-agent" := Scenarios.agentCard ]}, None)
  /\ AgentCards.Register {[ "test-agent" := Scenarios.agentCard ]}
       Scenarios.agentCard
     = ({[ "test-agent" := Scenarios.agentCard ]},
        Some "agent test-agent already registered").
Proof.
  destruct (agent_store_round_trip AgentCards.NewStore Scenarios.agentCard
              Scenarios.agentCard eq_refl eq_refl)
    as (Hreg & _ & Hdup & _).
  split; [exact Hreg | exact Hdup].
Defined.

(** [agents_are_found_by_capability] at a store that holds the card of
    the scenario. *)
Lemma agents_are_found_by_capability_witness :
  AgentCards.FindByCapability [("test-agent", Scenarios.agentCard)] "search"
  = [Scenarios.agentCard]
  /\ AddCapability (NewAgentCard "test-agent" "Test" "1.0.0" "Test")
       {| cap_Name := "search"; cap_Description := "" |}
     ∈ AgentCards.FindByCapability [("test-agent", Scenarios.agentCard)]
         "search".
Proof.
  split; [reflexivity | ].
  destruct (agents_are_found_by_capability
              {[ "test-agent" := Scenarios.agentCard ]}
              [("test-agent", Scenarios.agentCard)]
              (NewAgentCard "test-agent" "Test" "1.0.0" "Test")
              {| cap_Name := "search"; cap_Description := "" |})
    as (_ & _ & Hfound).
  - rewrite map_to_list_singleton. reflexivity.
  - apply Hfound. reflexivity.
Defined.

(** [agent_endpoint_shows_a_registered_card] at that store. *)
Lemma agent_endpoint_shows_a_registered_card_witness :
  A2AServer.handleGetAgentCard [("test-agent", Scenarios.agentCard)]
  = {| A2AServer.answer_Status := 200;
       A2AServer.answer_Body := inr Scenarios.agentCard |}.
Proof.
  destruct (agent_endpoint_shows_a_registered_card
              {[ "test-agent" := Scenarios.agentCard ]}
              [("test-agent", Scenarios.agentCard)])
    as [[Hempty _] | (id & card & Hid & Hanswer)].
  - rewrite map_to_list_singleton. reflexivity.
  - exfalso. apply (f_equal (fun s => s !! "test-agent")) in Hempty.
    rewrite lookup_singleton_eq, lookup_empty in Hempty. discriminate.
  - apply lookup_singleton_Some in Hid as [_ <-]. exact Hanswer.
Defined.

End LedgerProofs.

(** * Proofs: the background processor *)
Module ProcessorProofs.
Import A2AProtocol Notions.

Ltac step H := rewrite (TaskProofs.bind_Some _ _ _ _ _ H).

Lemma run_UpdateState (m : Tasks.Memory) p t state now :
  Tasks.objects m !! p = Some t ->
  Tasks.UpdateState p state now m
  = Some (tt, Tasks.set_objects <[p := UpdateState t state now]> m).
Proof.
  intros H. unfold Tasks.UpdateState. step (TaskProofs.run_deref m p t H).
  reflexivity.
Qed.

(** Publishing keeps the subscribers of a task ready. *)
Lemma ready_after_publish e (m m' : Tasks.Memory) taskID :
  Tasks.subscribers_ready m taskID ->
  Tasks.subscribers m' = Tasks.subscribers m ->
  (forall ch c,
     ch ∈ default [] (Tasks.subscribers m !! taskID) ->
     Tasks.channels m !! ch = Some c ->
     Tasks.channels m' !! ch = Some (Tasks.deliver e c)) ->
  Tasks.subscribers_ready m' taskID.
Proof.
  intros [Hnd Hall] Hs Hch. unfold Tasks.subscribers_ready. rewrite Hs.
  split; [exact Hnd | ]. rewrite Forall_forall in Hall |- *.
  intros ch Hin. destruct (Hall ch Hin) as (c & Hc & Hcl).
  exists (Tasks.deliver e c). split; [exact (Hch ch c Hin Hc) | ].
  rewrite StoreProofs.deliver_closed. exact Hcl.
Qed.

(** The processor takes a stored task through running to a terminal
    state: it publishes exactly two events, 'running' and then the
    terminal one, and leaves the task completed with a result -- or
    failed, when the first byte of its id is a multiple of 10 -- with
    [completed_at] at the second clock reading.  A stored task whose id
    is shorter than eight bytes makes the processor panic at its first
    log line, after the task was already set to running. *)
Theorem processor_runs_a_task_to_the_end (m : Tasks.Memory) p t
    start stamp finish :
  Tasks.objects m !! p = Some t ->
  Tasks.tasks m !! ID t = Some p ->
  Tasks.subscribers_ready m (ID t) ->
  ((8 <= String.length (ID t))%nat ->
   exists m' t' b,
     A2AServer.processTask start stamp finish p m = Some (tt, m')
     /\ A2AServer.first_byte (ID t) = Some b
     /\ Tasks.stored m' (ID t) = Some t'
     /\ State t' = (if (b mod 10 =? 0)%nat then TaskStateFailed
                    else TaskStateCompleted)
     /\ (State t' = TaskStateCompleted -> is_Some (Result t'))
     /\ (State t' = TaskStateFailed -> Error t' = "Simulated task failure")
     /\ CompletedAt t' = instant finish
     /\ ((fun e => (ev_TaskID e, ev_State e, ev_Message e))
           <$> Tasks.published m')
        = ((fun e => (ev_TaskID e, ev_State e, ev_Message e))
             <$> Tasks.published m)
          ++ [(ID t, TaskStateRunning, "Task started");
              (ID t, State t',
               if (b mod 10 =? 0)%nat then "Task failed"
               else "Task completed successfully")])
  /\ ((String.length (ID t) < 8)%nat ->
      A2AServer.processTask start stamp finish p m = None).
Proof.
  intros Hp Hstored Hready.
  set (t1 := UpdateState t TaskStateRunning start).
  set (m1 := Tasks.set_objects <[p := t1]> m).
  assert (Hp1 : Tasks.objects m1 !! p = Some t1) by apply lookup_insert_eq.
  assert (Hupd1 : Tasks.Update p m1
                  = Some (None, Tasks.set_tasks <[ID t := p]> m1)).
  { rewrite (TaskProofs.run_Update m1 p t1 Hp1).
    change (ID t1) with (ID t).
    change (Tasks.tasks m1) with (Tasks.tasks m). rewrite Hstored. reflexivity. }
  set (m2 := Tasks.set_tasks <[ID t := p]> m1) in *.
  set (e1 := {| ev_TaskID := ID t; ev_State := TaskStateRunning;
                ev_Message := "Task started"; ev_Data := ∅;
                Timestamp := zero_time |}).
  assert (Hready2 : Tasks.subscribers_ready m2 (ev_TaskID e1)) by exact Hready.
  destruct (TaskProofs.run_PublishEvent e1 m2 Hready2)
    as (m3 & Hpub1 & Ho3 & Ht3 & Hs3 & Hp3 & Hch3).
  assert (Hobj3 : Tasks.objects m3 !! p = Some t1) by (rewrite Ho3; exact Hp1).
  assert (Hstart : forall k : bool -> Tasks.M unit,
            Tasks.bind (A2AServer.processTask_start start p) k m
            = Tasks.bind (A2AServer.log_id_prefix p) (fun _ => k true) m3).
  { intros k. unfold A2AServer.processTask_start.
    unfold Tasks.bind at 1. unfold Tasks.bind at 1.
    rewrite (run_UpdateState m p t _ _ Hp). fold t1 m1.
    unfold Tasks.bind at 1. rewrite Hupd1.
    unfold Tasks.bind at 1.
    rewrite (TaskProofs.run_deref m2 p t1 Hp1).
    change (ID t1) with (ID t). fold e1.
    unfold Tasks.bind at 1. rewrite Hpub1.
    unfold Tasks.bind. destruct (A2AServer.log_id_prefix p m3) as [[[] m'] | ];
      reflexivity. }
  split.
  - intros Hlen. destruct (TaskProofs.first_byte_Some (ID t) Hlen) as [b Hb].
    assert (Hlog : forall mx tx,
              Tasks.objects mx !! p = Some tx -> ID tx = ID t ->
              A2AServer.log_id_prefix p mx = Some (tt, mx)).
    { intros mx tx Hx Hid. apply (TaskProofs.run_log_id_prefix mx p tx Hx).
      rewrite Hid. exact Hlen. }
    unfold A2AServer.processTask. rewrite Hstart.
    step (Hlog m3 t1 Hobj3 eq_refl).
    unfold A2AServer.processTask_finish.
    step (TaskProofs.run_deref m3 p t1 Hobj3).
    change (ID t1) with (ID t). rewrite Hb.
    assert (Hready3 : Tasks.subscribers_ready m3 (ID t)).
    { apply (ready_after_publish e1 m2 m3 (ID t) Hready Hs3). exact Hch3. }
    assert (Htail : forall (t4 : Task) msg,
              ID t4 = ID t ->
              exists m',
                Tasks.bind (Tasks.Update p)
                  (fun err =>
                     match err with
                     | Some _ => Tasks.ret tt
                     | None =>
                         Tasks.bind (Tasks.deref p)
                           (fun tx =>
                              Tasks.bind
                                (Tasks.PublishEvent
                                   {| ev_TaskID := ID tx;
                                      ev_State := State t4;
                                      ev_Message := msg; ev_Data := ∅;
                                      Timestamp := zero_time |})
                                (fun _ => A2AServer.log_id_prefix p))
                     end)
                  (Tasks.set_objects <[p := t4]> m3)
                = Some (tt, m')
                /\ Tasks.stored m' (ID t) = Some t4
                /\ Tasks.published m'
                   = Tasks.published m3
                     ++ [{| ev_TaskID := ID t; ev_State := State t4;
                            ev_Message := msg; ev_Data := ∅;
                            Timestamp := zero_time |}]).
    { intros t4 msg Hid.
      set (m4 := Tasks.set_objects <[p := t4]> m3).
      assert (Hp4 : Tasks.objects m4 !! p = Some t4) by apply lookup_insert_eq.
      assert (Hupd4 : Tasks.Update p m4
                      = Some (None, Tasks.set_tasks <[ID t := p]> m4)).
      { rewrite (TaskProofs.run_Update m4 p t4 Hp4), Hid.
        change (Tasks.tasks m4) with (Tasks.tasks m3).
        rewrite Ht3. cbn [Tasks.tasks m2 Tasks.set_tasks].
        rewrite lookup_insert_eq. reflexivity. }
      set (m5 := Tasks.set_tasks <[ID t := p]> m4) in *.
      set (e2 := {| ev_TaskID := ID t; ev_State := State t4;
                    ev_Message := msg; ev_Data := ∅;
                    Timestamp := zero_time |}).
      assert (Hready5 : Tasks.subscribers_ready m5 (ev_TaskID e2))
        by exact Hready3.
      destruct (TaskProofs.run_PublishEvent e2 m5 Hready5)
        as (m6 & Hpub2 & Ho6 & Ht6 & Hs6 & Hp6 & _).
      assert (Hobj6 : Tasks.objects m6 !! p = Some t4)
        by (rewrite Ho6; exact Hp4).
      exists m6. split; [ | split].
      - step Hupd4. step (TaskProofs.run_deref m5 p t4 Hp4).
        rewrite Hid. fold e2. step Hpub2. exact (Hlog m6 t4 Hobj6 Hid).
      - unfold Tasks.stored. rewrite Ht6. cbn [Tasks.tasks m5 Tasks.set_tasks].
        rewrite lookup_insert_eq. cbn. exact Hobj6.
      - rewrite Hp6. reflexivity. }
    assert (Hevents : forall m' e,
              Tasks.published m' = Tasks.published m3 ++ [e] ->
              (fun e => (ev_TaskID e, ev_State e, ev_Message e))
                <$> Tasks.published m'
              = ((fun e => (ev_TaskID e, ev_State e, ev_Message e))
                   <$> Tasks.published m)
                ++ [(ID t, TaskStateRunning, "Task started");
                    (ev_TaskID e, ev_State e, ev_Message e)]).
    { intros m' e ->. rewrite Hp3. cbn [Tasks.published m2 m1
        Tasks.set_tasks Tasks.set_objects].
      rewrite !fmap_app, <- app_assoc. reflexivity. }
    destruct (b mod 10 =? 0)%nat eqn:Hmod; cbn [negb].
    + step (TaskProofs.run_SetError m3 p t1 "Simulated task failure" finish
              Hobj3).
      destruct (Htail (SetError t1 "Simulated task failure" finish)
                  "Task failed" eq_refl) as (m' & Hrun & Hst & Hpub).
      exists m', (SetError t1 "Simulated task failure" finish), b.
      rewrite Hmod.
      split; [exact Hrun | ]. split; [reflexivity | ].
      split; [exact Hst | ]. split; [reflexivity | ].
      split; [discriminate | ]. split; [reflexivity | ].
      split; [reflexivity | ]. exact (Hevents m' _ Hpub).
    + match goal with
      | |- context [Tasks.SetResult p ?r finish] =>
          step (TaskProofs.run_SetResult m3 p t1 r finish Hobj3);
          destruct (Htail (SetResult t1 r finish)
                      "Task completed successfully" eq_refl)
            as (m' & Hrun & Hst & Hpub);
          exists m', (SetResult t1 r finish), b
      end.
      rewrite Hmod.
      split; [exact Hrun | ]. split; [reflexivity | ].
      split; [exact Hst | ]. split; [reflexivity | ].
      split; [intros _; eexists; reflexivity | ].
      split; [discriminate | ].
      split; [reflexivity | ]. exact (Hevents m' _ Hpub).
  - intros Hshort. unfold A2AServer.processTask. rewrite Hstart.
    unfold Tasks.bind, A2AServer.log_id_prefix, Tasks.bind, Tasks.deref.
    rewrite Hobj3. change (ID t1) with (ID t).
    destruct (Nat.ltb_spec (String.length (ID t)) 8); [reflexivity | lia].
Qed.

(** [processor_runs_a_task_to_the_end] at the pending task of the
    scenario, whose id starts with the byte 97. *)
Lemma processor_runs_a_task_to_the_end_witness :
  exists m' t',
    A2AServer.processTask 1700000001 1700000004 1700000005 0%nat
      Scenarios.memory_pending = Some (tt, m')
    /\ Tasks.stored m' Scenarios.taskID = Some t'
    /\ State t' = TaskStateCompleted
    /\ CompletedAt t' = instant 1700000005.
Proof.
  assert (Hsubs : default [] (Tasks.subscribers Scenarios.memory_pending
                                !! Scenarios.taskID) = [1%nat])
    by (vm_compute; reflexivity).
  destruct (processor_runs_a_task_to_the_end Scenarios.memory_pending 0%nat
              Scenarios.pendingTask 1700000001 1700000004 1700000005
              eq_refl eq_refl) as [Hrun _].
  - unfold Tasks.subscribers_ready.
    change (ID Scenarios.pendingTask) with Scenarios.taskID.
    rewrite Hsubs. split; [apply NoDup_singleton | ].
    constructor; [ | constructor].
    exists {| Tasks.buffer := []; Tasks.closed := false |}.
    split; reflexivity.
  - destruct Hrun as (m' & t' & b & Hrun & Hb & Hst & Hstate & _ & _ & Hdone & _).
    { cbn. lia. }
    exists m', t'. split; [exact Hrun | ]. split; [exact Hst | ].
    split; [ | exact Hdone].
    rewrite Hstate. vm_compute in Hb. injection Hb as <-. reflexivity.
Defined.

End ProcessorProofs.
